(** * Telegram-to-Matrix conversation router: a shallow embedding

    The three scripts of the repository
      - scripts/telegram-department-router.py   (class DepartmentRouter)
      - scripts/telegram-space-integration.py   (class TelegramSpaceIntegration)
      - scripts/telegram-department-bot.py      (class TelegramDepartmentBot)
    are embedded as Rocq functions in a state-and-exception monad; of
    create_users.py the message of the registration MAC is embedded.  The
    state is the Python object ([self]) together with the observable
    effects of a run: the HTTP requests issued to the Matrix homeserver,
    the calls made on the Telegram side, and the log.  The homeserver, the
    event-loop clock and the random source are an [environment] the program
    cannot change: the homeserver answers each request as a function of the
    requests issued so far.

    Modelling conventions.
      - An [Optional[str]] is an [option string]; Python's truthiness of
        such a value is [truthy].
      - A raised Python exception is [Raise msg]; [try_except] is
        [try: ... except Exception as e: ...].
      - Calls on the Telegram side (respond, edit, reply_text, answer) are
        recorded and never raise.
      - Of a homeserver reply the program reads the status, the text and
        the [room_id] member of the JSON body; the latter is a string when
        present.
      - Events are handled one at a time, each handler running to its end
        ([run]); two handlers interleaving at an [await] are not modelled.
      - Records stand for the configuration dictionaries, so that a missing
        key is excluded by the type. *)

From stdpp Require Import gmap strings list.
From Stdlib Require Import ZArith Ascii DecimalString.

Open Scope Z_scope.
Set Warnings "-register-all".

(** ** Python strings *)

Definition nl : string := String (Ascii.ascii_of_nat 10) EmptyString.
Definition dq : string := String (Ascii.ascii_of_nat 34) EmptyString.

(** [str(n)] for an int. *)
Definition str_of_int (n : Z) : string := NilZero.string_of_int (Z.to_int n).

(** Truthiness of an [Optional[str]]: [None] and [''] are falsy. *)
Definition truthy (s : option string) : bool :=
  match s with
  | Some EmptyString => false
  | Some _ => true
  | None => false
  end.

(** [a or b] where [a] is an [Optional[str]] and the result is formatted. *)
Definition or_else (a : option string) (b : string) : string :=
  match a with
  | Some EmptyString => b
  | Some s => s
  | None => b
  end.

(** An [Optional[str]] inside an f-string. *)
Definition fmt (s : option string) : string :=
  match s with
  | Some s => s
  | None => "None"
  end.

(** [s.startswith(p)] *)
Definition startswith (p s : string) : bool := String.prefix p s.

(** [s[n:]] *)
Definition drop_prefix (n : nat) (s : string) : string :=
  String.substring n (String.length s - n) s.

(** [s[:n]]; strings are sequences of bytes here, which is Python's
    slice on ASCII text. *)
Definition take_prefix (n : nat) (s : string) : string := String.substring 0 n s.

(** [s.split(' ', 1)]: the text before the first space and, when there is
    a space, the text after it. *)
Fixpoint split_space (s : string) : string * option string :=
  match s with
  | EmptyString => (EmptyString, None)
  | String c s' =>
      if Ascii.eqb c " "%char then (EmptyString, Some s')
      else let '(h, t) := split_space s' in (String c h, t)
  end.

(** [s.replace(old, new)] for a non-empty [old]: [skip] counts the
    characters of a match that are still to be dropped. *)
Fixpoint replace_from (old new : string) (skip : nat) (s : string) : string :=
  match s with
  | EmptyString => EmptyString
  | String c s' =>
      match skip with
      | S k => replace_from old new k s'
      | O =>
          if String.prefix old s
          then new +:+ replace_from old new (String.length old - 1) s'
          else String c (replace_from old new O s')
      end
  end.

Definition replace (old new s : string) : string := replace_from old new O s.

(** ** JSON payloads *)

Inductive json : Type :=
  | JNull
  | JBool (b : bool)
  | JInt (n : Z)
  | JStr (s : string)
  | JList (l : list json)
  | JDict (fields : list (string * json)).

(** [d.get(k)] on a JSON value. *)
Definition jget (k : string) (j : json) : option json :=
  match j with
  | JDict fields => snd <$> List.find (fun kv => String.eqb (fst kv) k) fields
  | _ => None
  end.

(** ** The Matrix homeserver *)

Inductive http_method := POST | PUT | GET.

(** The paths below [{homeserver}/_matrix/client/v3]. *)
Inductive endpoint : Type :=
  | CreateRoom
  | RoomInvite (room_id : string)
  | SpaceChild (parent_id child_id : string)
  | SendMessage (room_id : string)
  | SendMessageTxn (room_id txn_id : string)
  | Profile (user_id : string)
  | WhoAmI.

Definition path_of (e : endpoint) : string :=
  match e with
  | CreateRoom => "/_matrix/client/v3/createRoom"
  | RoomInvite r => "/_matrix/client/v3/rooms/" +:+ r +:+ "/invite"
  | SpaceChild p c =>
      "/_matrix/client/v3/rooms/" +:+ p +:+ "/state/m.space.child/" +:+ c
  | SendMessage r => "/_matrix/client/v3/rooms/" +:+ r +:+ "/send/m.room.message"
  | SendMessageTxn r t =>
      "/_matrix/client/v3/rooms/" +:+ r +:+ "/send/m.room.message/" +:+ t
  | Profile u => "/_matrix/client/v3/profile/" +:+ u
  | WhoAmI => "/_matrix/client/v3/account/whoami"
  end.

Record request := {
  req_method : http_method;
  req_homeserver : string;
  req_endpoint : endpoint;
  req_token : string;          (* Authorization: Bearer {token} *)
  req_json : json
}.

Definition url (r : request) : string := req_homeserver r +:+ path_of (req_endpoint r).

Inductive json_body := NotJson | JsonObject (room_id : option string).

Record response := {
  status : Z;
  text : string;
  body : json_body
}.

(** What a request comes back with: a response, or an exception raised by
    the HTTP client (connection refused, timeout, ...). *)
Inductive answer := Reply (r : response) | ClientError (msg : string).

Record environment := {
  server : list request -> request -> answer;
  loop_time_ms : nat -> Z;       (* int(loop.time() * 1000) after k requests *)
  uuid4 : nat -> string;         (* str(uuid.uuid4()), k-th draw *)
  datetime_now : nat -> string   (* datetime.now().isoformat(), k-th reading *)
}.

(** ** The Telegram side *)

Record user := {
  user_id : Z;
  first_name : option string;
  last_name : option string;
  username : option string
}.

Record button := { button_text : string; button_data : string }.

Inductive telegram_call : Type :=
  | Respond (chat : Z) (msg : string) (buttons : option (list (list button)))
  | Edit (chat : Z) (msg : string)
  | ReplyText (chat : Z) (msg : string) (buttons : option (list (list button)))
  | Answer (chat : Z)
  | EditMessageText (chat : Z) (msg : string).

(** A NewMessage event (its text) or a CallbackQuery event (its data). *)
Record event := { sender : user; payload : string }.

(** ** Logging *)

Inductive level := INFO | WARNING | ERROR | DEBUG.

Record io := {
  env : environment;
  requests : list request;
  telegram : list telegram_call;
  logs : list (level * string);
  draws : nat                     (* uuid4 and datetime.now readings so far *)
}.

Definition add_request (r : request) (i : io) : io :=
  {| env := env i; requests := requests i ++ [r]; telegram := telegram i;
     logs := logs i; draws := draws i |}.

Definition add_telegram (c : telegram_call) (i : io) : io :=
  {| env := env i; requests := requests i; telegram := telegram i ++ [c];
     logs := logs i; draws := draws i |}.

Definition add_log (l : level) (m : string) (i : io) : io :=
  {| env := env i; requests := requests i; telegram := telegram i;
     logs := logs i ++ [(l, m)]; draws := draws i |}.

Definition add_draw (i : io) : io :=
  {| env := env i; requests := requests i; telegram := telegram i;
     logs := logs i; draws := S (draws i) |}.

(** ** The monad: state and exceptions *)

Inductive result (A : Type) : Type :=
  | Ok (a : A)
  | Raise (e : string).
Arguments Ok {A} a.
Arguments Raise {A} e.

Definition M (W A : Type) : Type := W -> result A * W.

Definition ret {W A} (a : A) : M W A := fun w => (Ok a, w).

Definition bind {W A B} (m : M W A) (k : A -> M W B) : M W B :=
  fun w =>
    match m w with
    | (Ok a, w') => k a w'
    | (Raise e, w') => (Raise e, w')
    end.

Definition raise {W A} (e : string) : M W A := fun w => (Raise e, w).

(** [try: body  except Exception as e: handler e] *)
Definition try_except {W A} (body : M W A) (handler : string -> M W A) : M W A :=
  fun w =>
    match body w with
    | (Ok a, w') => (Ok a, w')
    | (Raise e, w') => handler e w'
    end.

Declare Scope monad_scope.
Delimit Scope monad_scope with M.
Notation "x <- c1 ;;; c2" := (bind c1 (fun x => c2))
  (at level 100, c1 at next level, right associativity) : monad_scope.
Notation "c1 ;;; c2" := (bind c1 (fun _ => c2))
  (at level 100, right associativity) : monad_scope.
Open Scope monad_scope.

(** The objects of the three scripts all carry the effects. *)
Class World (W : Type) := {
  get_io : W -> io;
  set_io : io -> W -> W
}.

Section Primitives.
Context {W : Type} `{World W}.

Definition log (l : level) (m : string) : M W unit :=
  fun w => (Ok tt, set_io (add_log l m (get_io w)) w).

Definition tg (c : telegram_call) : M W unit :=
  fun w => (Ok tt, set_io (add_telegram c (get_io w)) w).

(** [async with session.<method>(url, json=..., headers=...) as resp] *)
Definition http (r : request) : M W response :=
  fun w =>
    let i := get_io w in
    let w' := set_io (add_request r i) w in
    match server (env i) (requests i) r with
    | Reply resp => (Ok resp, w')
    | ClientError e => (Raise e, w')
    end.

(** [await resp.json()] followed by [.get('room_id')] *)
Definition json_room_id (resp : response) : M W (option string) :=
  match body resp with
  | JsonObject r => ret r
  | NotJson => raise "Expecting value"
  end.

(** [str(int(asyncio.get_event_loop().time() * 1000))] *)
Definition order_key : M W string :=
  fun w =>
    let i := get_io w in
    (Ok (str_of_int (loop_time_ms (env i) (length (requests i)))), w).

(** [str(uuid.uuid4())] *)
Definition new_uuid : M W string :=
  fun w =>
    let i := get_io w in
    (Ok (uuid4 (env i) (draws i)), set_io (add_draw i) w).

(** [datetime.now().isoformat()] *)
Definition now_iso : M W string :=
  fun w =>
    let i := get_io w in
    (Ok (datetime_now (env i) (draws i)), set_io (add_draw i) w).
End Primitives.

(** ** Department configuration (config['departments'] of the YAML file) *)

Record matrix_config := {
  homeserver : string;
  access_token : string;
  bot_user_id : string;
  support_users : option (list string)     (* absent: .get(..., []) *)
}.

Record department := {
  dept_id : string;
  dept_name : string;
  dept_icon : string;
  dept_description : string;
  dept_matrix : matrix_config
}.

(** The session dictionaries of the router and of the space integration:
    [{"state": "selecting_department"}] or
    [{"state": "chatting", "department": ..., "matrix_room_id": ...}]. *)
Inductive session : Type :=
  | selecting_department
  | chatting (department : department) (matrix_room_id : string).

Definition bearer_request (m : http_method) (hs : string) (e : endpoint)
    (token : string) (j : json) : request :=
  {| req_method := m; req_homeserver := hs; req_endpoint := e;
     req_token := token; req_json := j |}.

(** * scripts/telegram-department-router.py *)

Module Router.

Record self := {
  departments : list department;          (* self.config['departments'] *)
  user_sessions : gmap Z session;
  net : io
}.

#[global] Instance self_world : World self := {|
  get_io := net;
  set_io := fun i s =>
    {| departments := departments s; user_sessions := user_sessions s; net := i |}
|}.

Definition set_session (uid : Z) (s : session) : M self unit :=
  fun w =>
    (Ok tt, {| departments := departments w;
               user_sessions := <[uid := s]> (user_sessions w);
               net := net w |}).

Definition get_department_by_id (w : self) (id : string) : option department :=
  List.find (fun dept => String.eqb (dept_id dept) id) (departments w).

Definition get_departments_keyboard (w : self) : list (list button) :=
  List.map
    (fun dept =>
       [ {| button_text := dept_icon dept +:+ " " +:+ dept_name dept;
            button_data := "dept_" +:+ dept_id dept |} ])
    (departments w).

Definition invite_request (room_id : option string) (user_id : string)
    (department : department) : request :=
  let homeserver := homeserver (dept_matrix department) in
  let access_token := access_token (dept_matrix department) in
  let invite_data := JDict [("user_id", JStr user_id)] in
  bearer_request POST homeserver (RoomInvite (fmt room_id)) access_token invite_data.

Definition invite_to_room (room_id : option string) (user_id : string)
    (department : department) : M self unit :=
  try_except
    (resp <- http (invite_request room_id user_id department) ;;;
     if status resp =? 200 then
       log INFO ("Invited " +:+ user_id +:+ " to room " +:+ fmt room_id)
     else
       let error_text := text resp in
       log ERROR ("Failed to invite " +:+ user_id +:+ " to room: "
                  +:+ str_of_int (status resp) +:+ " - " +:+ error_text))
    (fun e => log ERROR ("Error inviting user to room: " +:+ e)).

Definition user_display (telegram_user : user) : string :=
  or_else (first_name telegram_user)
    (or_else (username telegram_user)
       ("User_" +:+ str_of_int (user_id telegram_user))).

Definition room_data (department : department) (telegram_user : user) : json :=
  JDict [
    ("name", JStr ("Telegram Support - " +:+ dept_name department +:+ " - "
                   +:+ user_display telegram_user));
    ("topic", JStr ("Support conversation from Telegram user "
                    +:+ or_else (username telegram_user)
                          (str_of_int (user_id telegram_user))));
    ("preset", JStr "private_chat");
    ("is_direct", JBool true);
    ("creation_content", JDict [("m.federate", JBool false)])
  ].

Definition create_room_request (department : department) (telegram_user : user)
    : request :=
  bearer_request POST (homeserver (dept_matrix department)) CreateRoom
    (access_token (dept_matrix department)) (room_data department telegram_user).

Definition create_matrix_room (department : department) (telegram_user : user)
    : M self (option string) :=
  try_except
    (let bot_user_id := bot_user_id (dept_matrix department) in
     resp <- http (create_room_request department telegram_user) ;;;
     if status resp =? 200 then
       room_id <- json_room_id resp ;;;
       log INFO ("Created Matrix room " +:+ fmt room_id +:+ " for department "
                 +:+ dept_id department) ;;;
       invite_to_room room_id bot_user_id department ;;;
       ret room_id
     else
       let error_text := text resp in
       log ERROR ("Failed to create Matrix room: " +:+ str_of_int (status resp)
                  +:+ " - " +:+ error_text) ;;;
       ret None)
    (fun e => log ERROR ("Error creating Matrix room: " +:+ e) ;;; ret None).

Definition message_data (message : string) (telegram_user : user) : json :=
  let display := or_else (first_name telegram_user) "Unknown" in
  let handle :=
    or_else (username telegram_user) (str_of_int (user_id telegram_user)) in
  JDict [
    ("msgtype", JStr "m.text");
    ("body", JStr ("[Telegram User: " +:+ display +:+ " (@" +:+ handle +:+ ")] "
                   +:+ message));
    ("format", JStr "org.matrix.custom.html");
    ("formatted_body", JStr ("<b>Telegram User:</b> " +:+ display +:+ " (@"
                             +:+ handle +:+ ")<br/>" +:+ message))
  ].

Definition send_request (room_id message : string) (department : department)
    (telegram_user : user) : request :=
  bearer_request POST (homeserver (dept_matrix department)) (SendMessage room_id)
    (access_token (dept_matrix department)) (message_data message telegram_user).

(** The function has no [return] statement: it yields [None] on every
    path, here [tt]. *)
Definition send_matrix_message (room_id message : string)
    (department : department) (telegram_user : user) : M self unit :=
  try_except
    (resp <- http (send_request room_id message department telegram_user) ;;;
     if status resp =? 200 then
       log INFO ("Sent message to Matrix room " +:+ room_id)
     else
       log ERROR ("Failed to send Matrix message: " +:+ str_of_int (status resp)))
    (fun e => log ERROR ("Error sending Matrix message: " +:+ e)).

Definition confirmation_message (department : department) : string :=
  "âœ… Connected to " +:+ dept_icon department +:+ " **"
  +:+ dept_name department +:+ "**" +:+ nl +:+ nl
  +:+ dept_description department +:+ nl +:+ nl
  +:+ "You can now send your message and our team will respond shortly!".

Definition initial_message (user : user) : string :=
  "New Telegram conversation started with user "
  +:+ or_else (first_name user) "Unknown" +:+ " (@"
  +:+ or_else (username user) (str_of_int (user_id user)) +:+ ")".

Definition connect_failed : string :=
  "âŒ Sorry, I couldn't connect you to that department. Please try again later.".

Definition select_department (event : event) (department : department)
    (user : user) : M self unit :=
  let user_id := user_id user in
  room_id <- create_matrix_room department user ;;;
  match room_id with
  | Some (String _ _ as room_id) =>
      set_session user_id (chatting department room_id) ;;;
      tg (Respond user_id (confirmation_message department) None) ;;;
      send_matrix_message room_id (initial_message user) department user
  | _ =>
      tg (Respond user_id connect_failed None)
  end.

Definition welcome_message (user : user) : string :=
  "ðŸ‘‹ Welcome " +:+ or_else (first_name user) "there" +:+ "!" +:+ nl +:+ nl
  +:+ "I'm your support bot. Please select the department you'd like to contact:".

Definition handle_start_command (event : event) (department_id : option string)
    : M self unit :=
  fun w =>
    let user := sender event in
    let user_id := user_id user in
    let department :=
      match department_id with
      | Some (String _ _ as id) => get_department_by_id w id
      | _ => None
      end in
    match department with
    | Some department => select_department event department user w
    | None =>
        (tg (Respond user_id (welcome_message user)
               (Some (get_departments_keyboard w))) ;;;
         set_session user_id selecting_department) w
    end.

Definition not_found : string := "âŒ Department not found. Please try again.".

Definition handle_callback_query (event : event) : M self unit :=
  fun w =>
    let user := sender event in
    let data := payload event in
    if startswith "dept_" data then
      let department_id := drop_prefix 5 data in
      match get_department_by_id w department_id with
      | Some department =>
          (tg (Edit (user_id user)
                 ("Connecting you to " +:+ dept_icon department +:+ " "
                  +:+ dept_name department +:+ "...")) ;;;
           select_department event department user) w
      | None => tg (Edit (user_id user) not_found) w
      end
    else ret tt w.

Definition handle_message (event : event) : M self unit :=
  fun w =>
    let user := sender event in
    let message_text := payload event in
    match user_sessions w !! user_id user with
    | Some (chatting department room_id) =>
        send_matrix_message room_id message_text department user w
    | _ => handle_start_command event None w
    end.

(** The handlers registered by [setup_handlers]. *)
Definition start_handler (event : event) : M self unit :=
  let command_text := payload event in
  let department_id := snd (split_space command_text) in
  handle_start_command event department_id.

Definition callback_handler (event : event) : M self unit :=
  handle_callback_query event.

Definition message_handler (event : event) : M self unit :=
  if startswith "/" (payload event) then ret tt
  else handle_message event.

(** Telethon runs, in the order of registration, every NewMessage handler
    whose pattern matches; [pattern='/start'] is [re.match], a match at
    the start of the text. *)
Definition on_new_message (event : event) : M self unit :=
  (if startswith "/start" (payload event) then start_handler event else ret tt) ;;;
  message_handler event.

(** The event loop hands the events to the handlers one at a time. *)
Inductive incoming : Type :=
  | NewMessage (event : event)
  | CallbackQuery (event : event).

Definition dispatch (i : incoming) : M self unit :=
  match i with
  | NewMessage event => on_new_message event
  | CallbackQuery event => callback_handler event
  end.

Fixpoint run (events : list incoming) : M self unit :=
  match events with
  | [] => ret tt
  | i :: rest => dispatch i ;;; run rest
  end.

(** What a call did to the object: the sessions it left, the requests it
    issued and the Telegram calls it made (the log is not tracked). *)
Definition effect (w w' : self) (sessions : gmap Z session)
    (new : list request) (out : list telegram_call) : Prop :=
  departments w' = departments w /\
  user_sessions w' = sessions /\
  env (net w') = env (net w) /\
  requests (net w') = requests (net w) ++ new /\
  telegram (net w') = telegram (net w) ++ out.

(** The user an event comes from. *)
Definition sender_of (i : incoming) : user :=
  match i with
  | NewMessage event => sender event
  | CallbackQuery event => sender event
  end.

(** A session table in which every conversation has a room with a
    non-empty id and a department of the configuration. *)
Definition well_formed (w : self) : Prop :=
  forall uid d room,
    user_sessions w !! uid = Some (chatting d room) ->
    room <> "" /\ In d (departments w).

(** What one event may do to the session table: nothing, put its sender
    back to the selection of a department, or put its sender in
    conversation with a configured department in a room with an id. *)
Definition session_step (w : self) (uid : Z) (sessions : gmap Z session) : Prop :=
  sessions = user_sessions w \/
  sessions = <[uid := selecting_department]> (user_sessions w) \/
  exists d room,
    In d (departments w) /\ room <> "" /\
    sessions = <[uid := chatting d room]> (user_sessions w).

End Router.

(** * scripts/telegram-space-integration.py *)

(** spaces.yaml: [spaces.rootSpace] and [spaces.communicationChannels]. *)
Record space_config := {
  space_id : string;
  space_name : string;
  space_topic : string
}.

Record spaces_config := {
  rootSpace : space_config;
  communicationChannels : list space_config
}.

Module Space.

Record self := {
  departments : list department;          (* self.config['departments'] *)
  spaces : spaces_config;                 (* self.spaces_config['spaces'] *)
  user_sessions : gmap Z session;
  space_cache : gmap string (option string);
  net : io
}.

#[global] Instance self_world : World self := {|
  get_io := net;
  set_io := fun i s =>
    {| departments := departments s; spaces := spaces s;
       user_sessions := user_sessions s; space_cache := space_cache s;
       net := i |}
|}.

Definition set_session (uid : Z) (s : session) : M self unit :=
  fun w =>
    (Ok tt, {| departments := departments w; spaces := spaces w;
               user_sessions := <[uid := s]> (user_sessions w);
               space_cache := space_cache w; net := net w |}).

Definition set_cache (key : string) (v : option string) : M self unit :=
  fun w =>
    (Ok tt, {| departments := departments w; spaces := spaces w;
               user_sessions := user_sessions w;
               space_cache := <[key := v]> (space_cache w); net := net w |}).

Definition get_department_by_id (w : self) (id : string) : option department :=
  List.find (fun dept => String.eqb (dept_id dept) id) (departments w).

Definition get_departments_keyboard (w : self) : list (list button) :=
  List.map
    (fun dept =>
       [ {| button_text := dept_icon dept +:+ " " +:+ dept_name dept;
            button_data := "dept_" +:+ dept_id dept |} ])
    (departments w).

(** [self.config['departments'][0]['matrix']] *)
Definition admin_matrix : M self matrix_config :=
  fun w =>
    match departments w with
    | d :: _ => ret (dept_matrix d) w
    | [] => raise "list index out of range" w
    end.

Definition space_room_data (c : space_config) : json :=
  JDict [
    ("name", JStr (space_name c));
    ("topic", JStr (space_topic c));
    ("preset", JStr "private_chat");
    ("creation_content", JDict [("type", JStr "m.space")])
  ].

(** The createRoom request for a space, with the admin credentials. *)
Definition space_request (admin : matrix_config) (c : space_config) : request :=
  let admin_token := access_token admin in
  let homeserver := homeserver admin in
  bearer_request POST homeserver CreateRoom admin_token (space_room_data c).

Definition ensure_root_space : M self (option string) :=
  try_except
    (admin <- admin_matrix ;;;
     root_config <- (fun w => ret (rootSpace (spaces w)) w) ;;;
     resp <- http (space_request admin root_config) ;;;
     if status resp =? 200 then
       space_id <- json_room_id resp ;;;
       log INFO ("Created/ensured root space: " +:+ fmt space_id) ;;;
       ret space_id
     else
       let error_text := text resp in
       log ERROR ("Failed to create root space: " +:+ str_of_int (status resp)
                  +:+ " - " +:+ error_text) ;;;
       raise ("Failed to create root space: " +:+ str_of_int (status resp)))
    (fun e => log ERROR ("Error ensuring root space: " +:+ e) ;;; raise e).

Definition child_state_data (order : string) : json :=
  JDict [ ("via", JList [JStr "localhost"]); ("order", JStr order) ].

(** The [m.space.child] state event that puts [child] below [parent]. *)
Definition child_request (child parent : option string)
    (access_token homeserver order : string) : request :=
  bearer_request PUT homeserver (SpaceChild (fmt parent) (fmt child)) access_token
    (child_state_data order).

Definition add_space_to_parent (child_space_id parent_space_id : option string)
    (access_token homeserver : string) : M self unit :=
  try_except
    (order <- order_key ;;;
     resp <- http (child_request child_space_id parent_space_id access_token
                     homeserver order) ;;;
     if status resp =? 200 then
       log INFO ("Added space " +:+ fmt child_space_id +:+ " to parent "
                 +:+ fmt parent_space_id)
     else
       let error_text := text resp in
       log WARNING ("Failed to add space to parent: "
                    +:+ str_of_int (status resp) +:+ " - " +:+ error_text))
    (fun e => log ERROR ("Error adding space to parent: " +:+ e)).

Definition ensure_telegram_space (root_space_id : option string)
    : M self (option string) :=
  try_except
    (admin <- admin_matrix ;;;
     let admin_token := access_token admin in
     let homeserver := homeserver admin in
     channels <- (fun w => ret (communicationChannels (spaces w)) w) ;;;
     match List.find (fun channel => String.eqb (space_id channel) "telegram")
             channels with
     | None => raise "Telegram space configuration not found"
     | Some telegram_config =>
         resp <- http (space_request admin telegram_config) ;;;
         if status resp =? 200 then
           space_id <- json_room_id resp ;;;
           log INFO ("Created/ensured Telegram space: " +:+ fmt space_id) ;;;
           add_space_to_parent space_id root_space_id admin_token homeserver ;;;
           ret space_id
         else
           let error_text := text resp in
           log ERROR ("Failed to create Telegram space: "
                      +:+ str_of_int (status resp) +:+ " - " +:+ error_text) ;;;
           raise ("Failed to create Telegram space: "
                  +:+ str_of_int (status resp))
     end)
    (fun e => log ERROR ("Error ensuring Telegram space: " +:+ e) ;;; raise e).

Definition ensure_telegram_space_hierarchy : M self (option string) :=
  try_except
    (fun w =>
       match space_cache w !! "telegram" with
       | Some cached => ret cached w
       | None =>
           (root_space_id <- ensure_root_space ;;;
            telegram_space_id <- ensure_telegram_space root_space_id ;;;
            set_cache "telegram" telegram_space_id ;;;
            ret telegram_space_id) w
       end)
    (fun e =>
       log ERROR ("Failed to ensure Telegram space hierarchy: " +:+ e) ;;;
       raise e).

Definition add_room_to_space (room_id space_id : option string)
    (access_token homeserver : string) : M self unit :=
  try_except
    (order <- order_key ;;;
     resp <- http (child_request room_id space_id access_token homeserver
                     order) ;;;
     if status resp =? 200 then
       log INFO ("Added room " +:+ fmt room_id +:+ " to Telegram space "
                 +:+ fmt space_id)
     else
       let error_text := text resp in
       log WARNING ("Failed to add room to space: "
                    +:+ str_of_int (status resp) +:+ " - " +:+ error_text))
    (fun e => log ERROR ("Error adding room to space: " +:+ e)).

Definition invite_request (room_id : option string) (homeserver access_token
    user_id : string) : request :=
  bearer_request POST homeserver (RoomInvite (fmt room_id)) access_token
    (JDict [("user_id", JStr user_id)]).

(** The [for user_id in support_users] loop; an exception leaves it. *)
Fixpoint invite_each (room_id : option string) (department : department)
    (homeserver access_token : string) (support_users : list string)
    : M self unit :=
  match support_users with
  | [] => ret tt
  | user_id :: rest =>
      if String.eqb user_id (bot_user_id (dept_matrix department)) then
        invite_each room_id department homeserver access_token rest
      else
        resp <- http (invite_request room_id homeserver access_token user_id) ;;;
        (if status resp =? 200 then
           log INFO ("Invited " +:+ user_id +:+ " to room " +:+ fmt room_id)
         else
           let error_text := text resp in
           log WARNING ("Failed to invite " +:+ user_id +:+ " to room: "
                        +:+ str_of_int (status resp) +:+ " - " +:+ error_text)) ;;;
        invite_each room_id department homeserver access_token rest
  end.

(** The users the loop does not skip. *)
Definition staff_to_invite (department : department) : list string :=
  List.filter
    (fun user_id => negb (String.eqb user_id (bot_user_id (dept_matrix department))))
    (default [] (support_users (dept_matrix department))).

Definition invite_support_users_to_room (room_id : option string)
    (department : department) (homeserver access_token : string) : M self unit :=
  try_except
    (let support_users := default [] (support_users (dept_matrix department)) in
     invite_each room_id department homeserver access_token support_users)
    (fun e => log ERROR ("Error inviting support users to room: " +:+ e)).

Definition get_or_create_telegram_ghost (telegram_user : user)
    (homeserver access_token : string) : M self (option string) :=
  try_except
    (let ghost_user_id :=
       "@telegram_" +:+ str_of_int (user_id telegram_user) +:+ ":localhost" in
     resp <- http (bearer_request GET homeserver (Profile ghost_user_id)
                     access_token JNull) ;;;
     if status resp =? 200 then ret (Some ghost_user_id) else ret None)
    (fun e => log DEBUG ("Ghost user creation/check failed: " +:+ e) ;;; ret None).

Definition user_display (telegram_user : user) : string :=
  or_else (first_name telegram_user)
    (or_else (username telegram_user)
       ("User_" +:+ str_of_int (user_id telegram_user))).

Definition conversation_id (telegram_user : user) : string :=
  "tg" +:+ str_of_int (user_id telegram_user).

Definition room_name (department : department) (telegram_user : user) : string :=
  user_display telegram_user +:+ " (Telegram) - " +:+ dept_name department
  +:+ " #" +:+ conversation_id telegram_user.

Definition room_data (department : department) (telegram_user : user) : json :=
  JDict [
    ("name", JStr (room_name department telegram_user));
    ("topic", JStr ("Telegram conversation with "
                    +:+ or_else (username telegram_user)
                          (str_of_int (user_id telegram_user))
                    +:+ " - " +:+ dept_name department));
    ("preset", JStr "private_chat");
    ("creation_content", JDict [("m.federate", JBool false)])
  ].

Definition create_room_request (department : department) (telegram_user : user)
    : request :=
  bearer_request POST (homeserver (dept_matrix department)) CreateRoom
    (access_token (dept_matrix department)) (room_data department telegram_user).

Definition create_telegram_room_in_space (department : department)
    (telegram_user : user) : M self (option string) :=
  try_except
    (let homeserver := homeserver (dept_matrix department) in
     let access_token := access_token (dept_matrix department) in
     telegram_space_id <- ensure_telegram_space_hierarchy ;;;
     resp <- http (create_room_request department telegram_user) ;;;
     if status resp =? 200 then
       room_id <- json_room_id resp ;;;
       log INFO ("Created Matrix room " +:+ fmt room_id +:+ " for Telegram user "
                 +:+ str_of_int (user_id telegram_user)) ;;;
       add_room_to_space room_id telegram_space_id access_token homeserver ;;;
       invite_support_users_to_room room_id department homeserver access_token ;;;
       ret room_id
     else
       let error_text := text resp in
       log ERROR ("Failed to create Matrix room: " +:+ str_of_int (status resp)
                  +:+ " - " +:+ error_text) ;;;
       ret None)
    (fun e => log ERROR ("Error creating Telegram room in space: " +:+ e) ;;;
              ret None).

Definition indent (n : nat) : string := String.concat "" (List.repeat " " n).

Definition message_data (message : string) (telegram_user : user) : json :=
  let user_display := or_else (first_name telegram_user) "Unknown" in
  let username :=
    or_else (username telegram_user) (str_of_int (user_id telegram_user)) in
  JDict [
    ("msgtype", JStr "m.text");
    ("body", JStr ("**" +:+ user_display +:+ "** (@" +:+ username +:+ "):"
                   +:+ nl +:+ message));
    ("format", JStr "org.matrix.custom.html");
    ("formatted_body",
     JStr ("<div style=" +:+ dq
           +:+ "border-left: 3px solid #0088cc; padding-left: 10px; margin: 5px 0;"
           +:+ dq +:+ ">" +:+ nl
           +:+ indent 20 +:+ "<strong style=" +:+ dq +:+ "color: #0088cc;" +:+ dq
           +:+ ">📱 " +:+ user_display +:+ "</strong>" +:+ nl
           +:+ indent 20 +:+ "<small style=" +:+ dq +:+ "color: #666;" +:+ dq
           +:+ ">(@" +:+ username +:+ ")</small>" +:+ nl
           +:+ indent 20 +:+ "<br/>" +:+ nl
           +:+ indent 20 +:+ "<div style=" +:+ dq +:+ "margin-top: 5px;" +:+ dq
           +:+ ">" +:+ message +:+ "</div>" +:+ nl
           +:+ indent 16 +:+ "</div>"))
  ].

Definition send_request (room_id message : string) (department : department)
    (telegram_user : user) : request :=
  bearer_request POST (homeserver (dept_matrix department)) (SendMessage room_id)
    (access_token (dept_matrix department)) (message_data message telegram_user).

(** The function has no [return] statement: it yields [None] on every
    path, here [tt]. *)
Definition send_matrix_message (room_id message : string)
    (department : department) (telegram_user : user) : M self unit :=
  try_except
    (resp <- http (send_request room_id message department telegram_user) ;;;
     if status resp =? 200 then
       log INFO ("Sent message to Matrix room " +:+ room_id)
     else
       log ERROR ("Failed to send Matrix message: " +:+ str_of_int (status resp)))
    (fun e => log ERROR ("Error sending Matrix message: " +:+ e)).

Definition confirmation_message (department : department) : string :=
  "✅ Connected to " +:+ dept_icon department +:+ " **"
  +:+ dept_name department +:+ "**" +:+ nl +:+ nl
  +:+ dept_description department +:+ nl +:+ nl
  +:+ "You can now send your message and our team will respond shortly!"
  +:+ nl +:+ nl
  +:+ "📍 Your conversation is organized in the **Telegram Support Space**".

Definition initial_message (user : user) : string :=
  "New Telegram conversation started with user "
  +:+ or_else (first_name user) "Unknown" +:+ " (@"
  +:+ or_else (username user) (str_of_int (user_id user)) +:+ ")".

Definition connect_failed : string :=
  "❌ Sorry, I couldn't connect you to that department. Please try again later.".

Definition select_department (event : event) (department : department)
    (user : user) : M self unit :=
  let user_id := user_id user in
  room_id <- create_telegram_room_in_space department user ;;;
  match room_id with
  | Some (String _ _ as room_id) =>
      set_session user_id (chatting department room_id) ;;;
      tg (Respond user_id (confirmation_message department) None) ;;;
      send_matrix_message room_id (initial_message user) department user
  | _ =>
      tg (Respond user_id connect_failed None)
  end.

Definition welcome_message (user : user) : string :=
  "👋 Welcome " +:+ or_else (first_name user) "there" +:+ "!" +:+ nl +:+ nl
  +:+ "I'm your support bot. Please select the department you'd like to contact:".

Definition handle_start_command (event : event) (department_id : option string)
    : M self unit :=
  fun w =>
    let user := sender event in
    let user_id := user_id user in
    let department :=
      match department_id with
      | Some (String _ _ as id) => get_department_by_id w id
      | _ => None
      end in
    match department with
    | Some department => select_department event department user w
    | None =>
        (tg (Respond user_id (welcome_message user)
               (Some (get_departments_keyboard w))) ;;;
         set_session user_id selecting_department) w
    end.

Definition not_found : string := "❌ Department not found. Please try again.".

Definition handle_callback_query (event : event) : M self unit :=
  fun w =>
    let user := sender event in
    let data := payload event in
    if startswith "dept_" data then
      let department_id := drop_prefix 5 data in
      match get_department_by_id w department_id with
      | Some department =>
          (tg (Edit (user_id user)
                 ("Connecting you to " +:+ dept_icon department +:+ " "
                  +:+ dept_name department +:+ "...")) ;;;
           select_department event department user) w
      | None => tg (Edit (user_id user) not_found) w
      end
    else ret tt w.

Definition handle_message (event : event) : M self unit :=
  fun w =>
    let user := sender event in
    let message_text := payload event in
    match user_sessions w !! user_id user with
    | Some (chatting department room_id) =>
        send_matrix_message room_id message_text department user w
    | _ => handle_start_command event None w
    end.

Definition start_handler (event : event) : M self unit :=
  let command_text := payload event in
  let department_id := snd (split_space command_text) in
  handle_start_command event department_id.

Definition callback_handler (event : event) : M self unit :=
  handle_callback_query event.

Definition message_handler (event : event) : M self unit :=
  if startswith "/" (payload event) then ret tt
  else handle_message event.

Definition on_new_message (event : event) : M self unit :=
  (if startswith "/start" (payload event) then start_handler event else ret tt) ;;;
  message_handler event.

(** The event loop hands the events to the handlers one at a time. *)
Inductive incoming : Type :=
  | NewMessage (event : event)
  | CallbackQuery (event : event).

Definition dispatch (i : incoming) : M self unit :=
  match i with
  | NewMessage event => on_new_message event
  | CallbackQuery event => callback_handler event
  end.

Fixpoint run (events : list incoming) : M self unit :=
  match events with
  | [] => ret tt
  | i :: rest => dispatch i ;;; run rest
  end.

(** What a call did to the object: the sessions and the space cache it
    left, the requests it issued and the Telegram calls it made (the log
    is not tracked). *)
Definition effect (w w' : self) (sessions : gmap Z session)
    (cache : gmap string (option string))
    (new : list request) (out : list telegram_call) : Prop :=
  departments w' = departments w /\
  spaces w' = spaces w /\
  user_sessions w' = sessions /\
  space_cache w' = cache /\
  env (net w') = env (net w) /\
  requests (net w') = requests (net w) ++ new /\
  telegram (net w') = telegram (net w) ++ out.

(** The user an event comes from. *)
Definition sender_of (i : incoming) : user :=
  match i with
  | NewMessage event => sender event
  | CallbackQuery event => sender event
  end.

(** A session table in which every conversation has a room with a
    non-empty id and a department of the configuration. *)
Definition well_formed (w : self) : Prop :=
  forall uid d room,
    user_sessions w !! uid = Some (chatting d room) ->
    room <> "" /\ In d (departments w).

(** What one event may do to the session table: nothing, put its sender
    back to the selection of a department, or put its sender in
    conversation with a configured department in a room with an id. *)
Definition session_step (w : self) (uid : Z) (sessions : gmap Z session) : Prop :=
  sessions = user_sessions w \/
  sessions = <[uid := selecting_department]> (user_sessions w) \/
  exists d room,
    In d (departments w) /\ room <> "" /\
    sessions = <[uid := chatting d room]> (user_sessions w).

End Space.

(** * scripts/telegram-department-bot.py *)

Module Bot.

(** The values of [self.departments]. *)
Record dept_info := {
  name : string;
  description : string;
  matrix_users : list string;
  space_name : string
}.

(** The dictionary literal of [__init__], in insertion order. *)
Definition departments : list (string * dept_info) := [
  ("technical",
   {| name := "🛠️ Technical Support";
      description := "Technical issues, bugs, account problems";
      matrix_users := ["@admin:localhost"; "@support:localhost"];
      space_name := "Telegram - Technical Support" |});
  ("commerce",
   {| name := "💰 Commerce/Sales";
      description := "Product information, pricing, purchases";
      matrix_users := ["@admin:localhost"; "@support:localhost"];
      space_name := "Telegram - Commerce" |});
  ("verification",
   {| name := "✅ Verification";
      description := "Account verification, identity confirmation";
      matrix_users := ["@admin:localhost"; "@support:localhost"];
      space_name := "Telegram - Verification" |});
  ("general",
   {| name := "ℹ️ General Inquiry";
      description := "General questions and support";
      matrix_users := ["@admin:localhost"; "@support:localhost"];
      space_name := "Telegram - General" |})
].

(** [self.departments[k]], [None] standing for the KeyError. *)
Definition lookup_department (k : string) : option dept_info :=
  snd <$> List.find (fun kv => String.eqb (fst kv) k) departments.

(** The session dictionary written by [department_callback]. *)
Record session := {
  department : string;
  department_name : string;
  chat_id : Z;
  session_username : string;
  session_first_name : string;
  session_last_name : string;
  started_at : string;
  conversation_id : string
}.

Record self := {
  matrix_token : string;
  matrix_homeserver : string;
  user_sessions : gmap Z session;
  net : io
}.

#[global] Instance self_world : World self := {|
  get_io := net;
  set_io := fun i s =>
    {| matrix_token := matrix_token s; matrix_homeserver := matrix_homeserver s;
       user_sessions := user_sessions s; net := i |}
|}.

Definition set_session (uid : Z) (s : session) : M self unit :=
  fun w =>
    (Ok tt, {| matrix_token := matrix_token w;
               matrix_homeserver := matrix_homeserver w;
               user_sessions := <[uid := s]> (user_sessions w);
               net := net w |}).

(** A Telegram update: a message (its text) or a callback query (its
    data), with the user and the chat it comes from. *)
Record update := {
  effective_user : user;
  effective_chat : Z;
  update_text : string
}.

Definition keyboard : list (list button) :=
  List.map
    (fun kv => [ {| button_text := name (snd kv);
                    button_data := "dept_" +:+ fst kv |} ])
    departments.

Definition welcome_message (user : user) : string :=
  "👋 Welcome to Support, " +:+ fmt (first_name user) +:+ "!" +:+ nl +:+ nl
  +:+ "Please select the department that best matches your inquiry:" +:+ nl +:+ nl
  +:+ "🛠️ **Technical Support** - Technical issues, bugs, account problems" +:+ nl
  +:+ "💰 **Commerce/Sales** - Product information, pricing, purchases" +:+ nl
  +:+ "✅ **Verification** - Account verification, identity confirmation" +:+ nl
  +:+ "ℹ️ **General Inquiry** - General questions and support" +:+ nl +:+ nl
  +:+ "After selecting a department, you'll be connected with our support team.".

Definition start_command (update : update) : M self unit :=
  let user := effective_user update in
  let chat_id := effective_chat update in
  log INFO ("Received /start from user " +:+ str_of_int (user_id user) +:+ " ("
            +:+ fmt (username user) +:+ ") in chat " +:+ str_of_int chat_id) ;;;
  tg (ReplyText chat_id (welcome_message user) (Some keyboard)).

Definition invalid_selection : string :=
  "❌ Invalid department selection. Please try again with /start".

Definition team_name (dept_info : dept_info) : string :=
  replace "ℹ️ " "" (replace "✅ " "" (replace "💰 " "" (replace "🛠️ " ""
    (name dept_info)))).

Definition success_message (dept_info : dept_info) : string :=
  "✅ **Department Selected: " +:+ name dept_info +:+ "**" +:+ nl +:+ nl
  +:+ "You've been connected to our " +:+ team_name dept_info +:+ " team."
  +:+ nl +:+ nl
  +:+ "**Please send your message now** and our support team will respond shortly. "
  +:+ "Feel free to include any relevant details about your inquiry." +:+ nl +:+ nl
  +:+ "_Note: Your first message will create a secure support room where our team can assist you._".

Definition department_callback (update : update) : M self unit :=
  let user := effective_user update in
  let chat_id := effective_chat update in
  tg (Answer chat_id) ;;;
  let dept_id := replace "dept_" "" (update_text update) in
  match lookup_department dept_id with
  | None => tg (EditMessageText chat_id invalid_selection)
  | Some dept_info =>
      log INFO ("User " +:+ str_of_int (user_id user) +:+ " selected department: "
                +:+ dept_id) ;;;
      started_at <- now_iso ;;;
      uuid <- new_uuid ;;;
      set_session (user_id user)
        {| department := dept_id;
           department_name := name dept_info;
           chat_id := chat_id;
           session_username :=
             or_else (username user) ("user_" +:+ str_of_int (user_id user));
           session_first_name := or_else (first_name user) "Unknown";
           session_last_name := or_else (last_name user) "";
           started_at := started_at;
           conversation_id := take_prefix 8 uuid |} ;;;
      tg (EditMessageText chat_id (success_message dept_info))
  end.

Definition invite_user_to_room (room_id user_id : string) : M self unit :=
  try_except
    (w <- (fun w => ret w w) ;;;
     resp <- http (bearer_request POST (matrix_homeserver w) (RoomInvite room_id)
                     (matrix_token w) (JDict [("user_id", JStr user_id)])) ;;;
     if status resp =? 200 then
       log INFO ("Invited " +:+ user_id +:+ " to room " +:+ room_id)
     else
       log WARNING ("Failed to invite " +:+ user_id +:+ " to room " +:+ room_id
                    +:+ ": " +:+ str_of_int (status resp)))
    (fun e => log ERROR ("Error inviting user to room: " +:+ e)).

(** [for user_id in dept_info["matrix_users"]: await self.invite_user_to_room(...)] *)
Fixpoint invite_each (room_id : string) (users : list string) : M self unit :=
  match users with
  | [] => ret tt
  | user_id :: rest =>
      invite_user_to_room room_id user_id ;;; invite_each room_id rest
  end.

Definition power_levels : json :=
  JDict [
    ("users", JDict [("@admin:localhost", JInt 100);
                     ("@support:localhost", JInt 50)]);
    ("users_default", JInt 0);
    ("events_default", JInt 0);
    ("state_default", JInt 50);
    ("invite", JInt 50);
    ("kick", JInt 50);
    ("ban", JInt 50);
    ("redact", JInt 50)
  ].

Definition room_name (user_session : session) (dept_info : dept_info) : string :=
  session_username user_session +:+ " (Telegram) - " +:+ name dept_info
  +:+ " #" +:+ conversation_id user_session.

Definition room_data (telegram_user_id : Z) (department_id : string)
    (user_session : session) (dept_info : dept_info) : json :=
  JDict [
    ("visibility", JStr "private");
    ("preset", JStr "private_chat");
    ("name", JStr (room_name user_session dept_info));
    ("topic", JStr ("Support conversation with "
                    +:+ session_first_name user_session
                    +:+ " from Telegram - " +:+ name dept_info));
    ("initial_state", JList [
       JDict [ ("type", JStr "m.room.power_levels");
               ("content", power_levels) ];
       JDict [ ("type", JStr "fi.mau.telegram.department");
               ("state_key", JStr "");
               ("content", JDict [
                  ("department_id", JStr department_id);
                  ("department_name", JStr (name dept_info));
                  ("telegram_user_id", JInt telegram_user_id);
                  ("conversation_id", JStr (conversation_id user_session));
                  ("created_at", JStr (started_at user_session)) ]) ] ])
  ].

Definition create_matrix_room (telegram_user_id : Z) (department_id : string)
    : M self (option string) :=
  try_except
    (w <- (fun w => ret w w) ;;;
     match user_sessions w !! telegram_user_id with
     | None => raise (str_of_int telegram_user_id)
     | Some user_session =>
         match lookup_department department_id with
         | None => raise ("'" +:+ department_id +:+ "'")
         | Some dept_info =>
             resp <- http (bearer_request POST (matrix_homeserver w) CreateRoom
                             (matrix_token w)
                             (room_data telegram_user_id department_id
                                user_session dept_info)) ;;;
             if status resp =? 200 then
               data <- json_room_id resp ;;;
               match data with
               | None => raise "'room_id'"
               | Some room_id =>
                   log INFO ("Created Matrix room " +:+ room_id +:+ " for user "
                             +:+ str_of_int telegram_user_id) ;;;
                   invite_each room_id (matrix_users dept_info) ;;;
                   ret (Some room_id)
               end
             else
               let error_text := text resp in
               log ERROR ("Failed to create room: " +:+ str_of_int (status resp)
                          +:+ " - " +:+ error_text) ;;;
               ret None
         end
     end)
    (fun e => log ERROR ("Error creating Matrix room: " +:+ e) ;;; ret None).

Definition notification (telegram_user_id : Z) (user_session : session)
    (dept_info : dept_info) : json :=
  JDict [
    ("msgtype", JStr "m.notice");
    ("body", JStr (
       "🎯 New " +:+ name dept_info +:+ " conversation started" +:+ nl +:+ nl
       +:+ "👤 Customer: " +:+ session_first_name user_session +:+ " "
       +:+ session_last_name user_session +:+ nl
       +:+ "📱 Telegram: @" +:+ session_username user_session +:+ nl
       +:+ "🆔 User ID: " +:+ str_of_int telegram_user_id +:+ nl
       +:+ "🏷️ Department: " +:+ name dept_info +:+ nl
       +:+ "🕐 Started: " +:+ started_at user_session +:+ nl +:+ nl
       +:+ "The customer will appear in this room when they send their first message."))
  ].

Definition send_matrix_notification (room_id : string) (telegram_user_id : Z)
    (department_id : string) : M self unit :=
  try_except
    (w <- (fun w => ret w w) ;;;
     match user_sessions w !! telegram_user_id with
     | None => raise (str_of_int telegram_user_id)
     | Some user_session =>
         match lookup_department department_id with
         | None => raise ("'" +:+ department_id +:+ "'")
         | Some dept_info =>
             txn <- new_uuid ;;;
             resp <- http (bearer_request PUT (matrix_homeserver w)
                             (SendMessageTxn room_id txn) (matrix_token w)
                             (notification telegram_user_id user_session
                                dept_info)) ;;;
             if status resp =? 200 then
               log INFO ("Sent notification to room " +:+ room_id)
             else
               log WARNING ("Failed to send notification: "
                            +:+ str_of_int (status resp))
         end
     end)
    (fun e => log ERROR ("Error sending Matrix notification: " +:+ e)).

Definition please_start : string :=
  "👋 Please start with /start to select a department and connect with our support team.".

Definition handle_message (update : update) : M self unit :=
  fun w =>
    let user := effective_user update in
    match user_sessions w !! user_id user with
    | None => tg (ReplyText (effective_chat update) please_start None) w
    | Some user_session =>
        let dept_name := department user_session in
        log INFO ("Message from user " +:+ str_of_int (user_id user) +:+ " ("
                  +:+ fmt (username user) +:+ ") in department " +:+ dept_name
                  +:+ ": " +:+ dq +:+ take_prefix 50 (update_text update)
                  +:+ "..." +:+ dq) w
    end.

Definition invite_request (w : self) (room_id user_id : string) : request :=
  bearer_request POST (matrix_homeserver w) (RoomInvite room_id) (matrix_token w)
    (JDict [("user_id", JStr user_id)]).

Definition create_room_request (w : self) (telegram_user_id : Z)
    (department_id : string) (user_session : session) (dept_info : dept_info)
    : request :=
  bearer_request POST (matrix_homeserver w) CreateRoom (matrix_token w)
    (room_data telegram_user_id department_id user_session dept_info).

(** What a call did to the object: the sessions it left, the requests it
    issued and the Telegram calls it made (the log is not tracked). *)
Definition effect (w w' : self) (sessions : gmap Z session)
    (new : list request) (out : list telegram_call) : Prop :=
  matrix_token w' = matrix_token w /\
  matrix_homeserver w' = matrix_homeserver w /\
  user_sessions w' = sessions /\
  env (net w') = env (net w) /\
  requests (net w') = requests (net w) ++ new /\
  telegram (net w') = telegram (net w) ++ out.

(** The part of config.yaml that [initialize_matrix_session] reads: the
    [matrix] section of each department, every key of which may be
    absent (a department without the section has none of them). *)
Record matrix_section := {
  admin_access_token : option string;
  section_access_token : option string;
  section_homeserver : option string
}.

Definition whoami_request (homeserver token : string) : request :=
  bearer_request GET homeserver WhoAmI token JNull.

Definition set_matrix (token homeserver : string) : M self unit :=
  fun w =>
    (Ok tt, {| matrix_token := token; matrix_homeserver := homeserver;
               user_sessions := user_sessions w; net := net w |}).

(** [initialize_matrix_session], with [self.config.get('departments', [])]
    as its argument.  A token that is [None] is kept as the empty string,
    both being falsy; of the whoami reply the member read is [user_id],
    which the model carries where a createRoom reply carries [room_id]. *)
Definition initialize_matrix_session (departments : list matrix_section)
    : M self bool :=
  try_except
    (match departments with
     | [] => log ERROR "No departments found in config" ;;; ret false
     | matrix_config :: _ =>
         let token :=
           if truthy (admin_access_token matrix_config)
           then admin_access_token matrix_config
           else section_access_token matrix_config in
         let homeserver :=
           default "http://localhost:8008" (section_homeserver matrix_config) in
         set_matrix (default "" token) homeserver ;;;
         if truthy token then
           resp <- http (whoami_request homeserver (default "" token)) ;;;
           if status resp =? 200 then
             data <- json_room_id resp ;;;
             log INFO ("Matrix session initialized for user: " +:+ fmt data) ;;;
             ret true
           else
             log ERROR ("Matrix connection failed: " +:+ str_of_int (status resp)) ;;;
             ret false
         else
           log ERROR "No Matrix access token found in config" ;;; ret false
     end)
    (fun e => log ERROR ("Error initializing Matrix session: " +:+ e) ;;; ret false).

(** An entry of [config['social_media']]. *)
Record platform := {
  platform_name : option string;
  enabled : bool;
  bot_token : option string
}.

(** [platform.get('platform') == 'telegram' and platform.get('enabled')] *)
Definition is_enabled_telegram (platform : platform) : bool :=
  match platform_name platform with
  | Some name => String.eqb name "telegram" && enabled platform
  | None => false
  end.

(** The loop of [initialize_bot] that looks for the bot token: it takes
    the token of the first enabled telegram entry, and leaves the loop
    there ([break]) also when that entry has no token. *)
Fixpoint find_bot_token (social_media : list platform) : option string :=
  match social_media with
  | [] => None
  | platform :: rest =>
      if is_enabled_telegram platform then bot_token platform
      else find_bot_token rest
  end.

End Bot.

(** * create_users.py *)

Module CreateUsers.

Definition SHARED_SECRET : string :=
  ":_XM;,E=us1#ko2BCfsmm+dGCN:1fj2Bo_Ht=uV^&k@.kol6YP".

(** [b"\x00"] *)
Definition nul : string := String (Ascii.ascii_of_nat 0) EmptyString.

(** The bytes that the [update] calls of [generate_mac] feed to the HMAC,
    one after the other. *)
Definition mac_message (nonce user password : string) (admin : bool) : string :=
  nonce +:+ nul +:+ user +:+ nul +:+ password +:+ nul
  +:+ (if admin then "admin" else "notadmin").

Section Hmac.
(** [hmac.new(key, digestmod=hashlib.sha1)], fed a message, as its
    [hexdigest()]. *)
Variable hmac_sha1_hexdigest : string -> string -> string.

Definition generate_mac (nonce user password : string) (admin : bool) : string :=
  hmac_sha1_hexdigest SHARED_SECRET (mac_message nonce user password admin).
End Hmac.

(** A string without the byte 0. *)
Fixpoint nul_free (s : string) : bool :=
  match s with
  | EmptyString => true
  | String c s' =>
      if Ascii.eqb c (Ascii.ascii_of_nat 0) then false else nul_free s'
  end.

End CreateUsers.

(** * Observations on a run *)

(** The requests that create a room ([POST .../createRoom]). *)
Definition is_create_room (r : request) : bool :=
  match req_endpoint r with
  | CreateRoom => true
  | _ => false
  end.

(** The requests that deliver a message to the room [room]. *)
Definition is_send_to (room : string) (r : request) : bool :=
  match req_endpoint r with
  | SendMessage r' => String.eqb r' room
  | SendMessageTxn r' _ => String.eqb r' room
  | _ => false
  end.

Definition is_send (r : request) : bool :=
  match req_endpoint r with
  | SendMessage _ | SendMessageTxn _ _ => true
  | _ => false
  end.

Definition count (p : request -> bool) (l : list request) : nat :=
  length (List.filter p l).

(** Reading a preset, the federation flag and the power levels off a
    [createRoom] payload. *)
Definition preset_of (room_data : json) : option json := jget "preset" room_data.

Definition federate_of (room_data : json) : option json :=
  jget "creation_content" room_data ≫= jget "m.federate".

Definition is_power_levels (state_event : json) : bool :=
  match jget "type" state_event with
  | Some (JStr "m.room.power_levels") => true
  | _ => false
  end.

Definition power_levels_of (room_data : json) : option json :=
  match jget "initial_state" room_data with
  | Some (JList events) => List.find is_power_levels events ≫= jget "content"
  | _ => None
  end.

(** The user a request invites, and the users a run invited, in order. *)
Definition invitee (r : request) : option string :=
  match req_endpoint r, jget "user_id" (req_json r) with
  | RoomInvite _, Some (JStr u) => Some u
  | _, _ => None
  end.

Definition invited (l : list request) : list string := omap invitee l.

(** The [room_id] read off an answer that is a 200 with a JSON body;
    [None] for every other answer. *)
Definition accepted (a : answer) : option (option string) :=
  match a with
  | Reply resp =>
      if status resp =? 200 then
        match body resp with
        | JsonObject r => Some r
        | NotJson => None
        end
      else None
  | ClientError _ => None
  end.

(** * A concrete deployment, for running the model *)

Module Example.

Definition room_reply (room : string) : response :=
  {| status := 200; text := "{}"; body := JsonObject (Some room) |}.

Definition error_reply : response :=
  {| status := 500; text := "Internal Server Error"; body := NotJson |}.

(** A homeserver that accepts every request and names the room after
    the number of requests it has seen. *)
Definition accepting : list request -> request -> answer :=
  fun history _ =>
    Reply (room_reply ("!room" +:+ str_of_int (Z.of_nat (length history))
                       +:+ ":localhost")).

(** A homeserver that answers every request with a 500. *)
Definition failing : list request -> request -> answer :=
  fun _ _ => Reply error_reply.

(** A homeserver that cannot be reached. *)
Definition unreachable : list request -> request -> answer :=
  fun _ _ => ClientError "Cannot connect to host".

(** A homeserver whose invite of [who] cannot be delivered (the client
    raises); everything else is accepted. *)
Definition invite_raises (who : string) : list request -> request -> answer :=
  fun history r =>
    match req_endpoint r, req_json r with
    | RoomInvite _, JDict [(_, JStr u)] =>
        if String.eqb u who then ClientError "Server disconnected"
        else accepting history r
    | _, _ => accepting history r
    end.

(** A homeserver that refuses to invite [who] (a 500) and accepts
    everything else. *)
Definition invite_refused (who : string) : list request -> request -> answer :=
  fun history r =>
    match req_endpoint r, req_json r with
    | RoomInvite _, JDict [(_, JStr u)] =>
        if String.eqb u who then Reply error_reply else accepting history r
    | _, _ => accepting history r
    end.

Definition uuids (k : nat) : string :=
  match k with
  | 1%nat => "0b5c9a3e-7d41-4c0f-9a51-2f6f0c1d7e10"
  | 3%nat => "f47ac10b-58cc-4372-a567-0e02b2c3d479"
  | _ => "00000000-0000-4000-8000-000000000000"
  end.

Definition environment_of (s : list request -> request -> answer) : environment :=
  {| server := s;
     loop_time_ms := fun k => 1000 * Z.of_nat k;
     uuid4 := uuids;
     datetime_now := fun _ => "2024-01-01T00:00:00" |}.

Definition fresh (s : list request -> request -> answer) : io :=
  {| env := environment_of s; requests := []; telegram := []; logs := [];
     draws := 0 |}.

Definition sales : department :=
  {| dept_id := "sales"; dept_name := "Sales"; dept_icon := "$";
     dept_description := "Pricing and purchases";
     dept_matrix := {| homeserver := "http://localhost:8008";
                       access_token := "syt_sales";
                       bot_user_id := "@bot:localhost";
                       support_users := Some ["@ann:localhost"; "@bot:localhost";
                                              "@bob:localhost"; "@cat:localhost"] |} |}.

Definition support : department :=
  {| dept_id := "support"; dept_name := "Support"; dept_icon := "?";
     dept_description := "Technical help";
     dept_matrix := {| homeserver := "http://localhost:8008";
                       access_token := "syt_support";
                       bot_user_id := "@bot:localhost";
                       support_users := None |} |}.

Definition alice : user :=
  {| user_id := 7; first_name := Some "Alice"; last_name := None;
     username := Some "alice" |}.

Definition says (what : string) : event := {| sender := alice; payload := what |}.

Definition router (s : list request -> request -> answer) : Router.self :=
  {| Router.departments := [sales; support]; Router.user_sessions := ∅;
     Router.net := fresh s |}.

Definition the_spaces : spaces_config :=
  {| rootSpace := {| space_id := "root"; space_name := "Customer Support";
                     space_topic := "All support conversations" |};
     communicationChannels :=
       [ {| space_id := "web"; space_name := "Web Chat"; space_topic := "Widget" |};
         {| space_id := "telegram"; space_name := "Telegram";
            space_topic := "Telegram conversations" |} ] |}.

Definition space (s : list request -> request -> answer) : Space.self :=
  {| Space.departments := [sales; support]; Space.spaces := the_spaces;
     Space.user_sessions := ∅; Space.space_cache := ∅; Space.net := fresh s |}.

(** The space integration after the Telegram space has been resolved. *)
Definition space_cached (s : list request -> request -> answer) : Space.self :=
  {| Space.departments := [sales; support]; Space.spaces := the_spaces;
     Space.user_sessions := ∅;
     Space.space_cache := {[ "telegram" := Some "!telegram:localhost" ]};
     Space.net := fresh s |}.

Definition bot (s : list request -> request -> answer) : Bot.self :=
  {| Bot.matrix_token := "syt_admin";
     Bot.matrix_homeserver := "http://localhost:8008";
     Bot.user_sessions := ∅; Bot.net := fresh s |}.

Definition presses (data : string) : Bot.update :=
  {| Bot.effective_user := alice; Bot.effective_chat := 7;
     Bot.update_text := data |}.

(** Alice in conversation with Sales, in the room [!room0:localhost]. *)
Definition router_chatting (s : list request -> request -> answer) : Router.self :=
  {| Router.departments := [sales; support];
     Router.user_sessions := {[ 7 := chatting sales "!room0:localhost" ]};
     Router.net := fresh s |}.

(** A homeserver that accepts every request and names every room [room]. *)
Definition naming (room : string) : list request -> request -> answer :=
  fun _ _ => Reply (room_reply room).

(** Running a computation for its final state. *)
Definition exec {W A} (m : M W A) (w : W) : W := snd (m w).

End Example.

(** * Properties *)

(** ** Proof automation *)

(** Closes the conjuncts of an [effect] once the run is computed. *)
Ltac effect_done :=
  repeat split; simpl; rewrite <- ?app_assoc, ?app_nil_r; try reflexivity.

(** Case analysis on the answer of the homeserver to the next request. *)
Ltac answer_cases :=
  match goal with
  | |- context [server ?e ?h ?r] =>
      let st := fresh "st" in
      let tx := fresh "tx" in
      let rid := fresh "rid" in
      let msg := fresh "msg" in
      destruct (server e h r) as [[st tx [|rid]]|msg]; simpl;
      try (destruct (st =? 200); simpl)
  end.

(** One request more of the kind counted. *)
Ltac one_more :=
  match goal with
  | |- (_ + ?c)%nat = S _ => replace c with 1%nat by reflexivity; lia
  end.

(** ** The monad *)

(** A computation that returns runs on into its continuation. *)
Lemma bind_run {W A B} (m : M W A) (k : A -> M W B) w a :
  fst (m w) = Ok a -> bind m k w = k a (snd (m w)).
Proof. unfold bind. destruct (m w) as [[a'|e] w']; simpl; congruence. Qed.

Lemma count_app p (l k : list request) : count p (l ++ k) = (count p l + count p k)%nat.
Proof. unfold count. now rewrite List.filter_app, length_app. Qed.

(** ** Commands are skipped by the message handler *)

(** Claim C10.  A message whose text begins with '/' makes
    [message_handler] return at once, in the router and in the space
    integration and whatever the sessions are: the object, the requests,
    the Telegram calls and the log are all as before.  When the text is
    not a /start command, no other NewMessage handler runs either. *)
Theorem message_handler_skips_commands (ev : event) :
  startswith "/" (payload ev) = true ->
  (forall w : Router.self, Router.message_handler ev w = (Ok tt, w)) /\
  (forall w : Space.self, Space.message_handler ev w = (Ok tt, w)) /\
  (startswith "/start" (payload ev) = false ->
   (forall w : Router.self, Router.on_new_message ev w = (Ok tt, w)) /\
   (forall w : Space.self, Space.on_new_message ev w = (Ok tt, w))).
Proof.
  intros Hslash. repeat split; intros.
  - unfold Router.message_handler. now rewrite Hslash.
  - unfold Space.message_handler. now rewrite Hslash.
  - unfold Router.on_new_message, Router.message_handler, bind, ret.
    now rewrite H, Hslash.
  - unfold Space.on_new_message, Space.message_handler, bind, ret.
    now rewrite H, Hslash.
Qed.

Lemma message_handler_skips_commands_witness :
  let w := Example.exec
             (Router.select_department (Example.says "hi") Example.sales Example.alice)
             (Example.router Example.accepting) in
  (exists d r, Router.user_sessions w !! 7 = Some (chatting d r)) /\
  Router.message_handler (Example.says "/help me") w = (Ok tt, w) /\
  Router.on_new_message (Example.says "/help me") w = (Ok tt, w).
Proof.
  intros w.
  destruct (message_handler_skips_commands (Example.says "/help me") eq_refl)
    as (Hr & _ & Hd).
  split; [ eexists _, _; vm_compute; reflexivity | ].
  split; [ apply Hr | apply (Hd eq_refl) ].
Defined.

(** ** Free text before a department is chosen *)

Lemma free_text_is_no_start (s : string) :
  startswith "/" s = false -> startswith "/start" s = false.
Proof.
  unfold startswith. destruct s as [|c s]; [reflexivity|].
  change (String.prefix "/" (String c s))
    with (if ascii_dec "/"%char c then String.prefix "" s else false).
  change (String.prefix "/start" (String c s))
    with (if ascii_dec "/"%char c then String.prefix "start" s else false).
  destruct (ascii_dec "/" c); [destruct s; discriminate | reflexivity].
Qed.

Lemma router_prompt (ev : event) (w : Router.self) :
  Router.handle_start_command ev None w =
  (Ok tt,
   {| Router.departments := Router.departments w;
      Router.user_sessions :=
        <[user_id (sender ev) := selecting_department]> (Router.user_sessions w);
      Router.net :=
        add_telegram
          (Respond (user_id (sender ev)) (Router.welcome_message (sender ev))
             (Some (Router.get_departments_keyboard w)))
          (Router.net w) |}).
Proof. reflexivity. Qed.

Lemma space_prompt (ev : event) (w : Space.self) :
  Space.handle_start_command ev None w =
  (Ok tt,
   {| Space.departments := Space.departments w;
      Space.spaces := Space.spaces w;
      Space.user_sessions :=
        <[user_id (sender ev) := selecting_department]> (Space.user_sessions w);
      Space.space_cache := Space.space_cache w;
      Space.net :=
        add_telegram
          (Respond (user_id (sender ev)) (Space.welcome_message (sender ev))
             (Some (Space.get_departments_keyboard w)))
          (Space.net w) |}).
Proof. reflexivity. Qed.

Lemma router_handle_message_idle (ev : event) (w : Router.self) :
  (forall d r, Router.user_sessions w !! user_id (sender ev) <> Some (chatting d r)) ->
  Router.handle_message ev w = Router.handle_start_command ev None w.
Proof.
  intros Hidle. unfold Router.handle_message.
  destruct (Router.user_sessions w !! user_id (sender ev)) as [[|d r]|] eqn:E;
    try reflexivity.
  now destruct (Hidle d r).
Qed.

Lemma space_handle_message_idle (ev : event) (w : Space.self) :
  (forall d r, Space.user_sessions w !! user_id (sender ev) <> Some (chatting d r)) ->
  Space.handle_message ev w = Space.handle_start_command ev None w.
Proof.
  intros Hidle. unfold Space.handle_message.
  destruct (Space.user_sessions w !! user_id (sender ev)) as [[|d r]|] eqn:E;
    try reflexivity.
  now destruct (Hidle d r).
Qed.

(** Claim C2.  A free-text message from a user who is not chatting (no
    session, or a session still selecting a department) issues no request
    to the homeserver at all, so no relay, and sends the user the prompt
    to select a department: the welcome text with the department keyboard
    in the router and the space integration, the "please start with
    /start" reply in the department bot, where a session exists only once
    a department is chosen. *)
Theorem free_text_before_selection_prompts :
  (forall (w : Router.self) (ev : event),
     (forall d r, Router.user_sessions w !! user_id (sender ev) <> Some (chatting d r)) ->
     startswith "/" (payload ev) = false ->
     let w' := snd (Router.on_new_message ev w) in
     w' = snd (Router.handle_message ev w) /\
     requests (Router.net w') = requests (Router.net w) /\
     telegram (Router.net w') =
       telegram (Router.net w) ++
       [Respond (user_id (sender ev)) (Router.welcome_message (sender ev))
          (Some (Router.get_departments_keyboard w))]) /\
  (forall (w : Space.self) (ev : event),
     (forall d r, Space.user_sessions w !! user_id (sender ev) <> Some (chatting d r)) ->
     startswith "/" (payload ev) = false ->
     let w' := snd (Space.on_new_message ev w) in
     w' = snd (Space.handle_message ev w) /\
     requests (Space.net w') = requests (Space.net w) /\
     telegram (Space.net w') =
       telegram (Space.net w) ++
       [Respond (user_id (sender ev)) (Space.welcome_message (sender ev))
          (Some (Space.get_departments_keyboard w))]) /\
  (forall (w : Bot.self) (upd : Bot.update),
     Bot.user_sessions w !! user_id (Bot.effective_user upd) = None ->
     let w' := snd (Bot.handle_message upd w) in
     requests (Bot.net w') = requests (Bot.net w) /\
     telegram (Bot.net w') =
       telegram (Bot.net w) ++
       [ReplyText (Bot.effective_chat upd) Bot.please_start None]).
Proof.
  split; [|split].
  - intros w ev Hidle Hfree w'. subst w'.
    unfold Router.on_new_message, Router.message_handler.
    rewrite (free_text_is_no_start _ Hfree), Hfree.
    unfold bind, ret. rewrite (router_handle_message_idle _ _ Hidle), router_prompt.
    now simpl.
  - intros w ev Hidle Hfree w'. subst w'.
    unfold Space.on_new_message, Space.message_handler.
    rewrite (free_text_is_no_start _ Hfree), Hfree.
    unfold bind, ret. rewrite (space_handle_message_idle _ _ Hidle), space_prompt.
    now simpl.
  - intros w upd Hnone w'. subst w'. unfold Bot.handle_message. rewrite Hnone.
    now simpl.
Qed.

Lemma free_text_before_selection_prompts_witness :
  let w := Example.router Example.accepting in
  let w' := snd (Router.on_new_message (Example.says "hello") w) in
  count is_send (requests (Router.net w')) = 0%nat /\
  telegram (Router.net w') =
    [Respond 7 (Router.welcome_message Example.alice)
       (Some (Router.get_departments_keyboard w))].
Proof.
  intros w w'.
  destruct free_text_before_selection_prompts as (Hrouter & _ & _).
  destruct (Hrouter w (Example.says "hello")) as (_ & Hreq & Htg).
  - intros d r. vm_compute. discriminate.
  - reflexivity.
  - fold w' in Hreq, Htg. rewrite Hreq, Htg. split; reflexivity.
Defined.

(** ** Selecting a department that does not exist *)

(** Claim C5, as the code has it.  An inline-button selection
    ([dept_<id>] callback data) of an unknown department only edits the
    message into an error text: the object, sessions included, is
    otherwise unchanged and no request is issued; so in the router, the
    space integration and the department bot.  A [/start <id>] command
    with an unknown id issues no request either, but answers with the
    department menu and sets the user's session to selecting_department. *)
Theorem unknown_department_selection :
  (forall (w : Router.self) (ev : event),
     startswith "dept_" (payload ev) = true ->
     Router.get_department_by_id w (drop_prefix 5 (payload ev)) = None ->
     Router.handle_callback_query ev w =
     (Ok tt, set_io (add_telegram (Edit (user_id (sender ev)) Router.not_found)
                       (Router.net w)) w)) /\
  (forall (w : Space.self) (ev : event),
     startswith "dept_" (payload ev) = true ->
     Space.get_department_by_id w (drop_prefix 5 (payload ev)) = None ->
     Space.handle_callback_query ev w =
     (Ok tt, set_io (add_telegram (Edit (user_id (sender ev)) Space.not_found)
                       (Space.net w)) w)) /\
  (forall (w : Bot.self) (upd : Bot.update),
     Bot.lookup_department (replace "dept_" "" (Bot.update_text upd)) = None ->
     Bot.department_callback upd w =
     (Ok tt, set_io (add_telegram
                       (EditMessageText (Bot.effective_chat upd) Bot.invalid_selection)
                       (add_telegram (Answer (Bot.effective_chat upd)) (Bot.net w)))
               w)) /\
  (forall (w : Router.self) (ev : event) (id : string),
     snd (split_space (payload ev)) = Some id ->
     Router.get_department_by_id w id = None ->
     let w' := snd (Router.start_handler ev w) in
     requests (Router.net w') = requests (Router.net w) /\
     telegram (Router.net w') =
       telegram (Router.net w) ++
       [Respond (user_id (sender ev)) (Router.welcome_message (sender ev))
          (Some (Router.get_departments_keyboard w))] /\
     Router.user_sessions w' =
       <[user_id (sender ev) := selecting_department]> (Router.user_sessions w)).
Proof.
  split; [|split; [|split]].
  - intros w ev Hdept Hmiss. unfold Router.handle_callback_query.
    now rewrite Hdept, Hmiss.
  - intros w ev Hdept Hmiss. unfold Space.handle_callback_query.
    now rewrite Hdept, Hmiss.
  - intros w upd Hmiss. unfold Bot.department_callback, bind. simpl.
    now rewrite Hmiss.
  - intros w ev id Hid Hmiss w'. subst w'.
    unfold Router.start_handler. rewrite Hid.
    assert (Router.handle_start_command ev (Some id) w
            = Router.handle_start_command ev None w) as ->.
    { unfold Router.handle_start_command. now destruct id; rewrite ?Hmiss. }
    rewrite router_prompt. now simpl.
Qed.

Lemma unknown_department_selection_witness :
  let w := Example.router Example.accepting in
  Router.handle_callback_query (Example.says "dept_nonexistent") w =
  (Ok tt, set_io (add_telegram (Edit 7 Router.not_found) (Router.net w)) w).
Proof.
  intros w.
  destruct unknown_department_selection as (Hrouter & _).
  apply (Hrouter w (Example.says "dept_nonexistent")); reflexivity.
Defined.

(** The claim as the specification has it fails for the /start path: a
    chatting user who sends [/start nonexistent] gets the menu, not an
    error, and loses the session that pointed at the room. *)
Lemma start_with_unknown_department_resets_session :
  let w := Example.exec
             (Router.select_department (Example.says "hi") Example.sales Example.alice)
             (Example.router Example.accepting) in
  let ev := Example.says "/start nonexistent" in
  let w' := snd (Router.on_new_message ev w) in
  snd (split_space (payload ev)) = Some "nonexistent" /\
  Router.get_department_by_id w "nonexistent" = None /\
  Router.user_sessions w !! 7 = Some (chatting Example.sales "!room0:localhost") /\
  Router.user_sessions w' !! 7 = Some selecting_department /\
  Router.user_sessions w' <> Router.user_sessions w /\
  List.last (telegram (Router.net w')) (Answer 0) =
    Respond 7 (Router.welcome_message Example.alice)
      (Some (Router.get_departments_keyboard w)).
Proof.
  intros w ev w'. repeat split; try (vm_compute; reflexivity).
  intros E. apply (f_equal (fun m => m !! 7)) in E. vm_compute in E. discriminate.
Qed.

(** ** What the router's calls do *)

Lemma router_send_effect room msg d u (w : Router.self) :
  let res := Router.send_matrix_message room msg d u w in
  fst res = Ok tt /\
  Router.effect w (snd res) (Router.user_sessions w)
    [Router.send_request room msg d u] [].
Proof.
  unfold Router.send_matrix_message, try_except, bind, http, log. simpl.
  answer_cases; effect_done.
Qed.

Lemma router_create_effect d u (w : Router.self) :
  let res := Router.create_matrix_room d u w in
  match accepted (server (env (Router.net w)) (requests (Router.net w))
                    (Router.create_room_request d u)) with
  | Some r =>
      fst res = Ok r /\
      Router.effect w (snd res) (Router.user_sessions w)
        [Router.create_room_request d u;
         Router.invite_request r (bot_user_id (dept_matrix d)) d] []
  | None =>
      fst res = Ok None /\
      Router.effect w (snd res) (Router.user_sessions w)
        [Router.create_room_request d u] []
  end.
Proof.
  unfold Router.create_matrix_room, Router.invite_to_room, try_except, bind,
    http, json_room_id, log, ret, raise, accepted. simpl.
  destruct (server _ _ (Router.create_room_request d u)) as [[st tx [|rid]]|msg];
    simpl; try (destruct (st =? 200); simpl); try (now effect_done).
  answer_cases; effect_done.
Qed.

Lemma router_select_effect ev d u (w : Router.self) :
  let res := Router.select_department ev d u w in
  fst res = Ok tt /\
  match accepted (server (env (Router.net w)) (requests (Router.net w))
                    (Router.create_room_request d u)) with
  | Some (Some (String c s as room)) =>
      Router.effect w (snd res)
        (<[user_id u := chatting d room]> (Router.user_sessions w))
        [Router.create_room_request d u;
         Router.invite_request (Some room) (bot_user_id (dept_matrix d)) d;
         Router.send_request room (Router.initial_message u) d u]
        [Respond (user_id u) (Router.confirmation_message d) None]
  | Some r =>
      Router.effect w (snd res) (Router.user_sessions w)
        [Router.create_room_request d u;
         Router.invite_request r (bot_user_id (dept_matrix d)) d]
        [Respond (user_id u) Router.connect_failed None]
  | None =>
      Router.effect w (snd res) (Router.user_sessions w)
        [Router.create_room_request d u]
        [Respond (user_id u) Router.connect_failed None]
  end.
Proof.
  pose proof (router_create_effect d u w) as Hc. simpl in Hc.
  unfold Router.select_department, bind.
  destruct (Router.create_matrix_room d u w) as [res w1].
  destruct (accepted _) as [r|]; simpl in Hc;
    destruct Hc as (-> & Hd & Hs & He & Hr & Ht).
  - destruct r as [[|c s]|].
    + unfold tg, Router.effect. simpl. rewrite Hd, Hs, He, Hr, Ht. effect_done.
    + unfold Router.set_session, tg. simpl.
      pose proof (router_send_effect (String c s) (Router.initial_message u) d u
        {| Router.departments := Router.departments w1;
           Router.user_sessions :=
             <[user_id u := chatting d (String c s)]> (Router.user_sessions w1);
           Router.net :=
             add_telegram (Respond (user_id u) (Router.confirmation_message d) None)
               (Router.net w1) |}) as (Hok & Hd' & Hs' & He' & Hr' & Ht').
      simpl in *. split; [exact Hok|].
      unfold Router.effect. rewrite Hd', Hs', He', Hr', Ht', Hd, Hs, He, Hr, Ht.
      effect_done.
    + unfold tg, Router.effect. simpl. rewrite Hd, Hs, He, Hr, Ht. effect_done.
  - unfold tg, Router.effect. simpl. rewrite Hd, Hs, He, Hr, Ht. effect_done.
Qed.

(** ** What the space integration's calls do *)

Lemma space_send_effect room msg d u (w : Space.self) :
  let res := Space.send_matrix_message room msg d u w in
  fst res = Ok tt /\
  Space.effect w (snd res) (Space.user_sessions w) (Space.space_cache w)
    [Space.send_request room msg d u] [].
Proof.
  unfold Space.send_matrix_message, try_except, bind, http, log. simpl.
  answer_cases; effect_done.
Qed.

Lemma space_add_room_effect room sid tok hs (w : Space.self) :
  let res := Space.add_room_to_space room sid tok hs w in
  fst res = Ok tt /\
  Space.effect w (snd res) (Space.user_sessions w) (Space.space_cache w)
    [bearer_request PUT hs (SpaceChild (fmt sid) (fmt room)) tok
       (Space.child_state_data
          (str_of_int (loop_time_ms (env (Space.net w))
                         (length (requests (Space.net w))))))] [].
Proof.
  unfold Space.add_room_to_space, try_except, bind, order_key, http, log. simpl.
  answer_cases; effect_done.
Qed.

Lemma space_add_space_effect child parent tok hs (w : Space.self) :
  let res := Space.add_space_to_parent child parent tok hs w in
  fst res = Ok tt /\
  Space.effect w (snd res) (Space.user_sessions w) (Space.space_cache w)
    [bearer_request PUT hs (SpaceChild (fmt parent) (fmt child)) tok
       (Space.child_state_data
          (str_of_int (loop_time_ms (env (Space.net w))
                         (length (requests (Space.net w))))))] [].
Proof.
  unfold Space.add_space_to_parent, try_except, bind, order_key, http, log. simpl.
  answer_cases; effect_done.
Qed.

Lemma space_effect_trans (w w1 w2 : Space.self) s1 c1 n1 o1 s2 c2 n2 o2 :
  Space.effect w w1 s1 c1 n1 o1 ->
  Space.effect w1 w2 s2 c2 n2 o2 ->
  Space.effect w w2 s2 c2 (n1 ++ n2) (o1 ++ o2).
Proof.
  intros (Hd & Hp & Hs & Hc & He & Hr & Ht) (Hd' & Hp' & Hs' & Hc' & He' & Hr' & Ht').
  unfold Space.effect.
  rewrite Hd', Hp', Hs', Hc', He', Hr', Ht', Hd, Hp, He, Hr, Ht.
  now rewrite !app_assoc.
Qed.

(** A call that keeps the sessions and the cache, after another call. *)
Lemma space_effect_then (w w1 w2 : Space.self) s c n1 o1 n2 o2 :
  Space.effect w w1 s c n1 o1 ->
  Space.effect w1 w2 (Space.user_sessions w1) (Space.space_cache w1) n2 o2 ->
  Space.effect w w2 s c (n1 ++ n2) (o1 ++ o2).
Proof.
  intros H1 H2. pose proof H1 as (_ & _ & Hs & Hc & _).
  rewrite Hs, Hc in H2. exact (space_effect_trans _ _ _ _ _ _ _ _ _ _ _ H1 H2).
Qed.

Lemma space_effect_then_log l m (w w1 : Space.self) s c n o :
  Space.effect w w1 s c n o ->
  Space.effect w (set_io (add_log l m (Space.net w1)) w1) s c n o.
Proof. intros (? & ? & ? & ? & ? & ? & ?). now unfold Space.effect. Qed.

(** One turn of the invite loop. *)
Lemma space_invite_each_cons room d hs tok who rest (w : Space.self) :
  Space.invite_each room d hs tok (who :: rest) w =
  if String.eqb who (bot_user_id (dept_matrix d)) then
    Space.invite_each room d hs tok rest w
  else
    let w1 := set_io (add_request (Space.invite_request room hs tok who)
                        (Space.net w)) w in
    match server (env (Space.net w)) (requests (Space.net w))
            (Space.invite_request room hs tok who) with
    | Reply resp =>
        Space.invite_each room d hs tok rest
          (snd ((if status resp =? 200 then
                   log INFO ("Invited " +:+ who +:+ " to room " +:+ fmt room)
                 else
                   log WARNING ("Failed to invite " +:+ who +:+ " to room: "
                                +:+ str_of_int (status resp) +:+ " - "
                                +:+ text resp)) w1))
    | ClientError msg => (Raise msg, w1)
    end.
Proof.
  simpl. destruct (String.eqb who (bot_user_id (dept_matrix d))); [reflexivity|].
  unfold bind, http. simpl.
  destruct (server _ _ _) as [resp|msg]; [|reflexivity].
  now destruct (status resp =? 200).
Qed.

(** The invite loop: the invites attempted are an initial part of the
    list of staff to invite, and all of it when the HTTP client raises on
    none of them. *)
Lemma space_invite_each_effect room d hs tok (users : list string) :
  forall w : Space.self,
  let res := Space.invite_each room d hs tok users w in
  let staff :=
    List.filter (fun who => negb (String.eqb who (bot_user_id (dept_matrix d))))
      users in
  exists attempted,
    attempted `prefix_of` staff /\
    Space.effect w (snd res) (Space.user_sessions w) (Space.space_cache w)
      (List.map (Space.invite_request room hs tok) attempted) [] /\
    ((forall h who, exists resp,
         server (env (Space.net w)) h (Space.invite_request room hs tok who)
         = Reply resp) ->
     fst res = Ok tt /\ attempted = staff).
Proof.
  induction users as [|who rest IH]; intros w; cbv zeta.
  - exists []. split; [apply prefix_nil|]. split; [effect_done|]. now intros _.
  - rewrite space_invite_each_cons. cbn [List.filter].
    destruct (String.eqb who (bot_user_id (dept_matrix d))); cbn [negb].
    + apply IH.
    + cbv zeta.
      destruct (server (env (Space.net w)) (requests (Space.net w))
                  (Space.invite_request room hs tok who)) as [resp|msg] eqn:E.
      * set (w1 := snd (_ (set_io _ w))).
        assert (Space.effect w w1 (Space.user_sessions w) (Space.space_cache w)
                  [Space.invite_request room hs tok who] []) as H1.
        { subst w1. destruct (status resp =? 200); effect_done. }
        destruct (IH w1) as (att & Hpre & Heff & Hall).
        exists (who :: att). split; [now apply prefix_cons|]. split.
        -- change (who :: att) with ([who] ++ att). rewrite List.map_app.
           change [] with (@nil telegram_call ++ []) at 2.
           eapply space_effect_trans; [exact H1|].
           destruct H1 as (_ & _ & <- & <- & _). exact Heff.
        -- intros Hno. destruct Hall as (-> & ->); [|now split].
           destruct H1 as (_ & _ & _ & _ & -> & _). exact Hno.
      * exists [who]. split; [apply prefix_cons, prefix_nil|]. split.
        -- effect_done.
        -- intros Hno. destruct (Hno (requests (Space.net w)) who) as (resp & E').
           rewrite E in E'. discriminate.
Qed.

Lemma space_invite_support_effect room d hs tok (w : Space.self) :
  let res := Space.invite_support_users_to_room room d hs tok w in
  fst res = Ok tt /\
  exists attempted,
    attempted `prefix_of` Space.staff_to_invite d /\
    Space.effect w (snd res) (Space.user_sessions w) (Space.space_cache w)
      (List.map (Space.invite_request room hs tok) attempted) [] /\
    ((forall h who, exists resp,
         server (env (Space.net w)) h (Space.invite_request room hs tok who)
         = Reply resp) ->
     attempted = Space.staff_to_invite d).
Proof.
  unfold Space.invite_support_users_to_room, try_except.
  destruct (space_invite_each_effect room d hs tok
              (default [] (support_users (dept_matrix d))) w)
    as (att & Hpre & Heff & Hall).
  simpl in Heff, Hall.
  destruct (Space.invite_each room d hs tok _ w) as [[[]|e] w1]; simpl in *.
  - split; [reflexivity|]. exists att. repeat split; try apply Heff; auto.
    intros Hno. now destruct (Hall Hno).
  - split; [reflexivity|]. exists att. split; [exact Hpre|]. split.
    + now apply (space_effect_then_log ERROR).
    + intros Hno. now destruct (Hall Hno).
Qed.

Lemma space_hierarchy_cached (w : Space.self) sid :
  Space.space_cache w !! "telegram" = Some sid ->
  Space.ensure_telegram_space_hierarchy w = (Ok sid, w).
Proof.
  intros Hhit. unfold Space.ensure_telegram_space_hierarchy, try_except.
  now rewrite Hhit.
Qed.

(** Creating the conversation room once the Telegram space is cached. *)
Lemma space_create_effect d u (w : Space.self) sid :
  Space.space_cache w !! "telegram" = Some sid ->
  let hs := homeserver (dept_matrix d) in
  let tok := access_token (dept_matrix d) in
  match accepted (server (env (Space.net w)) (requests (Space.net w))
                    (Space.create_room_request d u)) with
  | Some r =>
      exists w' attempted,
        Space.create_telegram_room_in_space d u w = (Ok r, w') /\
        attempted `prefix_of` Space.staff_to_invite d /\
        Space.effect w w' (Space.user_sessions w) (Space.space_cache w)
          ([Space.create_room_request d u;
            bearer_request PUT hs (SpaceChild (fmt sid) (fmt r)) tok
              (Space.child_state_data
                 (str_of_int (loop_time_ms (env (Space.net w))
                                (S (length (requests (Space.net w)))))))]
           ++ List.map (Space.invite_request r hs tok) attempted) [] /\
        ((forall h who, exists resp,
             server (env (Space.net w)) h (Space.invite_request r hs tok who)
             = Reply resp) ->
         attempted = Space.staff_to_invite d)
  | None =>
      exists w',
        Space.create_telegram_room_in_space d u w = (Ok None, w') /\
        Space.effect w w' (Space.user_sessions w) (Space.space_cache w)
          [Space.create_room_request d u] []
  end.
Proof.
  intros Hhit hs tok.
  assert (forall B (k : option string -> M Space.self B),
             bind Space.ensure_telegram_space_hierarchy k w = k sid w) as Hcache.
  { intros B k. unfold bind. now rewrite (space_hierarchy_cached _ _ Hhit). }
  destruct (server (env (Space.net w)) (requests (Space.net w))
              (Space.create_room_request d u)) as [resp|msg] eqn:E; unfold accepted;
    [destruct (status resp =? 200) eqn:St; [destruct (body resp) as [|r] eqn:Bd|]|];
    unfold Space.create_telegram_room_in_space, try_except; rewrite Hcache;
    unfold bind at 1, http at 1; cbn [get_io Space.self_world]; rewrite E, ?St;
    try (unfold bind at 1, json_room_id at 1; rewrite Bd).
  1, 3, 4: eexists; split; [reflexivity|effect_done].
  unfold ret at 1.
  rewrite (bind_run (log _ _) _ _ tt eq_refl).
  set (w2 := snd (log _ _ _)).
  assert (Space.effect w w2 (Space.user_sessions w) (Space.space_cache w)
            [Space.create_room_request d u] []) as H2 by (subst w2; effect_done).
  assert (env (Space.net w2) = env (Space.net w)
          /\ length (requests (Space.net w2)) = S (length (requests (Space.net w))))
    as (He2 & Hl2).
  { subst w2. simpl. rewrite length_app. simpl. split; [reflexivity|lia]. }
  pose proof (space_add_room_effect r sid (access_token (dept_matrix d))
                (homeserver (dept_matrix d)) w2) as (Hok3 & H3).
  cbv zeta in Hok3, H3. rewrite (bind_run _ _ _ tt Hok3).
  set (w3 := snd (Space.add_room_to_space _ _ _ _ w2)) in *.
  pose proof (space_invite_support_effect r d (homeserver (dept_matrix d))
                (access_token (dept_matrix d)) w3) as (Hok4 & att & Hpre & H4 & Hall).
  cbv zeta in Hok4, H4. rewrite (bind_run _ _ _ tt Hok4).
  set (w4 := snd (Space.invite_support_users_to_room _ _ _ _ w3)) in *.
  unfold ret. exists w4, att. split; [reflexivity|]. split; [exact Hpre|]. split.
  - rewrite He2, Hl2 in H3.
    exact (space_effect_then _ _ _ _ _ _ _ _ _
             (space_effect_then _ _ _ _ _ _ _ _ _ H2 H3) H4).
  - intros Hno. apply Hall.
    destruct H2 as (_ & _ & _ & _ & He2' & _), H3 as (_ & _ & _ & _ & He3 & _).
    rewrite He3, He2'. exact Hno.
Qed.

Lemma space_select_effect ev d u (w : Space.self) sid :
  Space.space_cache w !! "telegram" = Some sid ->
  let hs := homeserver (dept_matrix d) in
  let tok := access_token (dept_matrix d) in
  let child r :=
    bearer_request PUT hs (SpaceChild (fmt sid) (fmt r)) tok
      (Space.child_state_data
         (str_of_int (loop_time_ms (env (Space.net w))
                        (S (length (requests (Space.net w))))))) in
  match accepted (server (env (Space.net w)) (requests (Space.net w))
                    (Space.create_room_request d u)) with
  | Some (Some (String c s as room)) =>
      exists w' attempted,
        Space.select_department ev d u w = (Ok tt, w') /\
        attempted `prefix_of` Space.staff_to_invite d /\
        Space.effect w w'
          (<[user_id u := chatting d room]> (Space.user_sessions w))
          (Space.space_cache w)
          ([Space.create_room_request d u; child (Some room)]
           ++ List.map (Space.invite_request (Some room) hs tok) attempted
           ++ [Space.send_request room (Space.initial_message u) d u])
          [Respond (user_id u) (Space.confirmation_message d) None]
  | Some r =>
      exists w' attempted,
        Space.select_department ev d u w = (Ok tt, w') /\
        attempted `prefix_of` Space.staff_to_invite d /\
        Space.effect w w' (Space.user_sessions w) (Space.space_cache w)
          ([Space.create_room_request d u; child r]
           ++ List.map (Space.invite_request r hs tok) attempted)
          [Respond (user_id u) Space.connect_failed None]
  | None =>
      exists w',
        Space.select_department ev d u w = (Ok tt, w') /\
        Space.effect w w' (Space.user_sessions w) (Space.space_cache w)
          [Space.create_room_request d u]
          [Respond (user_id u) Space.connect_failed None]
  end.
Proof.
  intros Hhit hs tok child.
  pose proof (space_create_effect d u w sid Hhit) as Hc. cbv zeta in Hc.
  destruct (accepted _) as [r|].
  - destruct Hc as (w1 & att & Hrun & Hpre & Heff & _).
    assert (forall s, Space.effect w1
              (snd (tg (Respond (user_id u) s None) w1))
              (Space.user_sessions w1) (Space.space_cache w1) []
              [Respond (user_id u) s None]) as Htg by (intros; effect_done).
    destruct r as [[|c s]|].
    + exists (snd (tg (Respond (user_id u) Space.connect_failed None) w1)), att.
      split; [|split; [exact Hpre|]].
      * unfold Space.select_department, bind. now rewrite Hrun.
      * rewrite <- (app_nil_r (_ ++ List.map _ att)).
        exact (space_effect_then _ _ _ _ _ _ _ _ _ Heff (Htg _)).
    + unfold Space.select_department. unfold bind at 1. rewrite Hrun.
      rewrite (bind_run (Space.set_session _ _) _ _ tt eq_refl).
      rewrite (bind_run (tg _) _ _ tt eq_refl).
      set (w2 := snd (tg _ (snd (Space.set_session _ _ w1)))).
      pose proof (space_send_effect (String c s) (Space.initial_message u) d u w2)
        as (Hok & Hsend). cbv zeta in Hok, Hsend.
      exists (snd (Space.send_matrix_message (String c s)
                     (Space.initial_message u) d u w2)), att.
      split; [|split; [exact Hpre|]].
      * destruct (Space.send_matrix_message _ _ _ _ w2) as [rv wv].
        simpl in Hok. now subst rv.
      * assert (Space.effect w w2
                  (<[user_id u := chatting d (String c s)]> (Space.user_sessions w))
                  (Space.space_cache w)
                  ([Space.create_room_request d u; child (Some (String c s))]
                   ++ List.map (Space.invite_request (Some (String c s)) hs tok) att)
                  [Respond (user_id u) (Space.confirmation_message d) None]) as H2.
        { destruct Heff as (Hd & Hp & Hs & Hc & He & Hr & Ht).
          subst w2. unfold Space.effect. simpl.
          rewrite Hd, Hp, Hs, Hc, He, Hr, Ht. effect_done. }
        rewrite app_assoc.
        rewrite <- (app_nil_r [Respond _ _ _]).
        exact (space_effect_then _ _ _ _ _ _ _ _ _ H2 Hsend).
    + exists (snd (tg (Respond (user_id u) Space.connect_failed None) w1)), att.
      split; [|split; [exact Hpre|]].
      * unfold Space.select_department, bind. now rewrite Hrun.
      * rewrite <- (app_nil_r (_ ++ List.map _ att)).
        exact (space_effect_then _ _ _ _ _ _ _ _ _ Heff (Htg _)).
  - destruct Hc as (w1 & Hrun & Heff).
    exists (snd (tg (Respond (user_id u) Space.connect_failed None) w1)). split.
    + unfold Space.select_department, bind. now rewrite Hrun.
    + refine (space_effect_then w w1 _ _ _ [Space.create_room_request d u] []
                [] [Respond (user_id u) Space.connect_failed None] Heff _).
      effect_done.
Qed.

(** ** The relay reports nothing *)

(** Claim C7, as the code has it.  [send_matrix_message] returns [None]
    whatever the homeserver answers (a 200, another status, or an
    exception of the HTTP client): it issues the one send request, never
    raises, leaves the sessions alone and tells the Telegram user
    nothing.  The outcome of the send goes to the log only. *)
Theorem send_matrix_message_returns_nothing :
  (forall room msg d u (w : Router.self),
     let res := Router.send_matrix_message room msg d u w in
     fst res = Ok tt /\
     Router.effect w (snd res) (Router.user_sessions w)
       [Router.send_request room msg d u] []) /\
  (forall room msg d u (w : Space.self),
     let res := Space.send_matrix_message room msg d u w in
     fst res = Ok tt /\
     Space.effect w (snd res) (Space.user_sessions w) (Space.space_cache w)
       [Space.send_request room msg d u] []).
Proof.
  split; intros.
  - apply router_send_effect.
  - apply space_send_effect.
Qed.

(** The claim as the specification has it fails: a send that is answered
    with a 500, and one that cannot reach the homeserver, return to the
    caller exactly what a delivered send returns, and the router that
    relays Alice's message ends in the same sessions and sends her
    nothing in all three cases.  Only the log differs. *)
Lemma relay_failure_is_not_reported :
  let send := Router.send_matrix_message "!room0:localhost" "hello"
                Example.sales Example.alice in
  let relay s := snd (Router.on_new_message (Example.says "hello")
                        (Example.router_chatting s)) in
  fst (send (Example.router Example.failing))
    = fst (send (Example.router Example.accepting)) /\
  fst (send (Example.router Example.unreachable))
    = fst (send (Example.router Example.accepting)) /\
  logs (Router.net (relay Example.accepting))
    = [(INFO, "Sent message to Matrix room !room0:localhost")] /\
  logs (Router.net (relay Example.failing))
    = [(ERROR, "Failed to send Matrix message: 500")] /\
  logs (Router.net (relay Example.unreachable))
    = [(ERROR, "Error sending Matrix message: Cannot connect to host")] /\
  telegram (Router.net (relay Example.failing)) = [] /\
  telegram (Router.net (relay Example.unreachable)) = [] /\
  Router.user_sessions (relay Example.failing)
    = Router.user_sessions (relay Example.accepting) /\
  Router.user_sessions (relay Example.unreachable)
    = Router.user_sessions (relay Example.accepting).
Proof. repeat split. Qed.

(** ** Selecting a department always creates a room *)

Lemma count_create_invites room hs tok (l : list string) :
  count is_create_room (List.map (Space.invite_request room hs tok) l) = 0%nat.
Proof. induction l as [|a l IH]; [reflexivity|exact IH]. Qed.

(** Claim C1, as the code has it.  [select_department] has no
    short-circuit on an existing room: every invocation issues exactly
    one createRoom request for a conversation room, in the router always
    and in the space integration once the Telegram space is cached, even
    when the user is already chatting with that department; and when the
    homeserver accepts the request with a non-empty room id, that id
    replaces the one in the user's session. *)
Theorem select_department_always_creates (ev : event) (d : department) (u : user) :
  (forall w : Router.self,
     let w' := snd (Router.select_department ev d u w) in
     count is_create_room (requests (Router.net w'))
       = S (count is_create_room (requests (Router.net w))) /\
     forall room,
       accepted (server (env (Router.net w)) (requests (Router.net w))
                   (Router.create_room_request d u)) = Some (Some room) ->
       room <> "" ->
       Router.user_sessions w' !! user_id u = Some (chatting d room)) /\
  (forall (w : Space.self) sid,
     Space.space_cache w !! "telegram" = Some sid ->
     let w' := snd (Space.select_department ev d u w) in
     count is_create_room (requests (Space.net w'))
       = S (count is_create_room (requests (Space.net w))) /\
     forall room,
       accepted (server (env (Space.net w)) (requests (Space.net w))
                   (Space.create_room_request d u)) = Some (Some room) ->
       room <> "" ->
       Space.user_sessions w' !! user_id u = Some (chatting d room)).
Proof.
  split.
  - intros w w'. subst w'.
    pose proof (router_select_effect ev d u w) as (_ & H). cbv zeta in H.
    destruct (accepted _) as [[[|c s]|]|];
      destruct H as (_ & Hs & _ & Hr & _); rewrite Hr, count_app;
      (split; [one_more|]); intros room [= <-] Hne; try congruence.
    rewrite Hs. apply lookup_insert_eq.
  - intros w sid Hhit w'. subst w'.
    pose proof (space_select_effect ev d u w sid Hhit) as H. cbv zeta in H.
    destruct (accepted _) as [[[|c s]|]|].
    + destruct H as (w1 & att & -> & _ & _ & _ & _ & _ & _ & Hr & _).
      cbn [snd]. rewrite Hr, !count_app, count_create_invites, ?Nat.add_0_r.
      split; [one_more|]. intros room [= <-] Hne. congruence.
    + destruct H as (w1 & att & -> & _ & _ & _ & Hs & _ & _ & Hr & _).
      cbn [snd]. rewrite Hr, !count_app, count_create_invites, ?Nat.add_0_r.
      split; [one_more|]. intros room [= <-] _. rewrite Hs.
      apply lookup_insert_eq.
    + destruct H as (w1 & att & -> & _ & _ & _ & _ & _ & _ & Hr & _).
      cbn [snd]. rewrite Hr, !count_app, count_create_invites, ?Nat.add_0_r.
      split; [one_more|]. intros room [=].
    + destruct H as (w1 & -> & _ & _ & _ & _ & _ & Hr & _).
      cbn [snd]. rewrite Hr, !count_app.
      split; [one_more|]. intros room [=].
Qed.

Lemma select_department_always_creates_witness :
  let w1 := Example.exec
              (Space.select_department (Example.says "hi") Example.sales Example.alice)
              (Example.space Example.accepting) in
  let w2 := snd (Space.select_department (Example.says "hi") Example.sales
                   Example.alice w1) in
  Space.user_sessions w1 !! 7 = Some (chatting Example.sales "!room3:localhost") /\
  count is_create_room (requests (Space.net w2))
    = S (count is_create_room (requests (Space.net w1))) /\
  Space.user_sessions w2 !! 7 = Some (chatting Example.sales "!room9:localhost").
Proof.
  intros w1 w2.
  destruct (select_department_always_creates (Example.says "hi") Example.sales
              Example.alice) as (_ & Hspace).
  destruct (Hspace w1 (Some "!room1:localhost")) as (Hcount & Hroom);
    [vm_compute; reflexivity|].
  split; [vm_compute; reflexivity|]. split; [exact Hcount|].
  apply (Hroom "!room9:localhost"); [vm_compute; reflexivity|discriminate].
Defined.

(** The claim as the specification has it fails: selecting the same
    department a second time issues a second createRoom request and moves
    the session to the second room. *)
Lemma reselecting_creates_a_second_room :
  let select := Router.select_department (Example.says "hi") Example.sales
                  Example.alice in
  let w1 := snd (select (Example.router Example.accepting)) in
  let w2 := snd (select w1) in
  Router.user_sessions w1 !! 7 = Some (chatting Example.sales "!room0:localhost") /\
  Router.user_sessions w2 !! 7 = Some (chatting Example.sales "!room3:localhost") /\
  count is_create_room (requests (Router.net w1)) = 1%nat /\
  count is_create_room (requests (Router.net w2)) = 2%nat.
Proof. repeat split; vm_compute; reflexivity. Qed.

(** ** Switching department *)

Lemma router_free_text_relayed (ev : event) d room (w : Router.self) :
  startswith "/" (payload ev) = false ->
  Router.user_sessions w !! user_id (sender ev) = Some (chatting d room) ->
  Router.on_new_message ev w
  = Router.send_matrix_message room (payload ev) d (sender ev) w.
Proof.
  intros Hfree Hs. unfold Router.on_new_message, Router.message_handler.
  rewrite (free_text_is_no_start _ Hfree), Hfree.
  unfold bind, ret, Router.handle_message. now rewrite Hs.
Qed.

Lemma space_free_text_relayed (ev : event) d room (w : Space.self) :
  startswith "/" (payload ev) = false ->
  Space.user_sessions w !! user_id (sender ev) = Some (chatting d room) ->
  Space.on_new_message ev w
  = Space.send_matrix_message room (payload ev) d (sender ev) w.
Proof.
  intros Hfree Hs. unfold Space.on_new_message, Space.message_handler.
  rewrite (free_text_is_no_start _ Hfree), Hfree.
  unfold bind, ret, Space.handle_message. now rewrite Hs.
Qed.

(** A run of free-text messages of a chatting user: one send per message,
    in order, all to the room of the session, which stays as it is. *)
Lemma router_texts_relayed u d room (texts : list string) :
  Forall (fun t => startswith "/" t = false) texts ->
  forall w : Router.self,
  Router.user_sessions w !! user_id u = Some (chatting d room) ->
  let events :=
    List.map (fun t => Router.NewMessage {| sender := u; payload := t |}) texts in
  Router.effect w (snd (Router.run events w)) (Router.user_sessions w)
    (List.map (fun t => Router.send_request room t d u) texts) [].
Proof.
  induction 1 as [|t texts Hfree _ IH]; intros w Hs; cbv zeta.
  - effect_done.
  - cbn [List.map Router.run Router.dispatch].
    pose proof (router_send_effect room t d u w) as (Hok & Heff).
    cbv zeta in Hok, Heff.
    rewrite (bind_run _ _ _ tt)
      by (rewrite (router_free_text_relayed _ d room) by assumption; exact Hok).
    rewrite (router_free_text_relayed _ d room) by assumption. cbn [sender payload].
    set (w1 := snd (Router.send_matrix_message room t d u w)) in *.
    assert (Router.user_sessions w1 !! user_id u = Some (chatting d room)) as Hs1.
    { destruct Heff as (_ & -> & _). exact Hs. }
    specialize (IH w1 Hs1). cbv zeta in IH.
    destruct Heff as (Hd & Hs' & He & Hr & Ht), IH as (Hd2 & Hs2 & He2 & Hr2 & Ht2).
    unfold Router.effect.
    rewrite Hd2, Hs2, He2, Hr2, Ht2, Hd, Hs', He, Hr, Ht. effect_done.
Qed.

Lemma space_texts_relayed u d room (texts : list string) :
  Forall (fun t => startswith "/" t = false) texts ->
  forall w : Space.self,
  Space.user_sessions w !! user_id u = Some (chatting d room) ->
  let events :=
    List.map (fun t => Space.NewMessage {| sender := u; payload := t |}) texts in
  Space.effect w (snd (Space.run events w)) (Space.user_sessions w)
    (Space.space_cache w)
    (List.map (fun t => Space.send_request room t d u) texts) [].
Proof.
  induction 1 as [|t texts Hfree _ IH]; intros w Hs; cbv zeta.
  - effect_done.
  - cbn [List.map Space.run Space.dispatch].
    pose proof (space_send_effect room t d u w) as (Hok & Heff).
    cbv zeta in Hok, Heff.
    rewrite (bind_run _ _ _ tt)
      by (rewrite (space_free_text_relayed _ d room) by assumption; exact Hok).
    rewrite (space_free_text_relayed _ d room) by assumption. cbn [sender payload].
    set (w1 := snd (Space.send_matrix_message room t d u w)) in *.
    assert (Space.user_sessions w1 !! user_id u = Some (chatting d room)) as Hs1.
    { destruct Heff as (_ & _ & -> & _). exact Hs. }
    specialize (IH w1 Hs1). cbv zeta in IH.
    change (Space.send_request room t d u :: ?l)
      with ([Space.send_request room t d u] ++ l).
    exact (space_effect_then _ _ _ _ _ [_] [] _ [] Heff IH).
Qed.

Lemma count_sends_elsewhere (old room : string) (l : list request) :
  Forall (fun r => req_endpoint r = SendMessage room) l ->
  room <> old -> count (is_send_to old) l = 0%nat.
Proof.
  intros Hall Hne. induction Hall as [|r l Hr _ IH]; [reflexivity|].
  unfold count in *. cbn [List.filter]. unfold is_send_to at 1. rewrite Hr.
  destruct (String.eqb_spec room old); [contradiction|exact IH].
Qed.

Lemma router_department_switch
    (w : Router.self) (ev : event) (u : user) (A B : department)
    (R1 R2 : string) (texts : list string) :
  Router.user_sessions w !! user_id u = Some (chatting A R1) ->
  accepted (server (env (Router.net w)) (requests (Router.net w))
              (Router.create_room_request B u)) = Some (Some R2) ->
  R2 <> "" -> R2 <> R1 ->
  Forall (fun t => startswith "/" t = false) texts ->
  let w1 := snd (Router.select_department ev B u w) in
  let events :=
    List.map (fun t => Router.NewMessage {| sender := u; payload := t |}) texts in
  let w2 := snd (Router.run events w1) in
  count is_create_room (requests (Router.net w1))
    = S (count is_create_room (requests (Router.net w))) /\
  Router.user_sessions w1 !! user_id u = Some (chatting B R2) /\
  requests (Router.net w2)
    = requests (Router.net w1)
      ++ List.map (fun t => Router.send_request R2 t B u) texts /\
  Router.user_sessions w2 !! user_id u = Some (chatting B R2) /\
  count (is_send_to R1) (requests (Router.net w2))
    = count (is_send_to R1) (requests (Router.net w)).
Proof.
  intros Hs Hacc Hne Hdiff Hfree w1 events w2.
  pose proof (router_select_effect ev B u w) as (_ & Hsel). cbv zeta in Hsel.
  rewrite Hacc in Hsel. destruct R2 as [|c s]; [contradiction|].
  fold w1 in Hsel. destruct Hsel as (_ & Hs1 & _ & Hr1 & _).
  remember (String c s) as R2 eqn:HR2. clear HR2 Hacc.
  assert (Router.user_sessions w1 !! user_id u = Some (chatting B R2))
    as Hchat by (rewrite Hs1; apply lookup_insert_eq).
  pose proof (router_texts_relayed u B R2 texts Hfree w1 Hchat)
    as (_ & Hs2 & _ & Hr2 & _).
  cbv zeta in Hs2, Hr2. fold events w2 in Hs2, Hr2.
  split; [rewrite Hr1, count_app; one_more|].
  split; [exact Hchat|]. split; [exact Hr2|]. split; [now rewrite Hs2|].
  rewrite Hr2, Hr1, !count_app.
  rewrite (count_sends_elsewhere R1 R2 (List.map _ texts));
    [|apply List.Forall_map, List.Forall_forall; now intros|exact Hdiff].
  replace (count (is_send_to R1) [_; _; _]) with 0%nat; [lia|].
  unfold count. cbn. destruct (String.eqb_spec R2 R1); [contradiction|reflexivity].
Qed.

Lemma count_sends_invites old room hs tok (l : list string) :
  count (is_send_to old) (List.map (Space.invite_request room hs tok) l) = 0%nat.
Proof. induction l as [|a l IH]; [reflexivity|exact IH]. Qed.

Lemma space_department_switch
    (w : Space.self) sid (ev : event) (u : user) (A B : department)
    (R1 R2 : string) (texts : list string) :
  Space.space_cache w !! "telegram" = Some sid ->
  Space.user_sessions w !! user_id u = Some (chatting A R1) ->
  accepted (server (env (Space.net w)) (requests (Space.net w))
              (Space.create_room_request B u)) = Some (Some R2) ->
  R2 <> "" -> R2 <> R1 ->
  Forall (fun t => startswith "/" t = false) texts ->
  let w1 := snd (Space.select_department ev B u w) in
  let events :=
    List.map (fun t => Space.NewMessage {| sender := u; payload := t |}) texts in
  let w2 := snd (Space.run events w1) in
  count is_create_room (requests (Space.net w1))
    = S (count is_create_room (requests (Space.net w))) /\
  Space.user_sessions w1 !! user_id u = Some (chatting B R2) /\
  requests (Space.net w2)
    = requests (Space.net w1)
      ++ List.map (fun t => Space.send_request R2 t B u) texts /\
  Space.user_sessions w2 !! user_id u = Some (chatting B R2) /\
  count (is_send_to R1) (requests (Space.net w2))
    = count (is_send_to R1) (requests (Space.net w)).
Proof.
  intros Hhit Hs Hacc Hne Hdiff Hfree w1 events w2.
  pose proof (space_select_effect ev B u w sid Hhit) as Hsel. cbv zeta in Hsel.
  rewrite Hacc in Hsel. destruct R2 as [|c s]; [contradiction|].
  destruct Hsel as (w1' & att & Hrun & _ & _ & _ & Hs1 & _ & _ & Hr1 & _).
  assert (w1 = w1') as Hw1 by (subst w1; now rewrite Hrun).
  rewrite <- Hw1 in Hs1, Hr1. clear Hw1 Hrun w1'.
  remember (String c s) as R2 eqn:HR2. clear HR2 Hacc.
  assert (Space.user_sessions w1 !! user_id u = Some (chatting B R2))
    as Hchat by (rewrite Hs1; apply lookup_insert_eq).
  pose proof (space_texts_relayed u B R2 texts Hfree w1 Hchat)
    as (_ & _ & Hs2 & _ & _ & Hr2 & _).
  cbv zeta in Hs2, Hr2. fold events w2 in Hs2, Hr2.
  split; [rewrite Hr1, !count_app, count_create_invites; one_more|].
  split; [exact Hchat|]. split; [exact Hr2|]. split; [now rewrite Hs2|].
  rewrite Hr2, Hr1, !count_app, count_sends_invites.
  rewrite (count_sends_elsewhere R1 R2 (List.map _ texts));
    [|apply List.Forall_map, List.Forall_forall; now intros|exact Hdiff].
  replace (count (is_send_to R1) [_; _]) with 0%nat by reflexivity.
  replace (count (is_send_to R1) [_]) with 0%nat; [lia|].
  unfold count. cbn. destruct (String.eqb_spec R2 R1); [contradiction|reflexivity].
Qed.

(** Claim C6.  A user chatting with department A in room R1 selects
    department B, and the homeserver accepts the createRoom request with
    the id R2 of another room.  Then one more room was created, the
    session points at R2 for department B, and every later free-text
    message of the user is sent to R2, one request per message and in
    order; nothing is sent to R1 any more.  So in the router, and in the
    space integration once the Telegram space is cached. *)
Theorem department_switch_retargets_relay
    (ev : event) (u : user) (A B : department) (R1 R2 : string)
    (texts : list string) :
  R2 <> "" -> R2 <> R1 ->
  Forall (fun t => startswith "/" t = false) texts ->
  (forall w : Router.self,
     Router.user_sessions w !! user_id u = Some (chatting A R1) ->
     accepted (server (env (Router.net w)) (requests (Router.net w))
                 (Router.create_room_request B u)) = Some (Some R2) ->
     let w1 := snd (Router.select_department ev B u w) in
     let events :=
       List.map (fun t => Router.NewMessage {| sender := u; payload := t |})
         texts in
     let w2 := snd (Router.run events w1) in
     count is_create_room (requests (Router.net w1))
       = S (count is_create_room (requests (Router.net w))) /\
     Router.user_sessions w1 !! user_id u = Some (chatting B R2) /\
     requests (Router.net w2)
       = requests (Router.net w1)
         ++ List.map (fun t => Router.send_request R2 t B u) texts /\
     Router.user_sessions w2 !! user_id u = Some (chatting B R2) /\
     count (is_send_to R1) (requests (Router.net w2))
       = count (is_send_to R1) (requests (Router.net w))) /\
  (forall (w : Space.self) sid,
     Space.space_cache w !! "telegram" = Some sid ->
     Space.user_sessions w !! user_id u = Some (chatting A R1) ->
     accepted (server (env (Space.net w)) (requests (Space.net w))
                 (Space.create_room_request B u)) = Some (Some R2) ->
     let w1 := snd (Space.select_department ev B u w) in
     let events :=
       List.map (fun t => Space.NewMessage {| sender := u; payload := t |})
         texts in
     let w2 := snd (Space.run events w1) in
     count is_create_room (requests (Space.net w1))
       = S (count is_create_room (requests (Space.net w))) /\
     Space.user_sessions w1 !! user_id u = Some (chatting B R2) /\
     requests (Space.net w2)
       = requests (Space.net w1)
         ++ List.map (fun t => Space.send_request R2 t B u) texts /\
     Space.user_sessions w2 !! user_id u = Some (chatting B R2) /\
     count (is_send_to R1) (requests (Space.net w2))
       = count (is_send_to R1) (requests (Space.net w))).
Proof.
  intros Hne Hdiff Hfree. split.
  - intros w Hs Hacc. now apply (router_department_switch w ev u A B R1 R2 texts).
  - intros w sid Hhit Hs Hacc.
    now apply (space_department_switch w sid ev u A B R1 R2 texts).
Qed.

Lemma department_switch_retargets_relay_witness :
  let w := Example.router_chatting (Example.naming "!second:localhost") in
  let w1 := snd (Router.select_department (Example.says "dept_support")
                   Example.support Example.alice w) in
  let w2 := snd (Router.run [Router.NewMessage (Example.says "hi");
                             Router.NewMessage (Example.says "bye")] w1) in
  Router.user_sessions w !! 7 = Some (chatting Example.sales "!room0:localhost") /\
  Router.user_sessions w1 !! 7
    = Some (chatting Example.support "!second:localhost") /\
  List.map req_endpoint (requests (Router.net w2))
    = List.map req_endpoint (requests (Router.net w1))
      ++ [SendMessage "!second:localhost"; SendMessage "!second:localhost"] /\
  count (is_send_to "!room0:localhost") (requests (Router.net w2)) = 0%nat.
Proof.
  intros w w1 w2.
  destruct (department_switch_retargets_relay (Example.says "dept_support")
              Example.alice Example.sales Example.support
              "!room0:localhost" "!second:localhost" ["hi"; "bye"])
    as (Hrouter & _).
  - discriminate.
  - discriminate.
  - repeat constructor.
  - destruct (Hrouter w) as (_ & Hs1 & Hr2 & _ & Hcount);
      [vm_compute; reflexivity|vm_compute; reflexivity|].
    split; [vm_compute; reflexivity|]. split; [exact Hs1|].
    split; [|exact Hcount].
    change (requests (Router.net w2)
            = requests (Router.net w1)
              ++ [Router.send_request "!second:localhost" "hi" Example.support
                    Example.alice;
                  Router.send_request "!second:localhost" "bye" Example.support
                    Example.alice]) in Hr2.
    rewrite Hr2, List.map_app. reflexivity.
Defined.

(** ** Inviting the staff *)

Lemma bot_invite_effect room who (w : Bot.self) :
  let res := Bot.invite_user_to_room room who w in
  fst res = Ok tt /\
  Bot.effect w (snd res) (Bot.user_sessions w) [Bot.invite_request w room who] [].
Proof.
  unfold Bot.invite_user_to_room, try_except, bind, ret, http, log. simpl.
  answer_cases; effect_done.
Qed.

Lemma bot_effect_then (w w1 w2 : Bot.self) s n1 o1 n2 o2 :
  Bot.effect w w1 s n1 o1 ->
  Bot.effect w1 w2 (Bot.user_sessions w1) n2 o2 ->
  Bot.effect w w2 s (n1 ++ n2) (o1 ++ o2).
Proof.
  intros (Hk & Hh & Hs & He & Hr & Ht) (Hk' & Hh' & Hs' & He' & Hr' & Ht').
  unfold Bot.effect.
  rewrite Hk', Hh', Hs', He', Hr', Ht', Hk, Hh, Hs, He, Hr, Ht.
  now rewrite !app_assoc.
Qed.

(** In the department bot each invite has its own [try]: all are made. *)
Lemma bot_invite_each_effect room (users : list string) :
  forall w : Bot.self,
  let res := Bot.invite_each room users w in
  fst res = Ok tt /\
  Bot.effect w (snd res) (Bot.user_sessions w)
    (List.map (Bot.invite_request w room) users) [].
Proof.
  induction users as [|who rest IH]; intros w; cbv zeta.
  - split; [reflexivity|effect_done].
  - cbn [Bot.invite_each List.map].
    pose proof (bot_invite_effect room who w) as (Hok & Heff).
    cbv zeta in Hok, Heff. rewrite (bind_run _ _ _ tt Hok).
    set (w1 := snd (Bot.invite_user_to_room room who w)) in *.
    destruct (IH w1) as (Hok1 & Heff1). split; [exact Hok1|].
    assert (Bot.invite_request w1 room = Bot.invite_request w room) as E.
    { unfold Bot.invite_request. destruct Heff as (-> & -> & _). reflexivity. }
    rewrite E in Heff1.
    exact (bot_effect_then _ _ _ _ [_] [] _ [] Heff Heff1).
Qed.

Lemma bot_create_effect uid dept (w : Bot.self) user_session dept_info room :
  Bot.user_sessions w !! uid = Some user_session ->
  Bot.lookup_department dept = Some dept_info ->
  accepted (server (env (Bot.net w)) (requests (Bot.net w))
              (Bot.create_room_request w uid dept user_session dept_info))
    = Some (Some room) ->
  exists w',
    Bot.create_matrix_room uid dept w = (Ok (Some room), w') /\
    Bot.effect w w' (Bot.user_sessions w)
      (Bot.create_room_request w uid dept user_session dept_info
       :: List.map (Bot.invite_request w room) (Bot.matrix_users dept_info)) [].
Proof.
  intros Hs Hd Hacc.
  unfold Bot.create_matrix_room, try_except.
  unfold bind at 1. unfold ret at 1. rewrite Hs, Hd.
  unfold bind at 1, http at 1. cbn [get_io Bot.self_world].
  fold (Bot.create_room_request w uid dept user_session dept_info).
  unfold accepted in Hacc.
  destruct (server _ _ _) as [resp|msg]; [|discriminate].
  destruct (status resp =? 200); [|discriminate].
  unfold bind at 1, json_room_id at 1.
  destruct (body resp) as [|r]; [discriminate|]. injection Hacc as ->.
  unfold ret at 1. rewrite (bind_run (log _ _) _ _ tt eq_refl).
  set (w1 := snd (log _ _ _)).
  assert (Bot.effect w w1 (Bot.user_sessions w)
            [Bot.create_room_request w uid dept user_session dept_info] [])
    as H1 by (subst w1; effect_done).
  destruct (bot_invite_each_effect room (Bot.matrix_users dept_info) w1)
    as (Hok & Heff).
  rewrite (bind_run _ _ _ tt Hok). unfold ret.
  eexists. split; [reflexivity|].
  assert (Bot.invite_request w1 room = Bot.invite_request w room) as E.
  { unfold Bot.invite_request. destruct H1 as (-> & -> & _). reflexivity. }
  rewrite E in Heff.
  exact (bot_effect_then _ _ _ _ [_] [] _ [] H1 Heff).
Qed.

(** Claim C3, as the code has it.  Once the room is created, the result
    of provisioning is the room id whatever becomes of the invites.  In
    the space integration the invites go, in the configured order, to
    the support users other than the department's own bot user; the ones
    attempted are an initial part of that list, and the whole list when
    the homeserver answers every invite, with whatever status.  In the
    department bot every matrix user of the department is invited, and in
    the router the department's bot user alone. *)
Theorem invites_do_not_fail_provisioning :
  (forall d u (w : Space.self) sid r,
     Space.space_cache w !! "telegram" = Some sid ->
     accepted (server (env (Space.net w)) (requests (Space.net w))
                 (Space.create_room_request d u)) = Some r ->
     let hs := homeserver (dept_matrix d) in
     let tok := access_token (dept_matrix d) in
     let res := Space.create_telegram_room_in_space d u w in
     fst res = Ok r /\
     exists attempted,
       attempted `prefix_of` Space.staff_to_invite d /\
       invited (requests (Space.net (snd res)))
         = invited (requests (Space.net w)) ++ attempted /\
       ((forall h who, exists resp,
            server (env (Space.net w)) h (Space.invite_request r hs tok who)
            = Reply resp) ->
        attempted = Space.staff_to_invite d)) /\
  (forall uid dept (w : Bot.self) user_session dept_info room,
     Bot.user_sessions w !! uid = Some user_session ->
     Bot.lookup_department dept = Some dept_info ->
     accepted (server (env (Bot.net w)) (requests (Bot.net w))
                 (Bot.create_room_request w uid dept user_session dept_info))
       = Some (Some room) ->
     let res := Bot.create_matrix_room uid dept w in
     fst res = Ok (Some room) /\
     invited (requests (Bot.net (snd res)))
       = invited (requests (Bot.net w)) ++ Bot.matrix_users dept_info) /\
  (forall d u (w : Router.self) r,
     accepted (server (env (Router.net w)) (requests (Router.net w))
                 (Router.create_room_request d u)) = Some r ->
     let res := Router.create_matrix_room d u w in
     fst res = Ok r /\
     invited (requests (Router.net (snd res)))
       = invited (requests (Router.net w)) ++ [bot_user_id (dept_matrix d)]).
Proof.
  assert (forall room hs tok l,
             invited (List.map (Space.invite_request room hs tok) l) = l) as Hspace.
  { intros room hs tok l. induction l as [|a l IH]; [reflexivity|].
    unfold invited in *. cbn [List.map omap list_omap]. cbn. now rewrite IH. }
  assert (forall (w : Bot.self) room l,
             invited (List.map (Bot.invite_request w room) l) = l) as Hbot.
  { intros w room l. induction l as [|a l IH]; [reflexivity|].
    unfold invited in *. cbn [List.map omap list_omap]. cbn. now rewrite IH. }
  split; [|split].
  - intros d u w sid r Hhit Hacc hs tok res.
    pose proof (space_create_effect d u w sid Hhit) as H. cbv zeta in H.
    rewrite Hacc in H. destruct H as (w' & att & Hrun & Hpre & Heff & Hall).
    subst res. rewrite Hrun. cbn [fst snd]. split; [reflexivity|].
    exists att. split; [exact Hpre|]. split; [|exact Hall].
    destruct Heff as (_ & _ & _ & _ & _ & -> & _).
    unfold invited. rewrite !omap_app. fold (invited (requests (Space.net w))).
    f_equal. apply Hspace.
  - intros uid dept w user_session dept_info room Hs Hd Hacc res.
    destruct (bot_create_effect uid dept w user_session dept_info room Hs Hd Hacc)
      as (w' & Hrun & Heff).
    subst res. rewrite Hrun. cbn [fst snd]. split; [reflexivity|].
    destruct Heff as (_ & _ & _ & _ & -> & _).
    unfold invited. rewrite omap_app. f_equal. cbn [omap list_omap].
    apply Hbot.
  - intros d u w r Hacc res.
    pose proof (router_create_effect d u w) as H. cbv zeta in H.
    rewrite Hacc in H. fold res in H. destruct H as (Hok & _ & _ & _ & Hr & _).
    split; [exact Hok|]. rewrite Hr. unfold invited. now rewrite omap_app.
Qed.

Lemma invites_do_not_fail_provisioning_witness :
  let w := Example.space_cached (Example.invite_refused "@bob:localhost") in
  let res := Space.create_telegram_room_in_space Example.sales Example.alice w in
  fst res = Ok (Some "!room0:localhost") /\
  invited (requests (Space.net (snd res)))
    = ["@ann:localhost"; "@bob:localhost"; "@cat:localhost"] /\
  List.filter (fun entry => match fst entry with WARNING => true | _ => false end)
    (logs (Space.net (snd res)))
    = [(WARNING, "Failed to invite @bob:localhost to room: 500 - Internal Server Error")].
Proof.
  intros w res.
  destruct invites_do_not_fail_provisioning as (Hspace & _ & _).
  destruct (Hspace Example.sales Example.alice w (Some "!telegram:localhost")
              (Some "!room0:localhost"))
    as (Hok & att & _ & Hinv & Hall); [reflexivity|reflexivity|].
  fold res in Hok, Hinv. split; [exact Hok|]. split; [|vm_compute; reflexivity].
  rewrite Hinv, Hall; [reflexivity|].
  intros h who. unfold w. cbn.
  destruct (String.eqb who "@bob:localhost"); eexists; reflexivity.
Defined.

(** The claim as the specification has it fails: Sales lists four support
    users, one of them the department's bot user; the room is created and
    three invites are issued, none for the bot user. *)
Lemma configured_bot_user_is_not_invited :
  let w := Example.space_cached Example.accepting in
  let res := Space.create_telegram_room_in_space Example.sales Example.alice w in
  support_users (dept_matrix Example.sales)
    = Some ["@ann:localhost"; "@bot:localhost"; "@bob:localhost"; "@cat:localhost"] /\
  fst res = Ok (Some "!room0:localhost") /\
  invited (requests (Space.net (snd res)))
    = ["@ann:localhost"; "@bob:localhost"; "@cat:localhost"] /\
  "@bot:localhost" ∉ invited (requests (Space.net (snd res))).
Proof.
  intros w res. split; [reflexivity|]. split; [reflexivity|].
  assert (invited (requests (Space.net (snd res)))
          = ["@ann:localhost"; "@bob:localhost"; "@cat:localhost"]) as E
    by (vm_compute; reflexivity).
  split; [exact E|]. rewrite E. intros Hin.
  repeat (apply elem_of_cons in Hin as [Hin|Hin]; [discriminate|]).
  now apply elem_of_nil in Hin.
Qed.

(** An invite on which the HTTP client raises ends the loop of the space
    integration: the users after it are not invited.  The room is still
    the result. *)
Lemma invite_exception_ends_the_loop :
  let w := Example.space_cached (Example.invite_raises "@bob:localhost") in
  let res := Space.create_telegram_room_in_space Example.sales Example.alice w in
  fst res = Ok (Some "!room0:localhost") /\
  invited (requests (Space.net (snd res))) = ["@ann:localhost"; "@bob:localhost"] /\
  List.last (logs (Space.net (snd res))) (DEBUG, "")
    = (ERROR, "Error inviting support users to room: Server disconnected").
Proof. repeat split; vm_compute; reflexivity. Qed.

(** ** Resolving the Telegram space *)

Lemma space_root_effect (w : Space.self) :
  exists res w' new,
    Space.ensure_root_space w = (res, w') /\
    Space.effect w w' (Space.user_sessions w) (Space.space_cache w) new [] /\
    match Space.departments w with
    | [] => new = [] /\ exists e, res = Raise e
    | d0 :: _ =>
        let req := Space.space_request (dept_matrix d0)
                     (rootSpace (Space.spaces w)) in
        new = [req] /\
        match accepted (server (env (Space.net w)) (requests (Space.net w)) req) with
        | Some r => res = Ok r
        | None => exists e, res = Raise e
        end
    end.
Proof.
  unfold Space.ensure_root_space, try_except, bind, Space.admin_matrix, ret, raise,
    http, json_room_id, log, accepted.
  destruct (Space.departments w) as [|d0 ds]; cbn [get_io Space.self_world].
  - eexists _, _, []. split; [reflexivity|]. split; [effect_done|].
    split; [reflexivity|]. eexists; reflexivity.
  - cbv zeta.
    destruct (server _ _ _) as [[st tx [|r]]|msg]; cbn [status body text];
      try destruct (st =? 200);
      (eexists _, _, [_]; split; [reflexivity|]; split; [effect_done|];
       split; [reflexivity|]; try reflexivity; eexists; reflexivity).
Qed.

Lemma space_channel_effect root (w : Space.self) :
  exists res w' new,
    Space.ensure_telegram_space root w = (res, w') /\
    Space.effect w w' (Space.user_sessions w) (Space.space_cache w) new [] /\
    match Space.departments w with
    | [] => new = [] /\ exists e, res = Raise e
    | d0 :: _ =>
        match List.find (fun channel => String.eqb (space_id channel) "telegram")
                (communicationChannels (Space.spaces w)) with
        | None => new = [] /\ res = Raise "Telegram space configuration not found"
        | Some telegram_config =>
            let req := Space.space_request (dept_matrix d0) telegram_config in
            match accepted (server (env (Space.net w)) (requests (Space.net w))
                              req) with
            | Some r =>
                res = Ok r /\
                new = [req;
                       Space.child_request r root (access_token (dept_matrix d0))
                         (homeserver (dept_matrix d0))
                         (str_of_int (loop_time_ms (env (Space.net w))
                                        (S (length (requests (Space.net w))))))]
            | None => new = [req] /\ exists e, res = Raise e
            end
        end
    end.
Proof.
  unfold Space.ensure_telegram_space, try_except.
  unfold bind at 1, Space.admin_matrix at 1.
  destruct (Space.departments w) as [|d0 ds].
  { eexists _, _, []. split; [reflexivity|]. split; [effect_done|].
    split; [reflexivity|]. eexists; reflexivity. }
  unfold ret at 1. unfold bind at 1. unfold ret at 1.
  destruct (List.find _ _) as [tc|].
  2: { eexists _, _, []. split; [reflexivity|]. split; [effect_done|].
       split; reflexivity. }
  cbv zeta. unfold bind at 1, http at 1, accepted. cbn [get_io Space.self_world].
  destruct (server _ _ _) as [resp|msg].
  2: { eexists _, _, [_]. split; [reflexivity|]. split; [effect_done|].
       split; [reflexivity|]. eexists; reflexivity. }
  destruct (status resp =? 200).
  2: { eexists _, _, [_]. split; [reflexivity|]. split; [effect_done|].
       split; [reflexivity|]. eexists; reflexivity. }
  unfold bind at 1, json_room_id at 1.
  destruct (body resp) as [|r].
  { eexists _, _, [_]. split; [reflexivity|]. split; [effect_done|].
    split; [reflexivity|]. eexists; reflexivity. }
  unfold ret at 1. rewrite (bind_run (log _ _) _ _ tt eq_refl).
  set (w1 := snd (log _ _ _)).
  assert (Space.effect w w1 (Space.user_sessions w) (Space.space_cache w)
            [Space.space_request (dept_matrix d0) tc] []) as H1
    by (subst w1; effect_done).
  assert (env (Space.net w1) = env (Space.net w)
          /\ length (requests (Space.net w1)) = S (length (requests (Space.net w))))
    as (He1 & Hl1).
  { subst w1. simpl. rewrite length_app. simpl. split; [reflexivity|lia]. }
  pose proof (space_add_space_effect r root (access_token (dept_matrix d0))
                (homeserver (dept_matrix d0)) w1) as (Hok & H2).
  cbv zeta in Hok, H2. rewrite (bind_run _ _ _ tt Hok). unfold ret.
  rewrite He1, Hl1 in H2.
  eexists _, _, [_; _]. split; [reflexivity|]. split; [|split; reflexivity].
  exact (space_effect_then _ _ _ _ _ [_] [] [_] [] H1 H2).
Qed.

(** A resolution that misses the cache: what it returns, what it leaves
    in the cache, and which requests it issues. *)
Lemma space_hierarchy_effect (w : Space.self) :
  Space.space_cache w !! "telegram" = None ->
  exists res w' new,
    Space.ensure_telegram_space_hierarchy w = (res, w') /\
    match res with
    | Ok sid =>
        Space.effect w w' (Space.user_sessions w)
          (<["telegram" := sid]> (Space.space_cache w)) new []
    | Raise _ =>
        Space.effect w w' (Space.user_sessions w) (Space.space_cache w) new []
    end /\
    forall d0 ds,
      Space.departments w = d0 :: ds ->
      let root_req := Space.space_request (dept_matrix d0)
                        (rootSpace (Space.spaces w)) in
      match accepted (server (env (Space.net w)) (requests (Space.net w))
                        root_req) with
      | None => new = [root_req] /\ exists e, res = Raise e
      | Some root =>
          forall tc,
            List.find (fun channel => String.eqb (space_id channel) "telegram")
              (communicationChannels (Space.spaces w)) = Some tc ->
            let req := Space.space_request (dept_matrix d0) tc in
            match accepted (server (env (Space.net w))
                              (requests (Space.net w) ++ [root_req]) req) with
            | None => new = [root_req; req] /\ exists e, res = Raise e
            | Some r =>
                res = Ok r /\
                new = [root_req; req;
                       Space.child_request r root (access_token (dept_matrix d0))
                         (homeserver (dept_matrix d0))
                         (str_of_int
                            (loop_time_ms (env (Space.net w))
                               (S (S (length (requests (Space.net w)))))))]
            end
      end.
Proof.
  intros Hmiss. unfold Space.ensure_telegram_space_hierarchy, try_except.
  rewrite Hmiss.
  destruct (space_root_effect w) as (res1 & w1 & new1 & Hrun1 & Heff1 & Hcase1).
  unfold bind at 1. rewrite Hrun1.
  pose proof Heff1 as (Hd1 & Hp1 & _ & _ & He1 & Hr1 & _).
  destruct res1 as [root|e].
  - destruct (space_channel_effect root w1)
      as (res2 & w2 & new2 & Hrun2 & Heff2 & Hcase2).
    unfold bind at 1. rewrite Hrun2.
    pose proof (space_effect_then _ _ _ _ _ _ _ _ _ Heff1 Heff2) as H12.
    rewrite Hd1, Hp1, He1, Hr1 in Hcase2.
    destruct res2 as [r|e].
    + rewrite (bind_run (Space.set_cache _ _) _ _ tt eq_refl). unfold ret.
      eexists (Ok r), _, (new1 ++ new2). split; [reflexivity|]. split.
      * destruct H12 as (Hd & Hp & Hs & Hc & He & Hr & Ht).
        unfold Space.effect, Space.set_cache. cbn [snd].
        simpl. now rewrite Hd, Hp, Hs, Hc, He, Hr, Ht.
      * intros d0 ds Hdep. rewrite Hdep in Hcase1, Hcase2. cbv zeta in *.
        destruct Hcase1 as (-> & Hacc1).
        destruct (accepted _) as [root'|]; [|destruct Hacc1; discriminate].
        injection Hacc1 as <-. intros tc Htc. rewrite Htc in Hcase2.
        destruct (accepted _) as [r'|].
        -- destruct Hcase2 as ([= <-] & ->). rewrite length_app, Nat.add_1_r.
           split; reflexivity.
        -- destruct Hcase2 as (_ & e & [=]).
    + eexists (Raise e), _, (new1 ++ new2). split; [reflexivity|]. split.
      * apply (space_effect_then_log ERROR). exact H12.
      * intros d0 ds Hdep. rewrite Hdep in Hcase1, Hcase2. cbv zeta in *.
        destruct Hcase1 as (-> & Hacc1).
        destruct (accepted _) as [root'|]; [|destruct Hacc1; discriminate].
        injection Hacc1 as <-. intros tc Htc. rewrite Htc in Hcase2.
        destruct (accepted _) as [r'|].
        -- destruct Hcase2 as ([=] & _).
        -- destruct Hcase2 as (-> & _). split; [reflexivity|]. now exists e.
  - eexists (Raise e), _, new1. split; [reflexivity|]. split.
    + now apply (space_effect_then_log ERROR).
    + intros d0 ds Hdep. rewrite Hdep in Hcase1. cbv zeta in *.
      destruct Hcase1 as (-> & Hacc1).
      destruct (accepted _) as [root'|]; [discriminate|].
      split; [reflexivity|]. now exists e.
Qed.

(** Once the Telegram space is cached, no handler touches the cache. *)
Lemma space_select_cache ev d u (w : Space.self) sid :
  Space.space_cache w !! "telegram" = Some sid ->
  exists w', Space.select_department ev d u w = (Ok tt, w') /\
             Space.space_cache w' = Space.space_cache w.
Proof.
  intros Hhit. pose proof (space_select_effect ev d u w sid Hhit) as H.
  cbv zeta in H. destruct (accepted _) as [[[|c s]|]|].
  - destruct H as (w' & _ & Hrun & _ & _ & _ & _ & Hc & _). now exists w'.
  - destruct H as (w' & _ & Hrun & _ & _ & _ & _ & Hc & _). now exists w'.
  - destruct H as (w' & _ & Hrun & _ & _ & _ & _ & Hc & _). now exists w'.
  - destruct H as (w' & Hrun & _ & _ & _ & Hc & _). now exists w'.
Qed.

Lemma space_start_cache ev id (w : Space.self) sid :
  Space.space_cache w !! "telegram" = Some sid ->
  exists w', Space.handle_start_command ev id w = (Ok tt, w') /\
             Space.space_cache w' = Space.space_cache w.
Proof.
  intros Hhit. unfold Space.handle_start_command.
  destruct (match id with Some (String _ _ as id) => _ | _ => None end) as [d|].
  - now apply (space_select_cache _ _ _ _ sid).
  - eexists. split; reflexivity.
Qed.

Lemma space_message_cache ev (w : Space.self) sid :
  Space.space_cache w !! "telegram" = Some sid ->
  exists w', Space.handle_message ev w = (Ok tt, w') /\
             Space.space_cache w' = Space.space_cache w.
Proof.
  intros Hhit. unfold Space.handle_message.
  destruct (Space.user_sessions w !! user_id (sender ev)) as [[|d room]|].
  - now apply (space_start_cache _ _ _ sid).
  - pose proof (space_send_effect room (payload ev) d (sender ev) w) as (Hok & Heff).
    cbv zeta in Hok, Heff.
    destruct (Space.send_matrix_message _ _ _ _ w) as [rv w']. simpl in Hok, Heff.
    subst rv. exists w'. split; [reflexivity|]. now destruct Heff as (_ & _ & _ & -> & _).
  - now apply (space_start_cache _ _ _ sid).
Qed.

Lemma space_callback_cache ev (w : Space.self) sid :
  Space.space_cache w !! "telegram" = Some sid ->
  exists w', Space.handle_callback_query ev w = (Ok tt, w') /\
             Space.space_cache w' = Space.space_cache w.
Proof.
  intros Hhit. unfold Space.handle_callback_query.
  destruct (startswith "dept_" (payload ev)); [|eexists; split; reflexivity].
  destruct (Space.get_department_by_id w _) as [d|]; [|eexists; split; reflexivity].
  rewrite (bind_run (tg _) _ _ tt eq_refl).
  set (w1 := snd (tg _ w)).
  destruct (space_select_cache ev d (sender ev) w1 sid Hhit) as (w' & Hrun & Hc).
  exists w'. split; [exact Hrun|]. now rewrite Hc.
Qed.

Lemma space_dispatch_cache i (w : Space.self) sid :
  Space.space_cache w !! "telegram" = Some sid ->
  exists w', Space.dispatch i w = (Ok tt, w') /\
             Space.space_cache w' = Space.space_cache w.
Proof.
  intros Hhit. destruct i as [ev|ev]; cbn [Space.dispatch].
  - unfold Space.on_new_message.
    assert (exists w1,
               (if startswith "/start" (payload ev)
                then Space.start_handler ev else ret tt) w = (Ok tt, w1)
               /\ Space.space_cache w1 = Space.space_cache w) as (w1 & Hrun1 & Hc1).
    { destruct (startswith "/start" (payload ev)).
      - now apply (space_start_cache _ _ _ sid).
      - eexists. split; reflexivity. }
    unfold bind. rewrite Hrun1. unfold Space.message_handler.
    destruct (startswith "/" (payload ev)); [now exists w1|].
    rewrite <- Hc1 in Hhit.
    destruct (space_message_cache ev w1 sid Hhit) as (w' & Hrun & Hc).
    exists w'. split; [exact Hrun|]. now rewrite Hc.
  - now apply (space_callback_cache _ _ sid).
Qed.

Lemma space_run_cache (events : list Space.incoming) :
  forall (w : Space.self) sid,
  Space.space_cache w !! "telegram" = Some sid ->
  exists w', Space.run events w = (Ok tt, w') /\
             Space.space_cache w' = Space.space_cache w.
Proof.
  induction events as [|i rest IH]; intros w sid Hhit; cbn [Space.run].
  - eexists. split; reflexivity.
  - destruct (space_dispatch_cache i w sid Hhit) as (w1 & Hrun1 & Hc1).
    unfold bind. rewrite Hrun1. rewrite <- Hc1 in Hhit.
    destruct (IH w1 sid Hhit) as (w' & Hrun & Hc).
    exists w'. split; [exact Hrun|]. now rewrite Hc.
Qed.

(** Claim C4.  [ensure_telegram_space_hierarchy] answers from the cache
    without a request when the key is there; a resolution that succeeds
    leaves its result in the cache, so that every later resolution,
    whatever events were handled in between, returns that same id and
    leaves everything as it is, issuing no request; a resolution that
    raises leaves the cache as it was; and when the homeserver does not
    accept the createRoom request for the root space, or for the Telegram
    space, the resolution raises, with the key still absent. *)
Theorem channel_space_cached_on_success_only :
  (forall (w : Space.self) sid,
     Space.space_cache w !! "telegram" = Some sid ->
     Space.ensure_telegram_space_hierarchy w = (Ok sid, w)) /\
  (forall (w w' : Space.self) sid,
     Space.ensure_telegram_space_hierarchy w = (Ok sid, w') ->
     Space.space_cache w' !! "telegram" = Some sid /\
     forall events,
       let w'' := snd (Space.run events w') in
       Space.ensure_telegram_space_hierarchy w'' = (Ok sid, w'')) /\
  (forall (w w' : Space.self) e,
     Space.ensure_telegram_space_hierarchy w = (Raise e, w') ->
     Space.space_cache w' = Space.space_cache w) /\
  (forall (w : Space.self) d0 ds,
     Space.space_cache w !! "telegram" = None ->
     Space.departments w = d0 :: ds ->
     accepted (server (env (Space.net w)) (requests (Space.net w))
                 (Space.space_request (dept_matrix d0)
                    (rootSpace (Space.spaces w)))) = None ->
     exists e w',
       Space.ensure_telegram_space_hierarchy w = (Raise e, w') /\
       Space.space_cache w' !! "telegram" = None) /\
  (forall (w : Space.self) d0 ds root tc,
     Space.space_cache w !! "telegram" = None ->
     Space.departments w = d0 :: ds ->
     let root_req := Space.space_request (dept_matrix d0)
                       (rootSpace (Space.spaces w)) in
     accepted (server (env (Space.net w)) (requests (Space.net w)) root_req)
       = Some root ->
     List.find (fun channel => String.eqb (space_id channel) "telegram")
       (communicationChannels (Space.spaces w)) = Some tc ->
     accepted (server (env (Space.net w)) (requests (Space.net w) ++ [root_req])
                 (Space.space_request (dept_matrix d0) tc)) = None ->
     exists e w',
       Space.ensure_telegram_space_hierarchy w = (Raise e, w') /\
       Space.space_cache w' !! "telegram" = None).
Proof.
  split; [exact space_hierarchy_cached|].
  split; [|split; [|split]].
  - intros w w' sid Hrun.
    assert (Space.space_cache w' !! "telegram" = Some sid) as Hhit.
    { destruct (Space.space_cache w !! "telegram") as [cached|] eqn:Hc.
      - rewrite (space_hierarchy_cached _ _ Hc) in Hrun.
        injection Hrun as -> ->. exact Hc.
      - destruct (space_hierarchy_effect w Hc) as (res & w1 & new & Hrun1 & Heff & _).
        rewrite Hrun in Hrun1. injection Hrun1 as <- <-.
        destruct Heff as (_ & _ & _ & -> & _). apply lookup_insert_eq. }
    split; [exact Hhit|]. intros events w''.
    destruct (space_run_cache events w' sid Hhit) as (w2 & Hrun2 & Hc2).
    subst w''. rewrite Hrun2. cbn [snd].
    apply space_hierarchy_cached. now rewrite Hc2.
  - intros w w' e Hrun.
    destruct (Space.space_cache w !! "telegram") as [cached|] eqn:Hc.
    + rewrite (space_hierarchy_cached _ _ Hc) in Hrun. discriminate.
    + destruct (space_hierarchy_effect w Hc) as (res & w1 & new & Hrun1 & Heff & _).
      rewrite Hrun in Hrun1. injection Hrun1 as <- <-.
      now destruct Heff as (_ & _ & _ & -> & _).
  - intros w d0 ds Hmiss Hdep Hacc.
    destruct (space_hierarchy_effect w Hmiss) as (res & w1 & new & Hrun & Heff & Hcase).
    specialize (Hcase d0 ds Hdep). cbv zeta in Hcase. rewrite Hacc in Hcase.
    destruct Hcase as (_ & e & ->). exists e, w1. split; [exact Hrun|].
    destruct Heff as (_ & _ & _ & -> & _). exact Hmiss.
  - intros w d0 ds root tc Hmiss Hdep root_req Hacc1 Htc Hacc2.
    destruct (space_hierarchy_effect w Hmiss) as (res & w1 & new & Hrun & Heff & Hcase).
    specialize (Hcase d0 ds Hdep). cbv zeta in Hcase. fold root_req in Hcase.
    rewrite Hacc1 in Hcase. specialize (Hcase tc Htc). rewrite Hacc2 in Hcase.
    destruct Hcase as (_ & e & ->). exists e, w1. split; [exact Hrun|].
    destruct Heff as (_ & _ & _ & -> & _). exact Hmiss.
Qed.

Lemma channel_space_cached_on_success_only_witness :
  let w := Example.space Example.accepting in
  let w' := snd (Space.ensure_telegram_space_hierarchy w) in
  let w'' := snd (Space.run [Space.NewMessage (Example.says "hello");
                             Space.CallbackQuery (Example.says "dept_sales");
                             Space.NewMessage (Example.says "my order is late")]
                    w') in
  Space.space_cache w' !! "telegram" = Some (Some "!room1:localhost") /\
  Space.ensure_telegram_space_hierarchy w'' = (Ok (Some "!room1:localhost"), w'') /\
  (exists e w1,
      Space.ensure_telegram_space_hierarchy (Example.space Example.failing)
      = (Raise e, w1) /\
      Space.space_cache w1 !! "telegram" = None).
Proof.
  intros w w' w''.
  destruct channel_space_cached_on_success_only as (_ & Hok & _ & Hroot & _).
  destruct (Hok w w' (Some "!room1:localhost")) as (Hhit & Hlater);
    [vm_compute; reflexivity|].
  split; [exact Hhit|]. split; [apply Hlater|].
  apply (Hroot (Example.space Example.failing) Example.sales [Example.support]);
    reflexivity.
Defined.

(** ** The conversation id *)

(** Claim C8, as the code has it.  In the department bot a valid
    department selection replaces the user's session by a new record,
    whose conversation id is the first eight characters of a uuid drawn
    for that selection, whatever the session held before; the sessions of
    the other users stay.  An invalid selection, a /start command and a
    free-text message leave all sessions as they are.  In the space
    integration no id is stored: the id in the room name is "tg" followed
    by the Telegram user id, the same for every room of that user. *)
Theorem conversation_id_per_selection :
  (forall (upd : Bot.update) (w : Bot.self) dept_info,
     Bot.lookup_department (replace "dept_" "" (Bot.update_text upd))
       = Some dept_info ->
     let uid := user_id (Bot.effective_user upd) in
     let w' := snd (Bot.department_callback upd w) in
     Bot.conversation_id <$> Bot.user_sessions w' !! uid
       = Some (take_prefix 8 (uuid4 (env (Bot.net w)) (S (draws (Bot.net w))))) /\
     forall other, other <> uid ->
       Bot.user_sessions w' !! other = Bot.user_sessions w !! other) /\
  (forall (upd : Bot.update) (w : Bot.self),
     Bot.lookup_department (replace "dept_" "" (Bot.update_text upd)) = None ->
     Bot.user_sessions (snd (Bot.department_callback upd w)) = Bot.user_sessions w) /\
  (forall (upd : Bot.update) (w : Bot.self),
     Bot.user_sessions (snd (Bot.start_command upd w)) = Bot.user_sessions w /\
     Bot.user_sessions (snd (Bot.handle_message upd w)) = Bot.user_sessions w) /\
  (forall (d : department) (u u' : user),
     jget "name" (req_json (Space.create_room_request d u))
       = Some (JStr (Space.user_display u +:+ " (Telegram) - " +:+ dept_name d
                     +:+ " #" +:+ Space.conversation_id u)) /\
     (user_id u = user_id u' -> Space.conversation_id u = Space.conversation_id u')).
Proof.
  split; [|split; [|split]].
  - intros upd w dept_info Hd uid w'. subst uid w'.
    unfold Bot.department_callback, bind, tg, log, now_iso, new_uuid,
      Bot.set_session. cbn [get_io set_io Bot.self_world].
    rewrite Hd. cbn. split.
    + now rewrite lookup_insert_eq.
    + intros other Hne. now rewrite lookup_insert_ne.
  - intros upd w Hd. unfold Bot.department_callback, bind, tg.
    cbn [get_io set_io Bot.self_world]. now rewrite Hd.
  - intros upd w. split; [reflexivity|]. unfold Bot.handle_message.
    now destruct (Bot.user_sessions w !! _).
  - intros d u u'. split; [reflexivity|]. unfold Space.conversation_id.
    now intros ->.
Qed.

Lemma conversation_id_per_selection_witness :
  let w := Example.bot Example.accepting in
  let w' := snd (Bot.department_callback (Example.presses "dept_general") w) in
  Bot.conversation_id <$> Bot.user_sessions w' !! 7 = Some "0b5c9a3e".
Proof.
  intros w w'.
  destruct conversation_id_per_selection as (Hsel & _).
  destruct (Hsel (Example.presses "dept_general") w) with
    (dept_info := {| Bot.name := "ℹ️ General Inquiry";
                     Bot.description := "General questions and support";
                     Bot.matrix_users := ["@admin:localhost"; "@support:localhost"];
                     Bot.space_name := "Telegram - General" |})
    as (Hid & _); [reflexivity|].
  exact Hid.
Defined.

(** The claim as the specification has it fails: Alice selects General
    Inquiry, sends a message, and selects General Inquiry again; her
    conversation id is another one after the second selection. *)
Lemma reselecting_changes_the_conversation_id :
  let press := Bot.department_callback (Example.presses "dept_general") in
  let w1 := snd (press (Example.bot Example.accepting)) in
  let w2 := snd (Bot.handle_message (Example.presses "hello") w1) in
  let w3 := snd (press w2) in
  Bot.conversation_id <$> Bot.user_sessions w1 !! 7 = Some "0b5c9a3e" /\
  Bot.conversation_id <$> Bot.user_sessions w2 !! 7 = Some "0b5c9a3e" /\
  Bot.conversation_id <$> Bot.user_sessions w3 !! 7 = Some "f47ac10b".
Proof. repeat split; vm_compute; reflexivity. Qed.

(** ** The createRoom payloads *)

Lemma created_invites room hs tok (l : list string) :
  List.filter is_create_room (List.map (Space.invite_request room hs tok) l) = [].
Proof. induction l as [|a l IH]; [reflexivity|exact IH]. Qed.

Lemma bot_created_invites (w : Bot.self) room (l : list string) :
  List.filter is_create_room (List.map (Bot.invite_request w room) l) = [].
Proof. induction l as [|a l IH]; [reflexivity|exact IH]. Qed.

(** The one createRoom request of a selection in the router. *)
Lemma router_select_creates ev d u (w : Router.self) :
  List.filter is_create_room
    (requests (Router.net (snd (Router.select_department ev d u w))))
  = List.filter is_create_room (requests (Router.net w))
    ++ [Router.create_room_request d u].
Proof.
  pose proof (router_select_effect ev d u w) as (_ & H). cbv zeta in H.
  destruct (accepted _) as [[[|c s]|]|];
    destruct H as (_ & _ & _ & -> & _); now rewrite List.filter_app.
Qed.

Lemma space_select_creates ev d u (w : Space.self) sid :
  Space.space_cache w !! "telegram" = Some sid ->
  List.filter is_create_room
    (requests (Space.net (snd (Space.select_department ev d u w))))
  = List.filter is_create_room (requests (Space.net w))
    ++ [Space.create_room_request d u].
Proof.
  intros Hhit. pose proof (space_select_effect ev d u w sid Hhit) as H.
  cbv zeta in H. destruct (accepted _) as [[[|c s]|]|].
  - destruct H as (w' & att & Hrun & _ & _ & _ & _ & _ & _ & Hr & _).
    rewrite Hrun. cbn [snd]. now rewrite Hr, !List.filter_app, created_invites.
  - destruct H as (w' & att & Hrun & _ & _ & _ & _ & _ & _ & Hr & _).
    rewrite Hrun. cbn [snd]. now rewrite Hr, !List.filter_app, created_invites.
  - destruct H as (w' & att & Hrun & _ & _ & _ & _ & _ & _ & Hr & _).
    rewrite Hrun. cbn [snd]. now rewrite Hr, !List.filter_app, created_invites.
  - destruct H as (w' & Hrun & _ & _ & _ & _ & _ & Hr & _).
    rewrite Hrun. cbn [snd]. now rewrite Hr, List.filter_app.
Qed.

(** The one createRoom request of [create_matrix_room] in the bot,
    whatever the homeserver answers. *)
Lemma bot_create_creates uid dept (w : Bot.self) user_session dept_info :
  Bot.user_sessions w !! uid = Some user_session ->
  Bot.lookup_department dept = Some dept_info ->
  List.filter is_create_room
    (requests (Bot.net (snd (Bot.create_matrix_room uid dept w))))
  = List.filter is_create_room (requests (Bot.net w))
    ++ [Bot.create_room_request w uid dept user_session dept_info].
Proof.
  intros Hs Hd.
  destruct (accepted (server (env (Bot.net w)) (requests (Bot.net w))
                        (Bot.create_room_request w uid dept user_session dept_info)))
    as [[room|]|] eqn:Hacc.
  - destruct (bot_create_effect uid dept w user_session dept_info room Hs Hd Hacc)
      as (w' & Hrun & _ & _ & _ & _ & Hr & _).
    rewrite Hrun. cbn [snd]. rewrite Hr.
    rewrite List.filter_app. cbn [List.filter is_create_room].
    change (is_create_room (Bot.create_room_request w uid dept user_session dept_info))
      with true. cbv iota. now rewrite bot_created_invites.
  - unfold Bot.create_matrix_room, try_except, bind, ret, http, json_room_id, raise,
      log. cbn [get_io Bot.self_world]. rewrite Hs, Hd.
    fold (Bot.create_room_request w uid dept user_session dept_info).
    unfold accepted in Hacc.
    destruct (server _ _ _) as [[st tx [|r]]|msg]; cbn [status body text] in *;
      try destruct (st =? 200); try discriminate;
      try (injection Hacc as ->); cbn; now rewrite List.filter_app.
  - unfold Bot.create_matrix_room, try_except, bind, ret, http, json_room_id, raise,
      log. cbn [get_io Bot.self_world]. rewrite Hs, Hd.
    fold (Bot.create_room_request w uid dept user_session dept_info).
    unfold accepted in Hacc.
    destruct (server _ _ _) as [[st tx [|r]]|msg]; cbn [status body text] in *;
      try destruct (st =? 200); try discriminate;
      cbn; now rewrite List.filter_app.
Qed.

(** Claim C9, as the code has it.  A department selection issues one
    createRoom request for the conversation room, and so does
    [create_matrix_room] of the department bot.  Every such request has
    the preset private_chat.  The router and the space integration switch
    federation off ([m.federate] false) and set no power levels; the
    department bot sets the visibility private and the power levels (the
    admin 100, the support user 50, everybody else 0, and 50 for state
    events, invites, kicks, bans and redactions) and leaves the
    federation flag out. *)
Theorem room_creation_payloads :
  (forall ev d u (w : Router.self),
     exists req,
       List.filter is_create_room
         (requests (Router.net (snd (Router.select_department ev d u w))))
       = List.filter is_create_room (requests (Router.net w)) ++ [req] /\
       preset_of (req_json req) = Some (JStr "private_chat") /\
       federate_of (req_json req) = Some (JBool false) /\
       power_levels_of (req_json req) = None) /\
  (forall ev d u (w : Space.self) sid,
     Space.space_cache w !! "telegram" = Some sid ->
     exists req,
       List.filter is_create_room
         (requests (Space.net (snd (Space.select_department ev d u w))))
       = List.filter is_create_room (requests (Space.net w)) ++ [req] /\
       preset_of (req_json req) = Some (JStr "private_chat") /\
       federate_of (req_json req) = Some (JBool false) /\
       power_levels_of (req_json req) = None) /\
  (forall (w : Bot.self) uid dept user_session dept_info,
     Bot.user_sessions w !! uid = Some user_session ->
     Bot.lookup_department dept = Some dept_info ->
     exists req,
       List.filter is_create_room
         (requests (Bot.net (snd (Bot.create_matrix_room uid dept w))))
       = List.filter is_create_room (requests (Bot.net w)) ++ [req] /\
       preset_of (req_json req) = Some (JStr "private_chat") /\
       jget "visibility" (req_json req) = Some (JStr "private") /\
       federate_of (req_json req) = None /\
       power_levels_of (req_json req) = Some Bot.power_levels /\
       jget "users" Bot.power_levels
         = Some (JDict [("@admin:localhost", JInt 100);
                        ("@support:localhost", JInt 50)]) /\
       jget "users_default" Bot.power_levels = Some (JInt 0) /\
       List.map (fun k => jget k Bot.power_levels)
         ["state_default"; "invite"; "kick"; "ban"; "redact"]
         = List.repeat (Some (JInt 50)) 5).
Proof.
  split; [|split].
  - intros ev d u w. exists (Router.create_room_request d u).
    split; [apply router_select_creates|]. repeat split.
  - intros ev d u w sid Hhit. exists (Space.create_room_request d u).
    split; [now apply (space_select_creates ev d u w sid)|]. repeat split.
  - intros w uid dept user_session dept_info Hs Hd.
    exists (Bot.create_room_request w uid dept user_session dept_info).
    split; [now apply bot_create_creates|]. repeat split.
Qed.

Lemma room_creation_payloads_witness :
  let w := Example.space_cached Example.accepting in
  let w' := snd (Space.select_department (Example.says "hi") Example.sales
                   Example.alice w) in
  List.map (fun r => (preset_of (req_json r), federate_of (req_json r),
                      power_levels_of (req_json r)))
    (List.filter is_create_room (requests (Space.net w')))
  = [(Some (JStr "private_chat"), Some (JBool false), None)].
Proof.
  intros w w'.
  destruct room_creation_payloads as (_ & Hspace & _).
  destruct (Hspace (Example.says "hi") Example.sales Example.alice w
              (Some "!telegram:localhost"))
    as (req & Hreq & Hpreset & Hfed & Hpower); [reflexivity|].
  fold w' in Hreq. rewrite Hreq, List.map_app. cbn [List.map].
  rewrite Hpreset, Hfed, Hpower. reflexivity.
Defined.

(** The claim as the specification has it fails: the request that the
    space integration issues for Alice's room carries no power levels,
    and the one of the department bot no federation flag. *)
Lemma room_without_power_levels :
  let w := Example.exec
             (Space.select_department (Example.says "hi") Example.sales Example.alice)
             (Example.space_cached Example.accepting) in
  let b := Example.exec (Bot.department_callback (Example.presses "dept_general"))
             (Example.bot Example.accepting) in
  let created l := List.map req_json (List.filter is_create_room l) in
  List.map power_levels_of (created (requests (Space.net w))) = [None] /\
  List.map (jget "initial_state") (created (requests (Space.net w))) = [None] /\
  List.map federate_of
    (created (requests (Bot.net (Example.exec (Bot.create_matrix_room 7 "general") b))))
    = [None].
Proof. repeat split; vm_compute; reflexivity. Qed.

(** * Further properties of the router *)

Lemma start_is_command (s : string) :
  startswith "/start" s = true -> startswith "/" s = true.
Proof.
  intros Hstart. destruct (startswith "/" s) eqn:E; [reflexivity|].
  rewrite (free_text_is_no_start _ E) in Hstart. discriminate.
Qed.

Lemma substring_all (s : string) : String.substring 0 (String.length s) s = s.
Proof. induction s as [|c s IH]; [reflexivity|]. cbn. now rewrite IH. Qed.

Lemma drop_prefix_app (p s : string) : drop_prefix (String.length p) (p +:+ s) = s.
Proof.
  induction p as [|c p IH].
  - change ("" +:+ s) with s. unfold drop_prefix.
    rewrite Nat.sub_0_r. apply substring_all.
  - exact IH.
Qed.

Lemma drop_dept_prefix (id : string) : drop_prefix 5 ("dept_" +:+ id) = id.
Proof. exact (drop_prefix_app "dept_" id). Qed.

Lemma router_effect_then (w w1 w2 : Router.self) s n1 o1 n2 o2 :
  Router.effect w w1 s n1 o1 ->
  Router.effect w1 w2 (Router.user_sessions w1) n2 o2 ->
  Router.effect w w2 s (n1 ++ n2) (o1 ++ o2).
Proof.
  intros (Hd & Hs & He & Hr & Ht) (Hd' & Hs' & He' & Hr' & Ht').
  unfold Router.effect.
  rewrite Hd', Hs', He', Hr', Ht', Hd, Hs, He, Hr, Ht. now rewrite !app_assoc.
Qed.

Lemma router_find_department (w : Router.self) id d :
  Router.get_department_by_id w id = Some d ->
  In d (Router.departments w) /\ dept_id d = id.
Proof.
  unfold Router.get_department_by_id. intros H.
  apply List.find_some in H as (Hin & Heq). split; [exact Hin|].
  now apply String.eqb_eq.
Qed.

(** A selection as one step of the session table. *)
Lemma router_select_step ev d u (w : Router.self) :
  In d (Router.departments w) ->
  exists w' new out,
    Router.select_department ev d u w = (Ok tt, w') /\
    Router.session_step w (user_id u) (Router.user_sessions w') /\
    Router.effect w w' (Router.user_sessions w') new out.
Proof.
  intros Hin. pose proof (router_select_effect ev d u w) as (Hok & H).
  cbv zeta in Hok, H.
  destruct (Router.select_department ev d u w) as [rv w']. cbn [fst snd] in *.
  subst rv. exists w'.
  destruct (accepted _) as [[[|c s]|]|].
  - eexists _, _. split; [reflexivity|]. pose proof H as (_ & Hs & _).
    rewrite Hs. split; [now left|exact H].
  - eexists _, _. split; [reflexivity|]. pose proof H as (_ & Hs & _).
    rewrite Hs. split; [|exact H]. right. right. exists d, (String c s).
    repeat split; [exact Hin|discriminate].
  - eexists _, _. split; [reflexivity|]. pose proof H as (_ & Hs & _).
    rewrite Hs. split; [now left|exact H].
  - eexists _, _. split; [reflexivity|]. pose proof H as (_ & Hs & _).
    rewrite Hs. split; [now left|exact H].
Qed.

Lemma router_start_step ev id (w : Router.self) :
  exists w' new out,
    Router.handle_start_command ev id w = (Ok tt, w') /\
    Router.session_step w (user_id (sender ev)) (Router.user_sessions w') /\
    Router.effect w w' (Router.user_sessions w') new out.
Proof.
  unfold Router.handle_start_command.
  destruct (match id with Some (String _ _ as id) => _ | _ => None end)
    as [d|] eqn:E.
  - apply router_select_step.
    destruct id as [[|c s]|]; try discriminate.
    now apply router_find_department in E.
  - eexists _, [], [_]. split; [reflexivity|]. split; [right; now left|].
    effect_done.
Qed.

Lemma router_message_step ev (w : Router.self) :
  exists w' new out,
    Router.handle_message ev w = (Ok tt, w') /\
    Router.session_step w (user_id (sender ev)) (Router.user_sessions w') /\
    Router.effect w w' (Router.user_sessions w') new out.
Proof.
  unfold Router.handle_message.
  destruct (Router.user_sessions w !! user_id (sender ev)) as [[|d room]|].
  - apply router_start_step.
  - pose proof (router_send_effect room (payload ev) d (sender ev) w) as (Hok & H).
    cbv zeta in Hok, H.
    destruct (Router.send_matrix_message _ _ _ _ w) as [rv w'].
    cbn [fst snd] in *. subst rv. exists w'. eexists _, _.
    split; [reflexivity|]. pose proof H as (_ & Hs & _). rewrite Hs.
    split; [now left|exact H].
  - apply router_start_step.
Qed.

Lemma router_callback_step ev (w : Router.self) :
  exists w' new out,
    Router.handle_callback_query ev w = (Ok tt, w') /\
    Router.session_step w (user_id (sender ev)) (Router.user_sessions w') /\
    Router.effect w w' (Router.user_sessions w') new out.
Proof.
  unfold Router.handle_callback_query.
  destruct (startswith "dept_" (payload ev)).
  2: { eexists _, [], []. split; [reflexivity|]. split; [now left|effect_done]. }
  destruct (Router.get_department_by_id w _) as [d|] eqn:E.
  2: { eexists _, [], [_]. split; [reflexivity|]. split; [now left|effect_done]. }
  apply router_find_department in E as (Hin & _).
  rewrite (bind_run (tg _) _ _ tt eq_refl).
  set (w1 := snd (tg _ w)).
  assert (Router.effect w w1 (Router.user_sessions w) []
            [Edit (user_id (sender ev))
               ("Connecting you to " +:+ dept_icon d +:+ " " +:+ dept_name d
                +:+ "...")]) as H1 by (subst w1; effect_done).
  destruct (router_select_step ev d (sender ev) w1 Hin)
    as (w' & new & out & Hrun & Hstep & Heff).
  exists w'. eexists _, _. split; [exact Hrun|]. split.
  - exact Hstep.
  - destruct H1 as (Hd1 & Hs1 & He1 & Hr1 & Ht1).
    destruct Heff as (Hd & _ & He & Hr & Ht).
    unfold Router.effect. rewrite Hd, He, Hr, Ht, Hd1, He1, Hr1, Ht1.
    repeat split; rewrite <- ?app_assoc; reflexivity.
Qed.

(** Every event is handled to its end, whatever the homeserver does, and
    moves the session table by one step. *)
Lemma router_dispatch_step i (w : Router.self) :
  exists w' new out,
    Router.dispatch i w = (Ok tt, w') /\
    Router.session_step w (user_id (Router.sender_of i)) (Router.user_sessions w') /\
    Router.effect w w' (Router.user_sessions w') new out.
Proof.
  destruct i as [ev|ev]; cbn [Router.dispatch Router.sender_of].
  - unfold Router.on_new_message, Router.message_handler.
    destruct (startswith "/start" (payload ev)) eqn:Hstart.
    + rewrite (start_is_command _ Hstart).
      destruct (router_start_step ev (snd (split_space (payload ev))) w)
        as (w' & new & out & Hrun & H).
      exists w', new, out. split; [|exact H].
      unfold bind, Router.start_handler. now rewrite Hrun.
    + unfold bind at 1, ret at 1.
      destruct (startswith "/" (payload ev)).
      * eexists _, [], []. split; [reflexivity|]. split; [now left|effect_done].
      * apply router_message_step.
  - apply router_callback_step.
Qed.

(** * Further properties of the space integration *)

(** A resolution in any state of the cache: the sessions stay, and the
    result is in the cache when there is one. *)
Lemma space_hierarchy_any (w : Space.self) :
  exists res w1 c new,
    Space.ensure_telegram_space_hierarchy w = (res, w1) /\
    Space.effect w w1 (Space.user_sessions w) c new [] /\
    match res with
    | Ok sid => Space.space_cache w1 !! "telegram" = Some sid
    | Raise _ => c = Space.space_cache w
    end.
Proof.
  destruct (Space.space_cache w !! "telegram") as [cached|] eqn:Hc.
  - exists (Ok cached), w, (Space.space_cache w), [].
    split; [now apply space_hierarchy_cached|]. split; [effect_done|exact Hc].
  - destruct (space_hierarchy_effect w Hc) as (res & w1 & new & Hrun & Heff & _).
    destruct res as [sid|e].
    + exists (Ok sid), w1, (<["telegram" := sid]> (Space.space_cache w)), new.
      split; [exact Hrun|]. split; [exact Heff|].
      destruct Heff as (_ & _ & _ & -> & _). apply lookup_insert_eq.
    + exists (Raise e), w1, (Space.space_cache w), new. now split.
Qed.

(** Provisioning is the resolution of the Telegram space followed by
    provisioning in the state the resolution leaves. *)
Lemma space_create_after_resolution d u (w w1 : Space.self) sid :
  Space.ensure_telegram_space_hierarchy w = (Ok sid, w1) ->
  Space.space_cache w1 !! "telegram" = Some sid ->
  Space.create_telegram_room_in_space d u w
  = Space.create_telegram_room_in_space d u w1.
Proof.
  intros Hrun Hhit.
  assert (forall B (k : option string -> M Space.self B) h,
             try_except (bind Space.ensure_telegram_space_hierarchy k) h w
             = try_except (bind Space.ensure_telegram_space_hierarchy k) h w1)
    as Hsame.
  { intros B k h. unfold try_except, bind.
    now rewrite Hrun, (space_hierarchy_cached _ _ Hhit). }
  unfold Space.create_telegram_room_in_space. apply Hsame.
Qed.

Lemma space_create_unresolved d u (w w1 : Space.self) e :
  Space.ensure_telegram_space_hierarchy w = (Raise e, w1) ->
  Space.create_telegram_room_in_space d u w
  = (Ok None,
     snd (log ERROR ("Error creating Telegram room in space: " +:+ e) w1)).
Proof.
  intros Hrun. unfold Space.create_telegram_room_in_space, try_except, bind.
  now rewrite Hrun.
Qed.

Lemma space_find_department (w : Space.self) id d :
  Space.get_department_by_id w id = Some d ->
  In d (Space.departments w) /\ dept_id d = id.
Proof.
  unfold Space.get_department_by_id. intros H.
  apply List.find_some in H as (Hin & Heq). split; [exact Hin|].
  now apply String.eqb_eq.
Qed.

(** A selection as one step of the session table, in any state of the
    cache. *)
Lemma space_select_step ev d u (w : Space.self) :
  In d (Space.departments w) ->
  exists w' c new out,
    Space.select_department ev d u w = (Ok tt, w') /\
    Space.session_step w (user_id u) (Space.user_sessions w') /\
    Space.effect w w' (Space.user_sessions w') c new out.
Proof.
  intros Hin.
  destruct (space_hierarchy_any w) as (res & w1 & c1 & new1 & Hrun & Heff1 & Hres).
  destruct res as [sid|e].
  - assert (Space.select_department ev d u w = Space.select_department ev d u w1)
      as ->.
    { unfold Space.select_department, bind.
      now rewrite (space_create_after_resolution d u w w1 sid Hrun Hres). }
    pose proof Heff1 as (Hd1 & _ & Hs1 & _).
    pose proof (space_select_effect ev d u w1 sid Hres) as H. cbv zeta in H.
    assert (forall w' s n o,
               Space.effect w1 w' s (Space.space_cache w1) n o ->
               Space.effect w w' (Space.user_sessions w') (Space.space_cache w1)
                 (new1 ++ n) ([] ++ o)) as Hjoin.
    { intros w' s n o Heff. pose proof Heff as (_ & _ & <- & _).
      exact (space_effect_trans _ _ _ _ _ _ _ _ _ _ _ Heff1 Heff). }
    destruct (accepted _) as [[[|c s]|]|].
    + destruct H as (w' & att & Hsel & _ & Heff).
      exists w'. eexists _, _, _. split; [exact Hsel|].
      split; [|exact (Hjoin _ _ _ _ Heff)].
      destruct Heff as (_ & _ & -> & _). rewrite Hs1. now left.
    + destruct H as (w' & att & Hsel & _ & Heff).
      exists w'. eexists _, _, _. split; [exact Hsel|].
      split; [|exact (Hjoin _ _ _ _ Heff)].
      destruct Heff as (_ & _ & -> & _). rewrite Hs1. right. right.
      exists d, (String c s). repeat split; [exact Hin|discriminate].
    + destruct H as (w' & att & Hsel & _ & Heff).
      exists w'. eexists _, _, _. split; [exact Hsel|].
      split; [|exact (Hjoin _ _ _ _ Heff)].
      destruct Heff as (_ & _ & -> & _). rewrite Hs1. now left.
    + destruct H as (w' & Hsel & Heff).
      exists w'. eexists _, _, _. split; [exact Hsel|].
      split; [|exact (Hjoin _ _ _ _ Heff)].
      destruct Heff as (_ & _ & -> & _). rewrite Hs1. now left.
  - subst c1. unfold Space.select_department, bind.
    rewrite (space_create_unresolved d u w w1 e Hrun).
    eexists _, _, new1, [_]. split; [reflexivity|].
    destruct Heff1 as (Hd & Hp & Hs & Hc & He & Hr & Ht).
    split.
    + left. cbn. exact Hs.
    + unfold Space.effect. cbn. rewrite Hd, Hp, Hc, He, Hr, Ht. effect_done.
Qed.

Lemma space_start_step ev id (w : Space.self) :
  exists w' c new out,
    Space.handle_start_command ev id w = (Ok tt, w') /\
    Space.session_step w (user_id (sender ev)) (Space.user_sessions w') /\
    Space.effect w w' (Space.user_sessions w') c new out.
Proof.
  unfold Space.handle_start_command.
  destruct (match id with Some (String _ _ as id) => _ | _ => None end)
    as [d|] eqn:E.
  - apply space_select_step.
    destruct id as [[|c s]|]; try discriminate.
    now apply space_find_department in E.
  - eexists _, _, [], [_]. split; [reflexivity|]. split; [right; now left|].
    effect_done.
Qed.

Lemma space_message_step ev (w : Space.self) :
  exists w' c new out,
    Space.handle_message ev w = (Ok tt, w') /\
    Space.session_step w (user_id (sender ev)) (Space.user_sessions w') /\
    Space.effect w w' (Space.user_sessions w') c new out.
Proof.
  unfold Space.handle_message.
  destruct (Space.user_sessions w !! user_id (sender ev)) as [[|d room]|].
  - apply space_start_step.
  - pose proof (space_send_effect room (payload ev) d (sender ev) w) as (Hok & H).
    cbv zeta in Hok, H.
    destruct (Space.send_matrix_message _ _ _ _ w) as [rv w'].
    cbn [fst snd] in *. subst rv. exists w'. eexists _, _, _.
    split; [reflexivity|]. pose proof H as (_ & _ & Hs & _). rewrite Hs.
    split; [now left|exact H].
  - apply space_start_step.
Qed.

Lemma space_callback_step ev (w : Space.self) :
  exists w' c new out,
    Space.handle_callback_query ev w = (Ok tt, w') /\
    Space.session_step w (user_id (sender ev)) (Space.user_sessions w') /\
    Space.effect w w' (Space.user_sessions w') c new out.
Proof.
  unfold Space.handle_callback_query.
  destruct (startswith "dept_" (payload ev)).
  2: { eexists _, _, [], []. split; [reflexivity|]. split; [now left|effect_done]. }
  destruct (Space.get_department_by_id w _) as [d|] eqn:E.
  2: { eexists _, _, [], [_]. split; [reflexivity|]. split; [now left|effect_done]. }
  apply space_find_department in E as (Hin & _).
  rewrite (bind_run (tg _) _ _ tt eq_refl).
  set (w1 := snd (tg _ w)).
  assert (Space.effect w w1 (Space.user_sessions w) (Space.space_cache w) []
            [Edit (user_id (sender ev))
               ("Connecting you to " +:+ dept_icon d +:+ " " +:+ dept_name d
                +:+ "...")]) as H1 by (subst w1; effect_done).
  destruct (space_select_step ev d (sender ev) w1 Hin)
    as (w' & c & new & out & Hrun & Hstep & Heff).
  exists w'. eexists _, _, _. split; [exact Hrun|]. split.
  - exact Hstep.
  - exact (space_effect_trans _ _ _ _ _ _ _ _ _ _ _ H1 Heff).
Qed.

Lemma space_dispatch_step i (w : Space.self) :
  exists w' c new out,
    Space.dispatch i w = (Ok tt, w') /\
    Space.session_step w (user_id (Space.sender_of i)) (Space.user_sessions w') /\
    Space.effect w w' (Space.user_sessions w') c new out.
Proof.
  destruct i as [ev|ev]; cbn [Space.dispatch Space.sender_of].
  - unfold Space.on_new_message, Space.message_handler.
    destruct (startswith "/start" (payload ev)) eqn:Hstart.
    + rewrite (start_is_command _ Hstart).
      destruct (space_start_step ev (snd (split_space (payload ev))) w)
        as (w' & c & new & out & Hrun & H).
      exists w', c, new, out. split; [|exact H].
      unfold bind, Space.start_handler. now rewrite Hrun.
    + unfold bind at 1, ret at 1.
      destruct (startswith "/" (payload ev)).
      * eexists _, _, [], []. split; [reflexivity|]. split; [now left|effect_done].
      * apply space_message_step.
  - apply space_callback_step.
Qed.

(** * Invariants of a run *)

Lemma router_step_other (w : Router.self) uid sessions other :
  Router.session_step w uid sessions -> other <> uid ->
  sessions !! other = Router.user_sessions w !! other.
Proof.
  intros [->|[->|(d & room & _ & _ & ->)]] Hne;
    [reflexivity|now apply lookup_insert_ne..].
Qed.

Lemma space_step_other (w : Space.self) uid sessions other :
  Space.session_step w uid sessions -> other <> uid ->
  sessions !! other = Space.user_sessions w !! other.
Proof.
  intros [->|[->|(d & room & _ & _ & ->)]] Hne;
    [reflexivity|now apply lookup_insert_ne..].
Qed.

Lemma router_step_well_formed (w w' : Router.self) uid :
  Router.well_formed w ->
  Router.session_step w uid (Router.user_sessions w') ->
  Router.departments w' = Router.departments w ->
  Router.well_formed w'.
Proof.
  intros Hwf Hstep Hd other d room Hs. rewrite Hd.
  destruct Hstep as [E|[E|(d0 & room0 & Hin & Hne & E)]]; rewrite E in Hs.
  - exact (Hwf _ _ _ Hs).
  - rewrite lookup_insert in Hs. case_decide; [discriminate|exact (Hwf _ _ _ Hs)].
  - rewrite lookup_insert in Hs. case_decide; [|exact (Hwf _ _ _ Hs)].
    injection Hs as <- <-. now split.
Qed.

Lemma space_step_well_formed (w w' : Space.self) uid :
  Space.well_formed w ->
  Space.session_step w uid (Space.user_sessions w') ->
  Space.departments w' = Space.departments w ->
  Space.well_formed w'.
Proof.
  intros Hwf Hstep Hd other d room Hs. rewrite Hd.
  destruct Hstep as [E|[E|(d0 & room0 & Hin & Hne & E)]]; rewrite E in Hs.
  - exact (Hwf _ _ _ Hs).
  - rewrite lookup_insert in Hs. case_decide; [discriminate|exact (Hwf _ _ _ Hs)].
  - rewrite lookup_insert in Hs. case_decide; [|exact (Hwf _ _ _ Hs)].
    injection Hs as <- <-. now split.
Qed.

(** A run, event by event. *)
Lemma router_run_steps (events : list Router.incoming) :
  forall w : Router.self,
  exists w',
    Router.run events w = (Ok tt, w') /\
    Router.departments w' = Router.departments w /\
    env (Router.net w') = env (Router.net w) /\
    (Router.well_formed w -> Router.well_formed w') /\
    (forall uid,
        Forall (fun i => user_id (Router.sender_of i) <> uid) events ->
        Router.user_sessions w' !! uid = Router.user_sessions w !! uid).
Proof.
  induction events as [|i rest IH]; intros w; cbn [Router.run].
  - exists w. split; [reflexivity|]. split; [reflexivity|].
    split; [reflexivity|]. split; [now intros|now intros].
  - destruct (router_dispatch_step i w) as (w1 & new & out & Hrun & Hstep & Heff).
    destruct (IH w1) as (w' & Hrun' & Hd' & He' & Hwf' & Hiso').
    destruct Heff as (Hd & _ & He & _).
    exists w'. unfold bind. rewrite Hrun. split; [exact Hrun'|].
    split; [now rewrite Hd'|]. split; [now rewrite He'|]. split.
    + intros Hwf. apply Hwf'. exact (router_step_well_formed _ _ _ Hwf Hstep Hd).
    + intros uid Hall. apply Forall_cons in Hall as (Hne & Hall).
      rewrite (Hiso' uid Hall). now apply (router_step_other w _ _ uid Hstep).
Qed.

Lemma space_run_steps (events : list Space.incoming) :
  forall w : Space.self,
  exists w',
    Space.run events w = (Ok tt, w') /\
    Space.departments w' = Space.departments w /\
    env (Space.net w') = env (Space.net w) /\
    (Space.well_formed w -> Space.well_formed w') /\
    (forall uid,
        Forall (fun i => user_id (Space.sender_of i) <> uid) events ->
        Space.user_sessions w' !! uid = Space.user_sessions w !! uid).
Proof.
  induction events as [|i rest IH]; intros w; cbn [Space.run].
  - exists w. split; [reflexivity|]. split; [reflexivity|].
    split; [reflexivity|]. split; [now intros|now intros].
  - destruct (space_dispatch_step i w) as (w1 & c & new & out & Hrun & Hstep & Heff).
    destruct (IH w1) as (w' & Hrun' & Hd' & He' & Hwf' & Hiso').
    destruct Heff as (Hd & _ & _ & _ & He & _).
    exists w'. unfold bind. rewrite Hrun. split; [exact Hrun'|].
    split; [now rewrite Hd'|]. split; [now rewrite He'|]. split.
    + intros Hwf. apply Hwf'. exact (space_step_well_formed _ _ _ Hwf Hstep Hd).
    + intros uid Hall. apply Forall_cons in Hall as (Hne & Hall).
      rewrite (Hiso' uid Hall). now apply (space_step_other w _ _ uid Hstep).
Qed.

(** Extra X1.  No failure of the homeserver escapes a handler: for every
    list of events and every environment (error statuses, bodies that are
    not JSON, exceptions of the HTTP client), the router and the space
    integration handle all the events and return normally. *)
Theorem handlers_never_raise (w_router : Router.self) (w_space : Space.self)
    (router_events : list Router.incoming) (space_events : list Space.incoming) :
  fst (Router.run router_events w_router) = Ok tt /\
  fst (Space.run space_events w_space) = Ok tt.
Proof.
  destruct (router_run_steps router_events w_router) as (w1 & -> & _).
  destruct (space_run_steps space_events w_space) as (w2 & -> & _).
  now split.
Qed.

(** Extra X2.  The events of other users never touch a user's session:
    after any run in which no event comes from [uid], the session of
    [uid] is what it was, and the configured departments are the same. *)
Theorem sessions_of_silent_users_stay (uid : Z) :
  (forall (events : list Router.incoming) (w : Router.self),
     Forall (fun i => user_id (Router.sender_of i) <> uid) events ->
     let w' := snd (Router.run events w) in
     Router.user_sessions w' !! uid = Router.user_sessions w !! uid /\
     Router.departments w' = Router.departments w) /\
  (forall (events : list Space.incoming) (w : Space.self),
     Forall (fun i => user_id (Space.sender_of i) <> uid) events ->
     let w' := snd (Space.run events w) in
     Space.user_sessions w' !! uid = Space.user_sessions w !! uid /\
     Space.departments w' = Space.departments w).
Proof.
  split; intros events w Hall w'; subst w'.
  - destruct (router_run_steps events w) as (w1 & -> & Hd & _ & _ & Hiso).
    cbn [snd]. split; [now apply Hiso|exact Hd].
  - destruct (space_run_steps events w) as (w1 & -> & Hd & _ & _ & Hiso).
    cbn [snd]. split; [now apply Hiso|exact Hd].
Qed.

Lemma sessions_of_silent_users_stay_witness :
  let w := Example.router_chatting Example.failing in
  let bob := {| user_id := 8; first_name := Some "Bob"; last_name := None;
                username := None |} in
  let events := [Router.NewMessage {| sender := bob; payload := "/start sales" |};
                 Router.CallbackQuery {| sender := bob; payload := "dept_support" |};
                 Router.NewMessage {| sender := bob; payload := "anyone there?" |}] in
  Router.user_sessions (snd (Router.run events w)) !! 7
  = Some (chatting Example.sales "!room0:localhost").
Proof.
  intros w bob events.
  destruct (sessions_of_silent_users_stay 7) as (Hrouter & _).
  destruct (Hrouter events w) as (Hs & _).
  - repeat constructor; discriminate.
  - rewrite Hs. reflexivity.
Defined.

(** Extra X3.  The session table stays well formed: when every
    conversation in it has a room with a non-empty id and a department of
    the configuration, this is still so after any run of events. *)
Theorem sessions_stay_well_formed :
  (forall (events : list Router.incoming) (w : Router.self),
     Router.well_formed w -> Router.well_formed (snd (Router.run events w))) /\
  (forall (events : list Space.incoming) (w : Space.self),
     Space.well_formed w -> Space.well_formed (snd (Space.run events w))).
Proof.
  split; intros events w Hwf.
  - destruct (router_run_steps events w) as (w1 & -> & _ & _ & Hkeep & _).
    now apply Hkeep.
  - destruct (space_run_steps events w) as (w1 & -> & _ & _ & Hkeep & _).
    now apply Hkeep.
Qed.

Lemma sessions_stay_well_formed_witness :
  Router.well_formed
    (snd (Router.run [Router.NewMessage (Example.says "/start sales");
                      Router.NewMessage (Example.says "hello");
                      Router.CallbackQuery (Example.says "dept_support")]
            (Example.router Example.accepting))).
Proof.
  destruct sessions_stay_well_formed as (Hrouter & _).
  apply Hrouter. intros uid d room Hs. cbn in Hs.
  rewrite lookup_empty in Hs. discriminate.
Defined.

(** * The keyboard and the commands *)

Lemma prefix_empty (s : string) : String.prefix "" s = true.
Proof. now destruct s. Qed.

Lemma startswith_app (p s : string) : startswith p (p +:+ s) = true.
Proof.
  unfold startswith. induction p as [|c p IH]; [apply prefix_empty|].
  change (String c p +:+ s) with (String c (p +:+ s)).
  cbn [String.prefix]. now destruct (ascii_dec c c).
Qed.

Lemma find_department_some (departments : list department) d0 :
  In d0 departments ->
  exists d,
    List.find (fun dept => String.eqb (dept_id dept) (dept_id d0)) departments
    = Some d.
Proof.
  intros Hin. destruct (List.find _ departments) as [d|] eqn:E; [now exists d|].
  pose proof (List.find_none _ _ E d0 Hin) as H. cbn in H.
  now rewrite String.eqb_refl in H.
Qed.

Lemma map_lookup_some {A B} (f : A -> B) (l : list A) i x :
  l !! i = Some x -> List.map f l !! i = Some (f x).
Proof.
  revert i. induction l as [|a l IH]; intros [|i] H; try discriminate.
  - cbn in *. now inversion H.
  - cbn in *. now apply IH.
Qed.

Lemma find_department_first (departments : list department) i d0 :
  departments !! i = Some d0 ->
  (forall j d', (j < i)%nat -> departments !! j = Some d' ->
                dept_id d' <> dept_id d0) ->
  List.find (fun dept => String.eqb (dept_id dept) (dept_id d0)) departments
  = Some d0.
Proof.
  revert i. induction departments as [|a l IH]; intros [|i] H Hfirst;
    try discriminate.
  - cbn in H. inversion H; subst a. cbn [List.find].
    now rewrite String.eqb_refl.
  - cbn [List.find].
    destruct (String.eqb (dept_id a) (dept_id d0)) eqn:E.
    + apply String.eqb_eq in E. exfalso.
      apply (Hfirst 0%nat a); [lia|reflexivity|exact E].
    + apply (IH i); [exact H|]. intros j d' Hj Hl.
      apply (Hfirst (S j) d'); [lia|exact Hl].
Qed.

(** Extra X4.  The keyboard has as many rows as there are configured
    departments, and its i-th row is the one button of the i-th
    department: icon and name as text, dept_ and the id as callback
    data.  Pressing that button selects a department: the callback
    handler edits the message and goes on to [select_department] with
    the first configured department of that id, which is the i-th
    department itself when no earlier department has the same id. *)
Theorem keyboard_buttons_select :
  (forall (w : Router.self) (u : user),
     length (Router.get_departments_keyboard w) = length (Router.departments w) /\
     forall i d0,
       Router.departments w !! i = Some d0 ->
       let btn := {| button_text := dept_icon d0 +:+ " " +:+ dept_name d0;
                     button_data := "dept_" +:+ dept_id d0 |} in
       let ev := {| sender := u; payload := button_data btn |} in
       Router.get_departments_keyboard w !! i = Some [btn] /\
       exists d,
         Router.get_department_by_id w (dept_id d0) = Some d /\
         In d (Router.departments w) /\ dept_id d = dept_id d0 /\
         ((forall j d', (j < i)%nat -> Router.departments w !! j = Some d' ->
                        dept_id d' <> dept_id d0) -> d = d0) /\
         Router.handle_callback_query ev w
         = (tg (Edit (user_id u)
                  ("Connecting you to " +:+ dept_icon d +:+ " " +:+ dept_name d
                   +:+ "...")) ;;;
            Router.select_department ev d u) w) /\
  (forall (w : Space.self) (u : user),
     length (Space.get_departments_keyboard w) = length (Space.departments w) /\
     forall i d0,
       Space.departments w !! i = Some d0 ->
       let btn := {| button_text := dept_icon d0 +:+ " " +:+ dept_name d0;
                     button_data := "dept_" +:+ dept_id d0 |} in
       let ev := {| sender := u; payload := button_data btn |} in
       Space.get_departments_keyboard w !! i = Some [btn] /\
       exists d,
         Space.get_department_by_id w (dept_id d0) = Some d /\
         In d (Space.departments w) /\ dept_id d = dept_id d0 /\
         ((forall j d', (j < i)%nat -> Space.departments w !! j = Some d' ->
                        dept_id d' <> dept_id d0) -> d = d0) /\
         Space.handle_callback_query ev w
         = (tg (Edit (user_id u)
                  ("Connecting you to " +:+ dept_icon d +:+ " " +:+ dept_name d
                   +:+ "...")) ;;;
            Space.select_department ev d u) w).
Proof.
  split; intros w u; (split; [apply List.length_map|]); intros i d0 Hi btn ev.
  - split; [exact (map_lookup_some _ _ _ _ Hi)|].
    assert (In d0 (Router.departments w)) as Hin
      by (apply list_elem_of_In; eapply list_elem_of_lookup_2; exact Hi).
    destruct (find_department_some _ _ Hin) as (d & Hfind).
    pose proof (router_find_department w _ _ Hfind) as (Hd & Hid).
    exists d. split; [exact Hfind|]. split; [exact Hd|]. split; [exact Hid|].
    split.
    + intros Hfirst. pose proof (find_department_first _ _ _ Hi Hfirst) as E.
      rewrite E in Hfind. now inversion Hfind.
    + subst ev btn. unfold Router.handle_callback_query. cbn [payload sender button_data].
      rewrite startswith_app, drop_dept_prefix.
      unfold Router.get_department_by_id in *. now rewrite Hfind.
  - split; [exact (map_lookup_some _ _ _ _ Hi)|].
    assert (In d0 (Space.departments w)) as Hin
      by (apply list_elem_of_In; eapply list_elem_of_lookup_2; exact Hi).
    destruct (find_department_some _ _ Hin) as (d & Hfind).
    pose proof (space_find_department w _ _ Hfind) as (Hd & Hid).
    exists d. split; [exact Hfind|]. split; [exact Hd|]. split; [exact Hid|].
    split.
    + intros Hfirst. pose proof (find_department_first _ _ _ Hi Hfirst) as E.
      rewrite E in Hfind. now inversion Hfind.
    + subst ev btn. unfold Space.handle_callback_query. cbn [payload sender button_data].
      rewrite startswith_app, drop_dept_prefix.
      unfold Space.get_department_by_id in *. now rewrite Hfind.
Qed.

Lemma keyboard_buttons_select_witness :
  let w := Example.router Example.accepting in
  let btn := {| button_text := "? Support"; button_data := "dept_support" |} in
  let ev := {| sender := Example.alice; payload := button_data btn |} in
  Router.get_departments_keyboard w !! 1%nat = Some [btn] /\
  Router.handle_callback_query ev w
  = (tg (Edit 7 "Connecting you to ? Support...") ;;;
     Router.select_department ev Example.support Example.alice) w.
Proof.
  intros w btn ev.
  destruct keyboard_buttons_select as (Hrouter & _).
  destruct (Hrouter w Example.alice) as (_ & Hrows).
  destruct (Hrows 1%nat Example.support) as (Hrow & d & _ & _ & _ & Hfirst & Hpress);
    [reflexivity|].
  split; [exact Hrow|].
  assert (d = Example.support) as ->.
  { apply Hfirst. intros [|j] d' Hj Hl; [|lia].
    cbn in Hl. inversion Hl. discriminate. }
  exact Hpress.
Defined.

Lemma router_select_returns ev d u (w : Router.self) :
  Router.select_department ev d u w
  = (Ok tt, snd (Router.select_department ev d u w)).
Proof.
  pose proof (router_select_effect ev d u w) as (Hok & _). cbv zeta in Hok.
  destruct (Router.select_department ev d u w) as [rv w']. cbn in *. now subst.
Qed.

Lemma space_select_returns ev d u (w : Space.self) :
  In d (Space.departments w) ->
  Space.select_department ev d u w
  = (Ok tt, snd (Space.select_department ev d u w)).
Proof.
  intros Hin. destruct (space_select_step ev d u w Hin) as (w' & _ & _ & _ & -> & _).
  reflexivity.
Qed.

(** Extra X5.  A deep link selects the department at once: for a known
    department id, the message [/start <id>] does what
    [select_department] does for that department, and nothing else (the
    menu is not shown, the message handler skips the command). *)
Theorem start_with_department_selects (u : user) (id : string) (d : department) :
  id <> "" ->
  let ev := {| sender := u; payload := "/start " +:+ id |} in
  (forall w : Router.self,
     Router.get_department_by_id w id = Some d ->
     Router.on_new_message ev w = Router.select_department ev d u w) /\
  (forall w : Space.self,
     Space.get_department_by_id w id = Some d ->
     Space.on_new_message ev w = Space.select_department ev d u w).
Proof.
  intros Hne ev.
  assert (startswith "/start" (payload ev) = true) as Hstart
    by exact (startswith_app "/start" (" " +:+ id)).
  assert (snd (split_space (payload ev)) = Some id) as Hsplit by reflexivity.
  destruct id as [|c id]; [contradiction|].
  split; intros w Hfind.
  - unfold Router.on_new_message, Router.message_handler.
    rewrite Hstart, (start_is_command _ Hstart).
    unfold Router.start_handler. rewrite Hsplit.
    unfold bind, Router.handle_start_command. rewrite Hfind.
    change (sender ev) with u. now rewrite router_select_returns.
  - unfold Space.on_new_message, Space.message_handler.
    rewrite Hstart, (start_is_command _ Hstart).
    unfold Space.start_handler. rewrite Hsplit.
    unfold bind, Space.handle_start_command. rewrite Hfind.
    change (sender ev) with u. rewrite space_select_returns; [reflexivity|].
    now apply space_find_department in Hfind.
Qed.

Lemma start_with_department_selects_witness :
  let ev := Example.says "/start support" in
  let w := Example.router Example.accepting in
  Router.on_new_message ev w
  = Router.select_department ev Example.support Example.alice w.
Proof.
  intros ev w.
  destruct (start_with_department_selects Example.alice "support" Example.support)
    as (Hrouter & _); [discriminate|].
  now apply Hrouter.
Defined.

(** Extra X6.  A selection whose room is not created changes no session:
    when the homeserver does not answer the createRoom request with a
    200 that carries a non-empty room id, every session is as before (a
    user in conversation stays with the old room), the user is told that
    the connection failed, and no message is sent to any room. *)
Theorem failed_provisioning_keeps_sessions (ev : event) (d : department) (u : user) :
  (forall w : Router.self,
     (forall room,
         accepted (server (env (Router.net w)) (requests (Router.net w))
                     (Router.create_room_request d u)) = Some (Some room) ->
         room = "") ->
     let w' := snd (Router.select_department ev d u w) in
     Router.user_sessions w' = Router.user_sessions w /\
     telegram (Router.net w')
       = telegram (Router.net w)
         ++ [Respond (user_id u) Router.connect_failed None] /\
     count is_send (requests (Router.net w'))
       = count is_send (requests (Router.net w))) /\
  (forall (w : Space.self) sid,
     Space.space_cache w !! "telegram" = Some sid ->
     (forall room,
         accepted (server (env (Space.net w)) (requests (Space.net w))
                     (Space.create_room_request d u)) = Some (Some room) ->
         room = "") ->
     let w' := snd (Space.select_department ev d u w) in
     Space.user_sessions w' = Space.user_sessions w /\
     telegram (Space.net w')
       = telegram (Space.net w)
         ++ [Respond (user_id u) Space.connect_failed None] /\
     count is_send (requests (Space.net w'))
       = count is_send (requests (Space.net w))).
Proof.
  assert (forall room hs tok l,
             count is_send (List.map (Space.invite_request room hs tok) l) = 0%nat)
    as Hinv.
  { intros room hs tok l. induction l as [|a l IH]; [reflexivity|exact IH]. }
  split.
  - intros w Hfail w'. subst w'.
    pose proof (router_select_effect ev d u w) as (_ & H). cbv zeta in H.
    destruct (accepted _) as [[[|c s]|]|]; try (specialize (Hfail _ eq_refl); discriminate);
      destruct H as (_ & Hs & _ & Hr & Ht); rewrite Hs, Hr, Ht, count_app;
      (split; [reflexivity|]); (split; [reflexivity|]);
      match goal with |- (_ + ?c)%nat = _ => replace c with 0%nat by reflexivity end;
      lia.
  - intros w sid Hhit Hfail w'. subst w'.
    pose proof (space_select_effect ev d u w sid Hhit) as H. cbv zeta in H.
    destruct (accepted _) as [[[|c s]|]|]; try (specialize (Hfail _ eq_refl); discriminate).
    + destruct H as (w' & att & -> & _ & _ & _ & Hs & _ & _ & Hr & Ht). cbn [snd].
      rewrite Hs, Hr, Ht, !count_app, Hinv. repeat split.
      replace (count is_send [_; _]) with 0%nat by reflexivity. lia.
    + destruct H as (w' & att & -> & _ & _ & _ & Hs & _ & _ & Hr & Ht). cbn [snd].
      rewrite Hs, Hr, Ht, !count_app, Hinv. repeat split.
      replace (count is_send [_; _]) with 0%nat by reflexivity. lia.
    + destruct H as (w' & -> & _ & _ & Hs & _ & _ & Hr & Ht). cbn [snd].
      rewrite Hs, Hr, Ht, !count_app. repeat split.
      replace (count is_send [_]) with 0%nat by reflexivity. lia.
Qed.

Lemma failed_provisioning_keeps_sessions_witness :
  let w := Example.router_chatting Example.failing in
  let w' := snd (Router.select_department (Example.says "dept_support")
                   Example.support Example.alice w) in
  Router.user_sessions w' !! 7 = Some (chatting Example.sales "!room0:localhost") /\
  telegram (Router.net w') = [Respond 7 Router.connect_failed None].
Proof.
  intros w w'.
  destruct (failed_provisioning_keeps_sessions (Example.says "dept_support")
              Example.support Example.alice) as (Hrouter & _).
  destruct (Hrouter w) as (Hs & Ht & _); [intros room; discriminate|].
  fold w' in Hs, Ht. rewrite Hs, Ht. split; reflexivity.
Defined.

(** Extra X7.  A 200 reply to createRoom that carries no room id is taken
    for a failure by the router only after the invite: the bot user is
    invited to the room called None, the user is told that the connection
    failed, and the session is not changed. *)
Theorem reply_without_room_id (ev : event) (d : department) (u : user)
    (w : Router.self) :
  accepted (server (env (Router.net w)) (requests (Router.net w))
              (Router.create_room_request d u)) = Some None ->
  let w' := snd (Router.select_department ev d u w) in
  let invite := Router.invite_request None (bot_user_id (dept_matrix d)) d in
  requests (Router.net w')
    = requests (Router.net w) ++ [Router.create_room_request d u; invite] /\
  url invite
    = homeserver (dept_matrix d) +:+ "/_matrix/client/v3/rooms/None/invite" /\
  telegram (Router.net w')
    = telegram (Router.net w) ++ [Respond (user_id u) Router.connect_failed None] /\
  Router.user_sessions w' = Router.user_sessions w.
Proof.
  intros Hacc w' invite. subst w'.
  pose proof (router_select_effect ev d u w) as (_ & H). cbv zeta in H.
  rewrite Hacc in H. destruct H as (_ & Hs & _ & Hr & Ht).
  now rewrite Hs, Hr, Ht.
Qed.

Lemma reply_without_room_id_witness :
  let empty_reply : list request -> request -> answer :=
    fun _ _ => Reply {| status := 200; text := "{}"; body := JsonObject None |} in
  let w' := snd (Router.select_department (Example.says "dept_sales") Example.sales
                   Example.alice (Example.router empty_reply)) in
  List.map url (requests (Router.net w'))
  = ["http://localhost:8008/_matrix/client/v3/createRoom";
     "http://localhost:8008/_matrix/client/v3/rooms/None/invite"].
Proof.
  intros empty_reply w'.
  destruct (reply_without_room_id (Example.says "dept_sales") Example.sales
              Example.alice (Example.router empty_reply)) as (Hr & _);
    [reflexivity|].
  fold w' in Hr. rewrite Hr. reflexivity.
Defined.

(** Extra X8.  A /start without a department abandons the conversation:
    the user's session becomes selecting_department whatever it was, so
    that the free-text message that follows is answered with the menu
    again and is not relayed; the two events issue no request at all. *)
Theorem start_abandons_conversation (ev : event) (t : string) :
  startswith "/start" (payload ev) = true ->
  snd (split_space (payload ev)) = None ->
  startswith "/" t = false ->
  let next := {| sender := sender ev; payload := t |} in
  (forall w : Router.self,
     let w' := snd (Router.run [Router.NewMessage ev; Router.NewMessage next] w) in
     let menu := Respond (user_id (sender ev)) (Router.welcome_message (sender ev))
                   (Some (Router.get_departments_keyboard w)) in
     requests (Router.net w') = requests (Router.net w) /\
     telegram (Router.net w') = telegram (Router.net w) ++ [menu; menu] /\
     Router.user_sessions w' !! user_id (sender ev) = Some selecting_department) /\
  (forall w : Space.self,
     let w' := snd (Space.run [Space.NewMessage ev; Space.NewMessage next] w) in
     let menu := Respond (user_id (sender ev)) (Space.welcome_message (sender ev))
                   (Some (Space.get_departments_keyboard w)) in
     requests (Space.net w') = requests (Space.net w) /\
     telegram (Space.net w') = telegram (Space.net w) ++ [menu; menu] /\
     Space.user_sessions w' !! user_id (sender ev) = Some selecting_department).
Proof.
  intros Hstart Hsplit Hfree next. split; intros w w' menu; subst w' menu.
  - assert (Router.run [Router.NewMessage ev; Router.NewMessage next] w
            = Router.handle_start_command next None
                (snd (Router.handle_start_command ev None w))) as ->.
    { cbn [Router.run Router.dispatch].
      unfold Router.on_new_message, Router.message_handler.
      change (payload next) with t.
      rewrite Hstart, (start_is_command _ Hstart),
        (free_text_is_no_start _ Hfree), Hfree.
      unfold Router.start_handler. rewrite Hsplit.
      unfold bind, ret. rewrite router_prompt. cbn [snd].
      rewrite router_handle_message_idle.
      2: { intros d r. cbn. rewrite lookup_insert_eq. discriminate. }
      now rewrite router_prompt. }
    rewrite !router_prompt. cbn. rewrite <- app_assoc.
    repeat split. apply lookup_insert_eq.
  - assert (Space.run [Space.NewMessage ev; Space.NewMessage next] w
            = Space.handle_start_command next None
                (snd (Space.handle_start_command ev None w))) as ->.
    { cbn [Space.run Space.dispatch].
      unfold Space.on_new_message, Space.message_handler.
      change (payload next) with t.
      rewrite Hstart, (start_is_command _ Hstart),
        (free_text_is_no_start _ Hfree), Hfree.
      unfold Space.start_handler. rewrite Hsplit.
      unfold bind, ret. rewrite space_prompt. cbn [snd].
      rewrite space_handle_message_idle.
      2: { intros d r. cbn. rewrite lookup_insert_eq. discriminate. }
      now rewrite space_prompt. }
    rewrite !space_prompt. cbn. rewrite <- app_assoc.
    repeat split. apply lookup_insert_eq.
Qed.

Lemma start_abandons_conversation_witness :
  let w := Example.router_chatting Example.accepting in
  let w' := snd (Router.run [Router.NewMessage (Example.says "/start");
                             Router.NewMessage (Example.says "hello again")] w) in
  Router.user_sessions w !! 7 = Some (chatting Example.sales "!room0:localhost") /\
  requests (Router.net w') = [] /\
  Router.user_sessions w' !! 7 = Some selecting_department.
Proof.
  intros w w'.
  destruct (start_abandons_conversation (Example.says "/start") "hello again")
    as (Hrouter & _); [reflexivity..|].
  destruct (Hrouter w) as (Hr & _ & Hs).
  split; [reflexivity|]. split; [exact Hr|exact Hs].
Defined.

(** * Provisioning in the space integration *)

Lemma space_hierarchy_caches (w w1 : Space.self) sid :
  Space.ensure_telegram_space_hierarchy w = (Ok sid, w1) ->
  Space.space_cache w1 !! "telegram" = Some sid.
Proof.
  intros Hrun.
  destruct (space_hierarchy_any w) as (res & w1' & c & new & Hrun' & _ & Hres).
  rewrite Hrun in Hrun'. injection Hrun' as <- <-. exact Hres.
Qed.

(** Extra X9.  Provisioning resolves the Telegram space and then
    provisions against what the resolution left: when the resolution
    returns the space [sid], on a first use as well as from the cache,
    and the homeserver accepts the createRoom request that follows, the
    result is the new room, and the request after the createRoom puts the
    room below that space (the space is the parent, the room the child). *)
Theorem provisioning_links_room_under_space d u (w w1 : Space.self) sid r :
  Space.ensure_telegram_space_hierarchy w = (Ok sid, w1) ->
  accepted (server (env (Space.net w1)) (requests (Space.net w1))
              (Space.create_room_request d u)) = Some r ->
  let res := Space.create_telegram_room_in_space d u w in
  let link :=
    Space.child_request r sid (access_token (dept_matrix d))
      (homeserver (dept_matrix d))
      (str_of_int (loop_time_ms (env (Space.net w1))
                     (S (length (requests (Space.net w1)))))) in
  res = Space.create_telegram_room_in_space d u w1 /\
  fst res = Ok r /\
  req_endpoint link = SpaceChild (fmt sid) (fmt r) /\
  exists invites,
    requests (Space.net (snd res))
    = requests (Space.net w1) ++ [Space.create_room_request d u; link] ++ invites.
Proof.
  intros Hrun Hacc res link. subst res.
  pose proof (space_hierarchy_caches _ _ _ Hrun) as Hhit.
  rewrite (space_create_after_resolution d u w w1 sid Hrun Hhit).
  split; [reflexivity|].
  pose proof (space_create_effect d u w1 sid Hhit) as H. cbv zeta in H.
  rewrite Hacc in H. destruct H as (w' & att & -> & _ & Heff & _). cbn [fst snd].
  split; [reflexivity|]. split; [reflexivity|].
  destruct Heff as (_ & _ & _ & _ & _ & -> & _). eexists. reflexivity.
Qed.

Lemma provisioning_links_room_under_space_witness :
  let w := Example.space Example.accepting in
  let res := Space.create_telegram_room_in_space Example.sales Example.alice w in
  fst res = Ok (Some "!room3:localhost") /\
  List.map req_endpoint (requests (Space.net (snd res)))
  = [CreateRoom; CreateRoom; SpaceChild "!room0:localhost" "!room1:localhost";
     CreateRoom; SpaceChild "!room1:localhost" "!room3:localhost";
     RoomInvite "!room3:localhost"; RoomInvite "!room3:localhost";
     RoomInvite "!room3:localhost"].
Proof.
  intros w res.
  destruct (provisioning_links_room_under_space Example.sales Example.alice w
              (snd (Space.ensure_telegram_space_hierarchy w))
              (Some "!room1:localhost") (Some "!room3:localhost"))
    as (_ & Hok & _); [reflexivity|reflexivity|].
  split; [exact Hok|]. vm_compute. reflexivity.
Defined.

(** Extra X10.  A first resolution that succeeds issues three requests,
    in this order: the createRoom for the root space, the createRoom for
    the Telegram space, and the state event that puts the Telegram space
    below the root.  Its result, which goes to the cache, is the id of
    the Telegram space, whatever the homeserver answers to the third
    request. *)
Theorem resolution_creates_root_then_channel (w : Space.self) d0 ds root tc r :
  Space.space_cache w !! "telegram" = None ->
  Space.departments w = d0 :: ds ->
  let root_req := Space.space_request (dept_matrix d0)
                    (rootSpace (Space.spaces w)) in
  let channel_req := Space.space_request (dept_matrix d0) tc in
  accepted (server (env (Space.net w)) (requests (Space.net w)) root_req)
    = Some root ->
  List.find (fun channel => String.eqb (space_id channel) "telegram")
    (communicationChannels (Space.spaces w)) = Some tc ->
  accepted (server (env (Space.net w)) (requests (Space.net w) ++ [root_req])
              channel_req) = Some r ->
  let res := Space.ensure_telegram_space_hierarchy w in
  let link :=
    Space.child_request r root (access_token (dept_matrix d0))
      (homeserver (dept_matrix d0))
      (str_of_int (loop_time_ms (env (Space.net w))
                     (S (S (length (requests (Space.net w))))))) in
  fst res = Ok r /\
  requests (Space.net (snd res))
    = requests (Space.net w) ++ [root_req; channel_req; link] /\
  req_endpoint link = SpaceChild (fmt root) (fmt r) /\
  Space.space_cache (snd res) = <["telegram" := r]> (Space.space_cache w).
Proof.
  intros Hmiss Hdep root_req channel_req Hacc1 Htc Hacc2 res link. subst res.
  destruct (space_hierarchy_effect w Hmiss) as (res & w1 & new & -> & Heff & Hcase).
  specialize (Hcase d0 ds Hdep). cbv zeta in Hcase. fold root_req in Hcase.
  rewrite Hacc1 in Hcase. specialize (Hcase tc Htc). fold channel_req in Hcase.
  rewrite Hacc2 in Hcase. destruct Hcase as (-> & ->). cbn [fst snd].
  destruct Heff as (_ & _ & _ & Hc & _ & Hr & _). now rewrite Hr, Hc.
Qed.

Lemma resolution_creates_root_then_channel_witness :
  let link_refused : list request -> request -> answer :=
    fun history r =>
      match req_endpoint r with
      | SpaceChild _ _ => ClientError "Server disconnected"
      | _ => Example.accepting history r
      end in
  let res := Space.ensure_telegram_space_hierarchy (Example.space link_refused) in
  fst res = Ok (Some "!room1:localhost") /\
  List.map url (requests (Space.net (snd res)))
  = ["http://localhost:8008/_matrix/client/v3/createRoom";
     "http://localhost:8008/_matrix/client/v3/createRoom";
     "http://localhost:8008/_matrix/client/v3/rooms/!room0:localhost/state/m.space.child/!room1:localhost"].
Proof.
  intros link_refused res.
  destruct (resolution_creates_root_then_channel (Example.space link_refused)
              Example.sales [Example.support] (Some "!room0:localhost")
              {| space_id := "telegram"; space_name := "Telegram";
                 space_topic := "Telegram conversations" |}
              (Some "!room1:localhost"))
    as (Hok & Hr & _); try reflexivity.
  fold res in Hok, Hr. split; [exact Hok|]. rewrite Hr. reflexivity.
Defined.

(** Extra X11.  When the Telegram space cannot be resolved, no
    conversation room is asked for: the selection issues no request
    beyond those of the resolution, tells the user that the connection
    failed, and leaves the sessions and the cache as they were. *)
Theorem unresolved_space_fails_selection ev d u (w w1 : Space.self) e :
  Space.ensure_telegram_space_hierarchy w = (Raise e, w1) ->
  let res := Space.select_department ev d u w in
  fst res = Ok tt /\
  requests (Space.net (snd res)) = requests (Space.net w1) /\
  telegram (Space.net (snd res))
    = telegram (Space.net w) ++ [Respond (user_id u) Space.connect_failed None] /\
  Space.user_sessions (snd res) = Space.user_sessions w /\
  Space.space_cache (snd res) = Space.space_cache w.
Proof.
  intros Hrun res. subst res.
  destruct (space_hierarchy_any w) as (res & w1' & c & new & Hrun' & Heff & Hres).
  rewrite Hrun in Hrun'. injection Hrun' as <- <-. subst c.
  unfold Space.select_department, bind.
  rewrite (space_create_unresolved d u w w1 e Hrun). cbn.
  destruct Heff as (_ & _ & Hs & Hc & _ & _ & Ht).
  now rewrite Hs, Hc, Ht, app_nil_r.
Qed.

Lemma unresolved_space_fails_selection_witness :
  let w := Example.space Example.unreachable in
  let res := Space.select_department (Example.says "dept_sales") Example.sales
               Example.alice w in
  List.map req_endpoint (requests (Space.net (snd res))) = [CreateRoom] /\
  telegram (Space.net (snd res)) = [Respond 7 Space.connect_failed None] /\
  Space.space_cache (snd res) = ∅.
Proof.
  intros w res.
  destruct (unresolved_space_fails_selection (Example.says "dept_sales")
              Example.sales Example.alice w
              (snd (Space.ensure_telegram_space_hierarchy w))
              "Cannot connect to host")
    as (_ & Hr & Ht & _ & Hc); [reflexivity|].
  fold res in Hr, Ht, Hc. rewrite Hr, Ht, Hc. repeat split.
Defined.

(** Extra X12.  A spaces configuration without a telegram channel is
    found out only after the root space has been created: the resolution
    issues the createRoom for the root, then raises "Telegram space
    configuration not found", and leaves the cache as it was. *)
Theorem missing_channel_configuration (w : Space.self) d0 ds root :
  Space.space_cache w !! "telegram" = None ->
  Space.departments w = d0 :: ds ->
  let root_req := Space.space_request (dept_matrix d0)
                    (rootSpace (Space.spaces w)) in
  accepted (server (env (Space.net w)) (requests (Space.net w)) root_req)
    = Some root ->
  List.find (fun channel => String.eqb (space_id channel) "telegram")
    (communicationChannels (Space.spaces w)) = None ->
  let res := Space.ensure_telegram_space_hierarchy w in
  fst res = Raise "Telegram space configuration not found" /\
  requests (Space.net (snd res)) = requests (Space.net w) ++ [root_req] /\
  Space.space_cache (snd res) = Space.space_cache w.
Proof.
  intros Hmiss Hdep root_req Hacc Hfind res. subst res.
  assert (exists w',
             Space.ensure_telegram_space_hierarchy w
             = (Raise "Telegram space configuration not found", w') /\
             requests (Space.net w') = requests (Space.net w) ++ [root_req] /\
             Space.space_cache w' = Space.space_cache w) as (w' & -> & Hr & Hc).
  { unfold Space.ensure_telegram_space_hierarchy, try_except. rewrite Hmiss.
    destruct (space_root_effect w) as (res1 & w1 & new1 & Hrun1 & Heff1 & Hcase1).
    rewrite Hdep in Hcase1. cbv zeta in Hcase1. fold root_req in Hcase1.
    rewrite Hacc in Hcase1. destruct Hcase1 as (-> & ->).
    unfold bind at 1. rewrite Hrun1.
    destruct (space_channel_effect root w1)
      as (res2 & w2 & new2 & Hrun2 & Heff2 & Hcase2).
    pose proof Heff1 as (Hd1 & Hp1 & _).
    rewrite Hd1, Hp1, Hdep, Hfind in Hcase2. destruct Hcase2 as (-> & ->).
    unfold bind at 1. rewrite Hrun2.
    pose proof (space_effect_then _ _ _ _ _ _ _ _ _ Heff1 Heff2)
      as (_ & _ & _ & Hc & _ & Hr & _).
    eexists. split; [reflexivity|]. cbn. now rewrite Hr, Hc. }
  now cbn.
Qed.

Lemma missing_channel_configuration_witness :
  let w :=
    {| Space.departments := [Example.sales];
       Space.spaces :=
         {| rootSpace := rootSpace Example.the_spaces;
            communicationChannels :=
              [ {| space_id := "web"; space_name := "Web Chat";
                   space_topic := "Widget" |} ] |};
       Space.user_sessions := ∅; Space.space_cache := ∅;
       Space.net := Example.fresh Example.accepting |} in
  let res := Space.ensure_telegram_space_hierarchy w in
  fst res = Raise "Telegram space configuration not found" /\
  List.map req_endpoint (requests (Space.net (snd res))) = [CreateRoom].
Proof.
  intros w res.
  destruct (missing_channel_configuration w Example.sales []
              (Some "!room0:localhost")) as (Hres & Hr & _); try reflexivity.
  fold res in Hres, Hr. split; [exact Hres|]. rewrite Hr. reflexivity.
Defined.

(** Extra X13.  A failed resolution is not remembered, not even in part:
    the next resolution starts again with a createRoom request for the
    root space, also when the failed one had already created a root. *)
Theorem failed_resolution_restarts_at_root (w w1 : Space.self) d0 ds tc e :
  Space.space_cache w !! "telegram" = None ->
  Space.departments w = d0 :: ds ->
  List.find (fun channel => String.eqb (space_id channel) "telegram")
    (communicationChannels (Space.spaces w)) = Some tc ->
  Space.ensure_telegram_space_hierarchy w = (Raise e, w1) ->
  exists rest,
    requests (Space.net (snd (Space.ensure_telegram_space_hierarchy w1)))
    = requests (Space.net w1)
      ++ Space.space_request (dept_matrix d0) (rootSpace (Space.spaces w)) :: rest.
Proof.
  intros Hmiss Hdep Htc Hrun.
  destruct (space_hierarchy_any w) as (res & w1' & c & new & Hrun' & Heff & Hres).
  rewrite Hrun in Hrun'. injection Hrun' as <- <-. subst c.
  destruct Heff as (Hd & Hp & _ & Hc & _).
  assert (Space.space_cache w1 !! "telegram" = None) as Hmiss1 by now rewrite Hc.
  destruct (space_hierarchy_effect w1 Hmiss1)
    as (res2 & w2 & new2 & Hrun2 & Heff2 & Hcase).
  rewrite Hrun2. cbn [snd].
  assert (requests (Space.net w2) = requests (Space.net w1) ++ new2) as ->.
  { destruct res2; now destruct Heff2 as (_ & _ & _ & _ & _ & -> & _). }
  rewrite Hd in Hcase. specialize (Hcase d0 ds Hdep). cbv zeta in Hcase.
  rewrite Hp in Hcase.
  destruct (accepted _) as [root|].
  - specialize (Hcase tc Htc).
    destruct (accepted _); [destruct Hcase as (_ & ->)|destruct Hcase as (-> & _)];
      eexists; reflexivity.
  - destruct Hcase as (-> & _). eexists; reflexivity.
Qed.

Lemma failed_resolution_restarts_at_root_witness :
  let second_refused : list request -> request -> answer :=
    fun history r =>
      match history with
      | [_] => Reply Example.error_reply
      | _ => Example.accepting history r
      end in
  let w := Example.space second_refused in
  let w1 := snd (Space.ensure_telegram_space_hierarchy w) in
  let w2 := snd (Space.ensure_telegram_space_hierarchy w1) in
  fst (Space.ensure_telegram_space_hierarchy w)
    = Raise "Failed to create Telegram space: 500" /\
  count is_create_room (requests (Space.net w1)) = 2%nat /\
  exists rest,
    requests (Space.net w2)
    = requests (Space.net w1)
      ++ Space.space_request (dept_matrix Example.sales)
           (rootSpace Example.the_spaces) :: rest.
Proof.
  intros second_refused w w1 w2.
  split; [reflexivity|]. split; [reflexivity|].
  apply (failed_resolution_restarts_at_root w w1 Example.sales [Example.support]
           {| space_id := "telegram"; space_name := "Telegram";
              space_topic := "Telegram conversations" |}
           "Failed to create Telegram space: 500"); reflexivity.
Defined.

(** * Further properties of the department bot *)

(** Extra X14.  The handlers of the department bot never talk to the
    homeserver: a /start command, a department selection and a message
    return normally without a request; and a message of a user who has a
    session is only logged: nothing is replied and no session changes. *)
Theorem bot_handlers_issue_no_request (upd : Bot.update) (w : Bot.self) :
  (fst (Bot.start_command upd w) = Ok tt /\
   requests (Bot.net (snd (Bot.start_command upd w))) = requests (Bot.net w)) /\
  (fst (Bot.department_callback upd w) = Ok tt /\
   requests (Bot.net (snd (Bot.department_callback upd w)))
     = requests (Bot.net w)) /\
  (fst (Bot.handle_message upd w) = Ok tt /\
   requests (Bot.net (snd (Bot.handle_message upd w))) = requests (Bot.net w)) /\
  (forall user_session,
     Bot.user_sessions w !! user_id (Bot.effective_user upd) = Some user_session ->
     telegram (Bot.net (snd (Bot.handle_message upd w))) = telegram (Bot.net w) /\
     Bot.user_sessions (snd (Bot.handle_message upd w)) = Bot.user_sessions w).
Proof.
  split; [now split|]. split; [|split].
  - unfold Bot.department_callback, bind, tg, log, now_iso, new_uuid,
      Bot.set_session. cbn [get_io set_io Bot.self_world].
    now destruct (Bot.lookup_department _).
  - unfold Bot.handle_message. now destruct (Bot.user_sessions w !! _).
  - intros user_session Hs. unfold Bot.handle_message. now rewrite Hs.
Qed.

Lemma bot_handlers_issue_no_request_witness :
  let w := snd (Bot.department_callback (Example.presses "dept_technical")
                  (Example.bot Example.accepting)) in
  let w' := snd (Bot.handle_message (Example.presses "my screen is black") w) in
  telegram (Bot.net w') = telegram (Bot.net w) /\
  Bot.user_sessions w' = Bot.user_sessions w.
Proof.
  intros w w'.
  destruct (bot_handlers_issue_no_request (Example.presses "my screen is black") w)
    as (_ & _ & _ & Hsilent).
  destruct (Bot.user_sessions w !! 7) as [user_session|] eqn:Hs;
    [|vm_compute in Hs; discriminate].
  exact (Hsilent user_session Hs).
Defined.

(** Extra X15.  A room of the department bot needs a session and a known
    department: for a user without a session, or a department that is
    not one of the four, [create_matrix_room] returns [None] and
    [send_matrix_notification] returns, both without a request and
    without raising; the missing key only reaches the log. *)
Theorem bot_room_needs_session_and_department uid dept room (w : Bot.self) :
  Bot.user_sessions w !! uid = None \/ Bot.lookup_department dept = None ->
  let created := Bot.create_matrix_room uid dept w in
  let notified := Bot.send_matrix_notification room uid dept w in
  fst created = Ok None /\
  requests (Bot.net (snd created)) = requests (Bot.net w) /\
  fst notified = Ok tt /\
  requests (Bot.net (snd notified)) = requests (Bot.net w) /\
  (exists key,
      logs (Bot.net (snd created))
      = logs (Bot.net w) ++ [(ERROR, "Error creating Matrix room: " +:+ key)]).
Proof.
  intros Hmissing created notified. subst created notified.
  unfold Bot.create_matrix_room, Bot.send_matrix_notification, try_except, bind,
    ret, raise, log. cbn [get_io set_io Bot.self_world].
  destruct (Bot.user_sessions w !! uid) as [user_session|];
    [destruct (Bot.lookup_department dept) as [dept_info|];
     [destruct Hmissing; discriminate|]|];
    cbn; repeat split; eexists; reflexivity.
Qed.

Lemma bot_room_needs_session_and_department_witness :
  let created := Bot.create_matrix_room 7 "general" (Example.bot Example.accepting) in
  fst created = Ok None /\
  requests (Bot.net (snd created)) = [] /\
  logs (Bot.net (snd created)) = [(ERROR, "Error creating Matrix room: 7")].
Proof.
  intros created.
  destruct (bot_room_needs_session_and_department 7 "general" "!room:localhost"
              (Example.bot Example.accepting))
    as (Hok & Hr & _); [left; reflexivity|].
  split; [exact Hok|]. split; [exact Hr|reflexivity].
Defined.

(** Extra X16.  With a session and a known department,
    [create_matrix_room] of the department bot never raises and returns a
    room id exactly when the homeserver answers the createRoom request
    with a 200 that carries a room id.  A 200 without a room id gives
    [None] and no invite at all. *)
Theorem bot_room_result uid dept (w : Bot.self) user_session dept_info :
  Bot.user_sessions w !! uid = Some user_session ->
  Bot.lookup_department dept = Some dept_info ->
  let request := Bot.create_room_request w uid dept user_session dept_info in
  let reply := accepted (server (env (Bot.net w)) (requests (Bot.net w)) request) in
  let res := Bot.create_matrix_room uid dept w in
  fst res = Ok (match reply with
                | Some (Some room) => Some room
                | _ => None
                end) /\
  (reply = Some None ->
   requests (Bot.net (snd res)) = requests (Bot.net w) ++ [request]).
Proof.
  intros Hs Hd request reply res. subst res.
  destruct reply as [[room|]|] eqn:Hacc; subst reply.
  - destruct (bot_create_effect uid dept w user_session dept_info room Hs Hd Hacc)
      as (w' & -> & _). now split.
  - unfold Bot.create_matrix_room, try_except, bind, ret, http, json_room_id, raise,
      log. cbn [get_io Bot.self_world]. rewrite Hs, Hd.
    fold (Bot.create_room_request w uid dept user_session dept_info).
    fold request. unfold accepted in Hacc. fold request in Hacc.
    destruct (server _ _ request) as [[st tx [|r]]|msg]; cbn [status body text] in *;
      try destruct (st =? 200); try discriminate.
    injection Hacc as ->. now cbn.
  - split; [|discriminate].
    unfold Bot.create_matrix_room, try_except, bind, ret, http, json_room_id, raise,
      log. cbn [get_io Bot.self_world]. rewrite Hs, Hd.
    fold (Bot.create_room_request w uid dept user_session dept_info).
    fold request. unfold accepted in Hacc. fold request in Hacc.
    destruct (server _ _ request) as [[st tx [|r]]|msg]; cbn [status body text] in *;
      try destruct (st =? 200); try discriminate; reflexivity.
Qed.

Lemma bot_room_result_witness :
  let empty_reply : list request -> request -> answer :=
    fun _ _ => Reply {| status := 200; text := "{}"; body := JsonObject None |} in
  let w := snd (Bot.department_callback (Example.presses "dept_general")
                  (Example.bot empty_reply)) in
  let res := Bot.create_matrix_room 7 "general" w in
  fst res = Ok None /\
  List.map req_endpoint (requests (Bot.net (snd res))) = [CreateRoom].
Proof.
  intros empty_reply w res.
  destruct (Bot.user_sessions w !! 7) as [user_session|] eqn:Hs;
    [|vm_compute in Hs; discriminate].
  destruct (Bot.lookup_department "general") as [dept_info|] eqn:Hd;
    [|vm_compute in Hd; discriminate].
  destruct (bot_room_result 7 "general" w user_session dept_info Hs Hd)
    as (Hok & Hr).
  split; [exact Hok|]. fold res in Hr. rewrite Hr; reflexivity.
Defined.

(** Extra X17.  The start-up check of the department bot never raises
    and looks at the first department only.  Without a department, or
    with neither an admin token nor an access token in it, it returns
    [False] without a request.  Otherwise it issues one whoami request,
    with the admin token when there is one and the access token when not,
    to the configured homeserver or to http://localhost:8008, and returns
    [True] exactly when the answer is a 200 with a JSON body. *)
Theorem matrix_session_check (departments : list Bot.matrix_section) (w : Bot.self) :
  let res := Bot.initialize_matrix_session departments w in
  match departments with
  | [] => fst res = Ok false /\ requests (Bot.net (snd res)) = requests (Bot.net w)
  | section :: _ =>
      let token :=
        if truthy (Bot.admin_access_token section)
        then Bot.admin_access_token section
        else Bot.section_access_token section in
      let homeserver :=
        default "http://localhost:8008" (Bot.section_homeserver section) in
      if truthy token then
        let request := Bot.whoami_request homeserver (default "" token) in
        requests (Bot.net (snd res)) = requests (Bot.net w) ++ [request] /\
        fst res
          = Ok (match accepted (server (env (Bot.net w)) (requests (Bot.net w))
                                  request) with
                | Some _ => true
                | None => false
                end) /\
        Bot.matrix_token (snd res) = default "" token /\
        Bot.matrix_homeserver (snd res) = homeserver
      else
        fst res = Ok false /\ requests (Bot.net (snd res)) = requests (Bot.net w)
  end.
Proof.
  cbv zeta. unfold Bot.initialize_matrix_session, try_except.
  destruct departments as [|section rest]; [now split|].
  set (token := if truthy (Bot.admin_access_token section) then _ else _).
  unfold bind, Bot.set_matrix, http, json_room_id, log, ret, raise, accepted.
  cbn [get_io set_io Bot.self_world Bot.net].
  destruct (truthy token); [|now split].
  cbn [requests env].
  destruct (server _ _ _) as [[st tx [|r]]|msg]; cbn [status body text];
    try destruct (st =? 200); cbn; now rewrite ?app_nil_r.
Qed.

(** Extra X18.  The bot token is that of the first enabled telegram entry
    of the social media list: the entries after it are not looked at,
    also when that first entry has no token, in which case no token is
    found.  Without such an entry no token is found either. *)
Theorem first_enabled_telegram_entry_decides
    (before after : list Bot.platform) (entry : Bot.platform) :
  Forall (fun p => Bot.is_enabled_telegram p = false) before ->
  (Bot.is_enabled_telegram entry = true ->
   Bot.find_bot_token (before ++ entry :: after) = Bot.bot_token entry) /\
  Bot.find_bot_token before = None.
Proof.
  induction 1 as [|p before Hp _ IH]; cbn [app Bot.find_bot_token].
  - split; [now intros ->|reflexivity].
  - rewrite Hp. exact IH.
Qed.

Lemma first_enabled_telegram_entry_decides_witness :
  let whatsapp := {| Bot.platform_name := Some "whatsapp"; Bot.enabled := true;
                     Bot.bot_token := Some "wa-token" |} in
  let disabled := {| Bot.platform_name := Some "telegram"; Bot.enabled := false;
                     Bot.bot_token := Some "old-token" |} in
  let first := {| Bot.platform_name := Some "telegram"; Bot.enabled := true;
                  Bot.bot_token := None |} in
  let second := {| Bot.platform_name := Some "telegram"; Bot.enabled := true;
                   Bot.bot_token := Some "123:abc" |} in
  Bot.find_bot_token [whatsapp; disabled; first; second] = None.
Proof.
  intros whatsapp disabled first second.
  destruct (first_enabled_telegram_entry_decides [whatsapp; disabled] [second] first)
    as (Hfound & _).
  - repeat constructor.
  - now apply Hfound.
Defined.

(** * The registration MAC of create_users.py *)

Lemma append_length (a b : string) :
  String.length (a +:+ b) = (String.length a + String.length b)%nat.
Proof.
  induction a as [|c a IH]; [reflexivity|].
  change (String c a +:+ b) with (String c (a +:+ b)). cbn [String.length].
  now rewrite IH.
Qed.

Lemma append_cancel_r (p p' t : string) : p +:+ t = p' +:+ t -> p = p'.
Proof.
  revert p'. induction p as [|c p IH]; intros [|c' p'] H.
  - reflexivity.
  - apply (f_equal String.length) in H. rewrite !append_length in H.
    cbn [String.length] in H. lia.
  - apply (f_equal String.length) in H. rewrite !append_length in H.
    cbn [String.length] in H. lia.
  - change (String c (p +:+ t) = String c' (p' +:+ t)) in H.
    injection H as -> H. now rewrite (IH _ H).
Qed.

Lemma split_at_nul (a a' b b' : string) :
  CreateUsers.nul_free a = true -> CreateUsers.nul_free a' = true ->
  a +:+ CreateUsers.nul +:+ b = a' +:+ CreateUsers.nul +:+ b' ->
  a = a' /\ b = b'.
Proof.
  revert a'. induction a as [|c a IH]; intros [|c' a'] Ha Ha' H.
  - change (String (Ascii.ascii_of_nat 0) b = String (Ascii.ascii_of_nat 0) b') in H.
    injection H as ->. now split.
  - change (String (Ascii.ascii_of_nat 0) b
            = String c' (a' +:+ CreateUsers.nul +:+ b')) in H.
    injection H as <- _. discriminate.
  - change (String c (a +:+ CreateUsers.nul +:+ b)
            = String (Ascii.ascii_of_nat 0) b') in H.
    injection H as -> _. discriminate.
  - change (String c (a +:+ CreateUsers.nul +:+ b)
            = String c' (a' +:+ CreateUsers.nul +:+ b')) in H.
    injection H as -> H. cbn [CreateUsers.nul_free] in Ha, Ha'.
    destruct (Ascii.eqb c' (Ascii.ascii_of_nat 0)); [discriminate|].
    destruct (IH a' Ha Ha' H) as (-> & ->). now split.
Qed.

Lemma flags_differ (p p' : string) :
  p +:+ CreateUsers.nul +:+ "admin" <> p' +:+ CreateUsers.nul +:+ "notadmin".
Proof.
  revert p'. induction p as [|c p IH]; intros [|c' p'] H.
  - discriminate.
  - apply (f_equal String.length) in H. rewrite !append_length in H.
    cbn [String.length] in H. lia.
  - change (String c (p +:+ CreateUsers.nul +:+ "admin")
            = String (Ascii.ascii_of_nat 0) "notadmin") in H.
    injection H as _ H. destruct p as [|x [|y [|z p]]]; try discriminate.
    change (String x (String y (String z (p +:+ CreateUsers.nul +:+ "admin")))
            = "notadmin") in H.
    injection H as _ _ _ H. apply (f_equal String.length) in H.
    rewrite !append_length in H. cbn [String.length] in H.
    change (String.length CreateUsers.nul) with 1%nat in H. lia.
  - change (String c (p +:+ CreateUsers.nul +:+ "admin")
            = String c' (p' +:+ CreateUsers.nul +:+ "notadmin")) in H.
    injection H as _ H. exact (IH _ H).
Qed.

(** Extra X19.  The message that [generate_mac] authenticates determines
    what is registered: when the nonce and the user name are free of the
    byte 0, two registrations with the same MAC message have the same
    nonce, user name, password and admin flag.  So the zero bytes between
    the fields cannot be used to move a boundary, and "admin" cannot be
    taken for "notadmin". *)
Theorem mac_message_is_unambiguous
    (nonce nonce' user user' password password' : string) (admin admin' : bool) :
  CreateUsers.nul_free nonce = true -> CreateUsers.nul_free nonce' = true ->
  CreateUsers.nul_free user = true -> CreateUsers.nul_free user' = true ->
  CreateUsers.mac_message nonce user password admin
    = CreateUsers.mac_message nonce' user' password' admin' ->
  nonce = nonce' /\ user = user' /\ password = password' /\ admin = admin'.
Proof.
  intros Hn Hn' Hu Hu' H. unfold CreateUsers.mac_message in H.
  apply split_at_nul in H as (-> & H); [|assumption..].
  apply split_at_nul in H as (-> & H); [|assumption..].
  split; [reflexivity|]. split; [reflexivity|].
  destruct admin, admin'.
  - now rewrite (append_cancel_r _ _ _ H).
  - now apply flags_differ in H.
  - symmetry in H. now apply flags_differ in H.
  - now rewrite (append_cancel_r _ _ _ H).
Qed.

Lemma mac_message_is_unambiguous_witness :
  ("nonce" = "nonce" /\ "support" = "support" /\ "support123" = "support123"
   /\ false = false) /\
  CreateUsers.mac_message "nonce" "admin" "admin" true
    <> CreateUsers.mac_message "nonce" "admin" "admin" false.
Proof.
  split.
  - apply (mac_message_is_unambiguous "nonce" "nonce" "support" "support"
             "support123" "support123" false false); reflexivity.
  - intros H.
    apply (mac_message_is_unambiguous "nonce" "nonce" "admin" "admin"
             "admin" "admin" true false) in H as (_ & _ & _ & Ha);
      try reflexivity.
    discriminate.
Defined.
